(** * Table consolidation engine of the bank-statement converter

    A shallow embedding of [backend/services/table_extractor.py]
    ([TableExtractor.process_tables_sequentially] and
    [TableExtractor.convert_to_structured_format]) together with the parts of
    Python and pandas these two methods rely on, followed by the properties
    of the consolidation design that hold of them; and of what surrounds the
    two methods: the preview of the ledger ([_extract_sample_transactions],
    [_find_column]), the conversions of [backend/services/converter.py]
    ([to_csv], [to_excel], [to_json], [convert_to_formats]) and the routes
    of [backend/routes/table_convert.py] that upload a statement
    ([_convert_with_config] and its endpoints) and download a converted
    file ([download_converted_file_method2]).

    Conventions of the embedding.
    - A Python [str] is a list of Unicode code points ([list N]).
    - A Python [dict] is an association list in insertion order.
    - A pandas [DataFrame] is a list of column labels and a list of rows, each
      row holding one cell per label; labels may repeat, as in pandas.
    - Column labels and row keys are text (an integer placeholder such as
      [0] is represented by the text [str()] makes of it, which is also what
      [json.dumps] makes of an integer key); a cell is text or missing
      ([None]/[NaN]).
    - A call returns a value or raises: [outcome].
    - [print] calls are left out.  The three-row preview
      [sample_transactions], which cannot raise on text labels, is no part
      of the [result] of the method and is embedded on its own.
    - What is no part of the repository (the Unicode tables, pandas' text of
      a series, the libraries that write files, docling, the data base, the
      clock) is a parameter of the development, given in classes. *)

From Stdlib Require Import Strings.String Strings.Ascii.
From Stdlib Require Import Numbers.DecimalString Numbers.DecimalNat.
From Stdlib Require Import List NArith ZArith Bool Arith Lia Sorting.Sorted Sorting.Permutation.
Import ListNotations.

Open Scope string_scope.
Open Scope list_scope.

(* ===================================================================== *)
(** ** Python text *)
(* ===================================================================== *)

Module Py.

(** A code point, and Python's [str]. *)
Abbreviation char := N (only parsing).
Abbreviation str := (list N) (only parsing).

(** The text of a literal of the source. *)
Definition txt (s : string) : str := map N_of_ascii (list_ascii_of_string s).

(** Python's Unicode database beyond U+00FF is no part of the repository: it
    is a parameter of the development.  [ucd_lower] is [str.lower] on a text
    that has a code point above U+00FF (lowering is not character-wise
    there), [ucd_isdigit] is [str.isdigit] on one such code point. *)
Class UnicodeData := {
  ucd_lower : str -> str;
  ucd_isdigit : char -> bool
}.

Definition str_eqb (a b : str) : bool :=
  if list_eq_dec N.eq_dec a b then true else false.

Definition latin1 (c : char) : bool := (c <? 256)%N.

(** [c.isspace()]: the white space [str.strip()] removes. *)
Definition isspace (c : char) : bool :=
  ((9 <=? c) && (c <=? 13) || (28 <=? c) && (c <=? 32)
   || (c =? 133) || (c =? 160) || (c =? 5760)
   || (8192 <=? c) && (c <=? 8202)
   || (c =? 8232) || (c =? 8233) || (c =? 8239) || (c =? 8287)
   || (c =? 12288))%N.

(** [str.lower] on one code point up to U+00FF: A-Z, and the capital
    letters U+00C0..U+00DE but for the multiplication sign. *)
Definition lower_latin1 (c : char) : char :=
  (if (65 <=? c) && (c <=? 90) || (192 <=? c) && (c <=? 222) && negb (c =? 215)
   then c + 32 else c)%N.

Definition isdigit_latin1 (c : char) : bool :=
  ((48 <=? c) && (c <=? 57) || (c =? 178) || (c =? 179) || (c =? 185))%N.

Section Text.
Context {U : UnicodeData}.

(** [s.lower()] *)
Definition lower (s : str) : str :=
  if forallb latin1 s then map lower_latin1 s else ucd_lower s.

Definition isdigit_char (c : char) : bool :=
  if latin1 c then isdigit_latin1 c else ucd_isdigit c.

(** [s.isdigit()]: every character is a digit and there is at least one. *)
Definition isdigit (s : str) : bool :=
  match s with
  | [] => false
  | _ => forallb isdigit_char s
  end.

End Text.

Fixpoint lstrip (s : str) : str :=
  match s with
  | c :: tl => if isspace c then lstrip tl else s
  | [] => []
  end.

Definition rstrip (s : str) : str := rev (lstrip (rev s)).

(** [s.strip()] *)
Definition strip (s : str) : str := rstrip (lstrip s).

(** [s.startswith(p)] *)
Fixpoint startswith (p s : str) : bool :=
  match p, s with
  | [], _ => true
  | a :: p', b :: s' => (a =? b)%N && startswith p' s'
  | _ :: _, [] => false
  end.

(** [needle in hay], on text. *)
Fixpoint contains (needle hay : str) : bool :=
  startswith needle hay ||
  match hay with
  | [] => false
  | _ :: tl => contains needle tl
  end.

(** [s.replace(old, new)] for a non-empty [old]: the occurrences of [old],
    found from the left and not overlapping, become [new].  [skip] counts the
    characters of an occurrence still to be passed over. *)
Fixpoint replace_from (old new : str) (skip : nat) (s : str) : str :=
  match s with
  | [] => []
  | c :: tl =>
      match skip with
      | S k => replace_from old new k tl
      | O =>
          if startswith old s
          then new ++ replace_from old new (length old - 1) tl
          else c :: replace_from old new 0 tl
      end
  end.

Definition replace (old new s : str) : str := replace_from old new 0 s.

(** [sep.join(parts)] *)
Fixpoint join (sep : str) (parts : list str) : str :=
  match parts with
  | [] => []
  | [p] => p
  | p :: rest => p ++ sep ++ join sep rest
  end.

(** [str(n)] for a natural number. *)
Definition str_of_nat (n : nat) : str :=
  txt (NilEmpty.string_of_uint (Nat.to_uint n)).

(** [x in xs] on a list of texts. *)
Definition mem (x : str) (xs : list str) : bool := existsb (str_eqb x) xs.

End Py.

(* ===================================================================== *)
(** ** Outcomes of a call *)
(* ===================================================================== *)

(** The exceptions the modelled calls can raise. *)
Inductive exn :=
| JSONDecodeError
| KeyError
| AttributeError
| InvalidIndexError
| ValueError.

(** A call returns a value or raises. *)
Inductive outcome (A : Type) :=
| Returned (a : A)
| Raised (e : exn).

Arguments Returned {A} a.
Arguments Raised {A} e.

Definition bind {A B : Type} (m : outcome A) (k : A -> outcome B) : outcome B :=
  match m with
  | Returned a => k a
  | Raised e => Raised e
  end.

Notation "x <- m ;; k" := (bind m (fun x => k))
  (at level 61, m at next level, right associativity).

(** [[f(x) for x in xs]] where [f] may raise. *)
Fixpoint mapM {A B : Type} (f : A -> outcome B) (xs : list A) : outcome (list B) :=
  match xs with
  | [] => Returned []
  | x :: tl => y <- f x ;; ys <- mapM f tl ;; Returned (y :: ys)
  end.

(* ===================================================================== *)
(** ** Python dictionaries and the JSON round trip *)
(* ===================================================================== *)

Module Json.
Import Py.

(** A cell of a row: text, [None] (JSON [null]) or [NaN]. *)
Inductive cell :=
| Text (s : str)
| PyNone
| NaN.

(** A [dict] with text keys, in insertion order. *)
Definition dict (V : Type) := list (str * V).

(** [d[k] = v]: a present key keeps its place and takes the new value. *)
Fixpoint dict_set {V : Type} (k : str) (v : V) (d : dict V) : dict V :=
  match d with
  | [] => [(k, v)]
  | (k', v') :: tl =>
      if str_eqb k k' then (k, v) :: tl else (k', v') :: dict_set k v tl
  end.

(** [dict(pairs)] *)
Definition dict_of_pairs {V : Type} (pairs : list (str * V)) : dict V :=
  fold_left (fun d kv => dict_set (fst kv) (snd kv) d) pairs [].

(** [d.get(k)] *)
Fixpoint dict_get {V : Type} (d : dict V) (k : str) : option V :=
  match d with
  | [] => None
  | (k', v) :: tl => if str_eqb k k' then Some v else dict_get tl k
  end.

(** One row of a table: [{column label: cell}]. *)
Definition record := dict cell.

(** One entry of [tables_json['tables']], with the two keys the method reads;
    [None] is an absent key.  The other keys the extraction writes
    ([table_number], [row_count], [location]) hold numbers. *)
Record table := {
  columns : option (list str);
  data : option (list record)
}.

(** *** [json.dumps] of a text (ensure_ascii) *)

Definition hexdigit (d : N) : char := (if d <? 10 then 48 + d else 87 + d)%N.

(** ['{0:04x}'.format(n)] *)
Definition hex4 (n : N) : str :=
  [hexdigit ((n / 4096) mod 16); hexdigit ((n / 256) mod 16);
   hexdigit ((n / 16) mod 16); hexdigit (n mod 16)]%N.

(** The escape of one character: short escapes, printable ASCII as it is,
    [\uXXXX] for the rest of the basic plane and a surrogate pair above. *)
Definition encode_char (c : char) : str :=
  (if c =? 34 then [92; 34]
   else if c =? 92 then txt "\\"
   else if c =? 10 then txt "\n"
   else if c =? 13 then txt "\r"
   else if c =? 9 then txt "\t"
   else if c =? 12 then txt "\f"
   else if c =? 8 then txt "\b"
   else if (32 <=? c) && (c <=? 126) then [c]
   else if c <? 65536 then txt "\u" ++ hex4 c
   else let v := c - 65536 in
        txt "\u" ++ hex4 (N.lor 55296 (N.land (N.shiftr v 10) 1023))
        ++ txt "\u" ++ hex4 (N.lor 56320 (N.land v 1023)))%N.

(** The text between the quotes of [json.dumps(s)]. *)
Definition encode_basestring_ascii (s : str) : str := flat_map encode_char s.

(** *** [json.loads] of a string literal *)

Definition unhex (c : char) : option N :=
  (if (48 <=? c) && (c <=? 57) then Some (c - 48)
   else if (97 <=? c) && (c <=? 102) then Some (c - 87)
   else if (65 <=? c) && (c <=? 70) then Some (c - 55)
   else None)%N.

(** The four hexadecimal digits of a [\uXXXX] escape, as the decoder of
    CPython ([_json.scanstring]) reads them: digits and the letters a-f and
    A-F only. *)
Definition decode_uXXXX (a b c d : char) : option N :=
  match unhex a, unhex b, unhex c, unhex d with
  | Some x, Some y, Some z, Some w => Some (x * 4096 + y * 256 + z * 16 + w)%N
  | _, _, _, _ => None
  end.

(** The character a one-letter escape stands for. *)
Definition backslash (e : char) : option char :=
  (if e =? 34 then Some 34 else if e =? 92 then Some 92
   else if e =? 47 then Some 47 else if e =? 98 then Some 8
   else if e =? 102 then Some 12 else if e =? 110 then Some 10
   else if e =? 114 then Some 13 else if e =? 116 then Some 9
   else None)%N.

Definition is_high_surrogate (u : N) : bool := ((55296 <=? u) && (u <=? 56319))%N.
Definition is_low_surrogate (u : N) : bool := ((56320 <=? u) && (u <=? 57343))%N.
Definition join_surrogates (u u2 : N) : N :=
  (65536 + N.lor (N.shiftl (u - 55296) 10) (u2 - 56320))%N.

(** The decoder's [scanstring] on the text between the quotes of a literal;
    [None] is [JSONDecodeError].  A bare quote would end the literal early
    and a bare control character is refused (strict mode). *)
Fixpoint scanstring (s : str) : option str :=
  match s with
  | [] => Some []
  | c :: tl =>
      if (c =? 34)%N then None
      else if (c <? 32)%N then None
      else if (c =? 92)%N then
        match tl with
        | [] => None
        | e :: tl' =>
            if (e =? 117)%N then
              match tl' with
              | h1 :: h2 :: h3 :: h4 :: rest =>
                  match decode_uXXXX h1 h2 h3 h4 with
                  | None => None
                  | Some u =>
                      match rest with
                      | b :: v :: g1 :: g2 :: g3 :: g4 :: rest' =>
                          if is_high_surrogate u && (b =? 92)%N && (v =? 117)%N then
                            match decode_uXXXX g1 g2 g3 g4 with
                            | None => None
                            | Some u2 =>
                                if is_low_surrogate u2
                                then option_map (cons (join_surrogates u u2)) (scanstring rest')
                                else option_map (cons u) (scanstring rest)
                            end
                          else option_map (cons u) (scanstring rest)
                      | _ => option_map (cons u) (scanstring rest)
                      end
                  end
              | _ => None
              end
            else
              match backslash e with
              | Some ch => option_map (cons ch) (scanstring tl')
              | None => None
              end
        end
      else option_map (cons c) (scanstring tl)
  end.

(** What the first three statements of the method do to one text of the
    input: [json.loads(json.dumps(s).replace('/uni', r'\u'))]. *)
Definition unicode_correction (s : str) : option str :=
  scanstring (replace (txt "/uni") (txt "\u") (encode_basestring_ascii s)).

End Json.

(* ===================================================================== *)
(** ** pandas *)
(* ===================================================================== *)

Module pd.
Import Py Json.

(** A frame: its column labels, and its rows with one cell per label. *)
Record DataFrame := {
  columns : list str;
  rows : list (list cell)
}.

(** [pd.DataFrame()] *)
Definition DataFrame_empty : DataFrame := {| columns := []; rows := [] |}.

Definition labels_eqb (a b : list str) : bool :=
  if list_eq_dec (list_eq_dec N.eq_dec) a b then true else false.

(** The labels of [acc] followed by those of [ks] not yet seen. *)
Definition union_labels (acc ks : list str) : list str :=
  fold_left (fun acc k => if mem k acc then acc else acc ++ [k]) ks acc.

(** [pd.DataFrame(records)]: the columns are the keys in order of first
    appearance; a key a record lacks gives [NaN]. *)
Definition from_records (records : list record) : DataFrame :=
  let cols := fold_left (fun acc r => union_labels acc (map fst r)) records [] in
  {| columns := cols;
     rows := map (fun r => map (fun k => match dict_get r k with
                                         | Some v => v
                                         | None => NaN
                                         end) cols) records |}.

(** [df.empty]: no column or no row. *)
Definition empty (df : DataFrame) : bool :=
  ((length (columns df) =? 0) || (length (rows df) =? 0))%nat.

(** [len(df)] *)
Definition len (df : DataFrame) : nat := length (rows df).

(** [pd.isna(v)] and [pd.notna(v)] *)
Definition isna (v : cell) : bool :=
  match v with
  | Text _ => false
  | PyNone | NaN => true
  end.
Definition notna (v : cell) : bool := negb (isna v).

Definition fill (value : str) (v : cell) : cell := if isna v then Text value else v.

(** [df.fillna(value)] *)
Definition fillna (value : str) (df : DataFrame) : DataFrame :=
  {| columns := columns df; rows := map (map (fill value)) (rows df) |}.

(** [df.columns = labels] (the lengths agree wherever the method assigns). *)
Definition set_columns (df : DataFrame) (labels : list str) : DataFrame :=
  {| columns := labels; rows := rows df |}.

(** [df.iloc[1:].reset_index(drop=True)] *)
Definition iloc_from_1 (df : DataFrame) : DataFrame :=
  {| columns := columns df; rows := tl (rows df) |}.

Fixpoint has_duplicates (labels : list str) : bool :=
  match labels with
  | [] => false
  | k :: rest => mem k rest || has_duplicates rest
  end.

(** The cells of one row under the labels [cols], [NaN] where the frame has
    no such column (the frame's own labels do not repeat where this is used). *)
Definition reindex_row (own cols : list str) (row : list cell) : list cell :=
  map (fun k => match dict_get (combine own row) k with
                | Some v => v
                | None => NaN
                end) cols.

Definition reindex (cols : list str) (df : DataFrame) : list (list cell) :=
  map (reindex_row (columns df) cols) (rows df).

(** The frames that have a row or a column ([sum(obj.shape) > 0]). *)
Definition non_empties (dfs : list DataFrame) : list DataFrame :=
  filter (fun d => (0 <? len d + length (columns d))%nat) dfs.

(** The frames [pd.concat] works on: it leaves out the frames with neither
    rows nor columns, unless all are such. *)
Definition objs (dfs : list DataFrame) : list DataFrame :=
  match non_empties dfs with
  | [] => dfs
  | _ :: _ => non_empties dfs
  end.

(** [pd.concat(dfs, ignore_index=True)].  Frames with the very same labels
    are stacked as they are.  Otherwise the result has the union of the
    labels in order of first appearance and every frame is realigned to it,
    which pandas refuses ([InvalidIndexError]) for a frame whose labels
    repeat. *)
Definition concat (dfs : list DataFrame) : outcome DataFrame :=
  match objs dfs with
  | [] => Raised ValueError
  | first :: rest =>
      if forallb (fun d => labels_eqb (columns d) (columns first)) rest
      then Returned {| columns := columns first; rows := flat_map rows (first :: rest) |}
      else if existsb (fun d => has_duplicates (columns d)) (first :: rest)
      then Raised InvalidIndexError
      else
        let cols :=
          fold_left (fun acc d => union_labels acc (columns d)) (first :: rest) [] in
        Returned {| columns := cols; rows := flat_map (reindex cols) (first :: rest) |}
  end.

(** [df.to_dict('records')] *)
Definition to_dict_records (df : DataFrame) : list record :=
  map (fun row => dict_of_pairs (combine (columns df) row)) (rows df).

(** [list(df.columns).index(k)] for a label that is present. *)
Fixpoint index (k : str) (labels : list str) : nat :=
  match labels with
  | [] => 0
  | k' :: rest => if str_eqb k' k then 0 else S (index k rest)
  end.

(** How often the label [k] occurs. *)
Definition count (labels : list str) (k : str) : nat :=
  count_occ (list_eq_dec N.eq_dec) labels k.

(** [df[k]] followed by [.fillna('').astype(str).str.strip()]: the stripped
    texts of the column.  When the label repeats, [df[k]] is a frame, which
    has no [.str]: [AttributeError]. *)
Definition str_of_cell (v : cell) : str :=
  match v with
  | Text s => s
  | PyNone => txt "None"
  | NaN => txt "nan"
  end.

Definition getitem_filled_stripped (df : DataFrame) (k : str) : outcome (list str) :=
  match count (columns df) k with
  | 0 => Raised KeyError
  | 1 =>
      let i := index k (columns df) in
      Returned (map (fun row => strip (str_of_cell (fill [] (nth i row NaN)))) (rows df))
  | _ => Raised AttributeError
  end.

Fixpoint set_nth {A : Type} (i : nat) (x : A) (l : list A) : list A :=
  match l, i with
  | [], _ => []
  | _ :: tl, 0 => x :: tl
  | a :: tl, S j => a :: set_nth j x tl
  end.

(** [df[k] = values] for a label that occurs once. *)
Definition setitem (df : DataFrame) (k : str) (values : list str) : DataFrame :=
  let i := index k (columns df) in
  {| columns := columns df;
     rows := map (fun rv => set_nth i (Text (snd rv)) (fst rv))
                 (combine (rows df) values) |}.

(** [df.drop(columns=[k])] *)
Definition drop (df : DataFrame) (k : str) : DataFrame :=
  let keep (p : str * cell) := negb (str_eqb (fst p) k) in
  {| columns := filter (fun c => negb (str_eqb c k)) (columns df);
     rows := map (fun row => map snd (filter keep (combine (columns df) row)))
                 (rows df) |}.

End pd.

(* ===================================================================== *)
(** ** [TableExtractor] *)
(* ===================================================================== *)

Module TableExtractor.
Import Py Json.

(** One member of a column group: [{'table_number': .., 'dataframe': ..}]. *)
Record group_member := {
  member_number : nat;
  dataframe : pd.DataFrame
}.

(** [column_groups]: a dict from the first member's labels to the members,
    in insertion order. *)
Definition column_groups := list (list str * list group_member).

(** One entry of [individual_tables]. *)
Record merged_table := {
  table_number : nat;
  table_columns : list str;
  row_count : nat;
  table_data : list record;
  merged_from : list nat
}.

(** One entry of [table_info]. *)
Record info := {
  info_number : nat;
  table_name : str;
  info_columns : list str;
  info_row_count : nat;
  sample_data : list record;
  info_merged_from : list nat
}.

(** What [process_tables_sequentially] returns. *)
Record result := {
  final_df : pd.DataFrame;
  table_info : list info;
  individual_tables : list merged_table
}.

(** The [metadata] and the whole of what [convert_to_structured_format]
    returns; an absent key is [None]. *)
Record metadata := {
  total_transactions : nat;
  processing_method : str;
  detected_headers : option (list str);
  metadata_table_info : option (list info)
}.

Record document := {
  transactions : list record;
  account_info : option (str * nat);
  doc_metadata : metadata
}.

Section Extractor.
Context {U : UnicodeData}.

(** *** Step 1: the unicode correction of the whole input

    [json.dumps] escapes every text of the input, ['/uni'] is replaced by
    a backslash and [u] all over the serialisation, and [json.loads] reads
    it back.  Outside string literals a serialisation has no slash, and no
    occurrence of ['/uni'] reaches over a quote, so the three statements
    act on each text of the input on its own; [json.loads] then builds
    every object anew, a repeated key keeping its place and taking the
    last value. *)

Definition decoded {A : Type} (o : option A) : outcome A :=
  match o with
  | Some a => Returned a
  | None => Raised JSONDecodeError
  end.

Definition correct_text (s : str) : outcome str := decoded (unicode_correction s).

Definition correct_cell (v : cell) : outcome cell :=
  match v with
  | Text s => s' <- correct_text s ;; Returned (Text s')
  | PyNone => Returned PyNone
  | NaN => Returned NaN
  end.

Definition correct_record (r : record) : outcome record :=
  pairs <- mapM (fun kv => k <- correct_text (fst kv) ;;
                           v <- correct_cell (snd kv) ;;
                           Returned (k, v)) r ;;
  Returned (dict_of_pairs pairs).

Definition correct_field {A : Type} (f : A -> outcome A) (o : option A)
  : outcome (option A) :=
  match o with
  | Some a => a' <- f a ;; Returned (Some a')
  | None => Returned None
  end.

Definition correct_table (t : table) : outcome table :=
  cols <- correct_field (mapM correct_text) (columns t) ;;
  recs <- correct_field (mapM correct_record) (data t) ;;
  Returned {| columns := cols; data := recs |}.

(** [json.loads(json.dumps(tables_json).replace('/uni', r'\u'))] on the
    list under ['tables']. *)
Definition unicode_corrected (tables_json : list table) : outcome (list table) :=
  mapM correct_table tables_json.

(** *** Step 3: master headers *)

(** [all(str(col).isdigit() for col in cols)] *)
Definition all_isdigit (cols : list str) : bool := forallb isdigit cols.

(** The first table's columns when they are present, not empty and not all
    numeric. *)
Definition find_master_headers (first_table : table) : option (list str) :=
  match columns first_table with
  | Some (c :: cs) => if negb (all_isdigit (c :: cs)) then Some (c :: cs) else None
  | _ => None
  end.

(** *** Step 4: a table after the first *)

Definition header_keywords : list str :=
  map txt ["date"; "description"; "amount"; "balance"; "transaction"; "credit";
           "debit"; "particulars"; "narration"; "details"; "ref"; "cheque";
           "check"; "withdrawal"; "deposit"].

Definition first_row_looks_like_headers (df : pd.DataFrame) : bool :=
  match pd.rows df with
  | [] => false
  | first_row :: _ =>
      let first_row_text :=
        join (txt " ") (map (fun val => lower (pd.str_of_cell val))
                            (filter pd.notna first_row)) in
      existsb (fun keyword => contains keyword first_row_text) header_keywords
  end.

(** [[f'Column_{i+1}' for i in range(n)]] *)
Definition generic_headers (n : nat) : list str :=
  map (fun i => txt "Column_" ++ str_of_nat (i + 1)) (seq 0 n).

(** "Handle tables with numeric columns (0, 1, 2...)". *)
Definition resolve_headers (master_headers : list str) (df : pd.DataFrame)
  : pd.DataFrame :=
  if all_isdigit (pd.columns df) then
    if first_row_looks_like_headers df then
      let new_headers := map (fun val => strip (pd.str_of_cell val))
                             (hd [] (pd.rows df)) in
      pd.set_columns (pd.iloc_from_1 df) new_headers
    else if (length (pd.columns df) =? length master_headers)%nat then
      pd.set_columns df master_headers
    else
      pd.set_columns df (generic_headers (length (pd.columns df)))
  else df.

(** The body of the [try] of "Handle split column merging". *)
Definition merge_split_column_try (df : pd.DataFrame) : outcome pd.DataFrame :=
  let cols := pd.columns df in
  let empty_col_index := pd.index [] cols in
  if (0 <? empty_col_index)%nat then
    let target_col := nth (empty_col_index - 1) cols [] in
    left <- pd.getitem_filled_stripped df target_col ;;
    right <- pd.getitem_filled_stripped df [] ;;
    let merged := map (fun lr => fst lr ++ txt " " ++ snd lr) (combine left right) in
    Returned (pd.drop (pd.setitem df target_col merged) [])
  else Returned df.

(** "Handle split column merging": the [except] keeps the frame. *)
Definition merge_split_column (df : pd.DataFrame) : pd.DataFrame :=
  if mem [] (pd.columns df) then
    match merge_split_column_try df with
    | Returned merged => merged
    | Raised _ => df
    end
  else df.

(** One turn of the loop over [data['tables'][1:]]; [None] is [continue]. *)
Definition process_table (master_headers : list str) (t : table)
  : option pd.DataFrame :=
  match data t with
  | None => None
  | Some [] => None
  | Some records =>
      let df := pd.from_records records in
      if pd.empty df then None
      else Some (merge_split_column
                   (resolve_headers master_headers (pd.fillna [] df)))
  end.

(** The frames the loop appends to [all_processed_dfs]. *)
Definition process_subsequent (master_headers : list str) (rest : list table)
  : list pd.DataFrame :=
  flat_map (fun t => match process_table master_headers t with
                     | Some df => [df]
                     | None => []
                     end) rest.

(** *** Grouping by column structure *)

Definition normalize_column (col : str) : str :=
  let col_lower := strip (lower col) in
  if contains (txt "value") col_lower && contains (txt "date") col_lower
  then txt "value_date"
  else if str_eqb col_lower (txt "value") then txt "value_date"
  else replace (txt " ") (txt "_") col_lower.

Definition get_normalized_column_key (cols : list str) : list str :=
  map normalize_column cols.

Definition columns_are_similar (cols1 cols2 : list str) : bool :=
  if negb (length cols1 =? length cols2)%nat then false
  else pd.labels_eqb (get_normalized_column_key cols1)
                     (get_normalized_column_key cols2).

(** The scan of the existing groups for table [i]; [None] when the table
    was merged with none. *)
Fixpoint merge_with_existing (i : nat) (df : pd.DataFrame) (groups : column_groups)
  : option column_groups :=
  match groups with
  | [] => None
  | (existing_key, group_data) :: others =>
      if columns_are_similar (pd.columns df) existing_key
      then
        let df_standardized := pd.set_columns df existing_key in
        Some ((existing_key,
               group_data ++ [{| member_number := i + 1;
                                 dataframe := df_standardized |}]) :: others)
      else option_map (cons (existing_key, group_data))
                      (merge_with_existing i df others)
  end.

(** One turn of [for i, df in enumerate(all_processed_dfs)]. *)
Definition group_step (groups : column_groups) (idf : nat * pd.DataFrame)
  : column_groups :=
  let (i, df) := idf in
  match merge_with_existing i df groups with
  | Some merged => merged
  | None => groups ++ [(pd.columns df, [{| member_number := i + 1;
                                          dataframe := df |}])]
  end.

Definition enumerate {A : Type} (l : list A) : list (nat * A) :=
  combine (seq 0 (length l)) l.

Definition group_tables (all_processed_dfs : list pd.DataFrame) : column_groups :=
  fold_left group_step (enumerate all_processed_dfs) [].

(** The entry of [individual_tables] for the group at [group_idx]. *)
Definition merge_group (idx_group : nat * (list str * list group_member))
  : outcome merged_table :=
  let (group_idx, group) := idx_group in
  let (col_key, tables) := group in
  merged_df <- pd.concat (map dataframe tables) ;;
  Returned {| table_number := group_idx + 1;
              table_columns := col_key;
              row_count := pd.len merged_df;
              table_data := pd.to_dict_records merged_df;
              merged_from := map member_number tables |}.

Definition merge_groups (groups : column_groups) : outcome (list merged_table) :=
  mapM merge_group (enumerate groups).

Definition info_of (merged : merged_table) : info :=
  {| info_number := table_number merged;
     table_name := txt "Transaction Table " ++ str_of_nat (table_number merged);
     info_columns := table_columns merged;
     info_row_count := row_count merged;
     sample_data := firstn 3 (table_data merged);
     info_merged_from := merged_from merged |}.

(** *** The method *)

(** [return pd.DataFrame(), [], [], []] *)
Definition nothing : result :=
  {| final_df := pd.DataFrame_empty; table_info := []; individual_tables := [] |}.

(** [all_processed_dfs] at the end of step 4. *)
Definition all_processed (master_headers : list str) (records : list record)
  (rest : list table) : list pd.DataFrame :=
  pd.fillna [] (pd.from_records records) :: process_subsequent master_headers rest.

Definition process_tables_sequentially (tables_json : list table) : outcome result :=
  tables <- unicode_corrected tables_json ;;
  match tables with
  | [] => Returned nothing
  | first_table :: rest =>
      match find_master_headers first_table with
      | None => Returned nothing
      | Some master_headers =>
          match data first_table with
          | None => Raised KeyError
          | Some records =>
              let all_processed_dfs := all_processed master_headers records rest in
              concatenated <- pd.concat all_processed_dfs ;;
              merged <- merge_groups (group_tables all_processed_dfs) ;;
              Returned {| final_df := pd.fillna [] concatenated;
                          table_info := map info_of merged;
                          individual_tables := merged |}
          end
      end
  end.

(** *** [convert_to_structured_format] *)

(** The clean-up of one value of a transaction. *)
Definition clean_value (value : cell) : str :=
  if pd.isna value
     || mem (lower (pd.str_of_cell value)) (map txt ["nan"; "none"; "null"])
  then []
  else strip (pd.str_of_cell value).

(** With a label that repeats, [row[col]] is a series and its truth value
    is ambiguous: [ValueError]. *)
Definition convert_to_structured_format (df : pd.DataFrame)
  (table_info : option (list info)) : outcome document :=
  if pd.empty df then
    Returned {| transactions := [];
                account_info := None;
                doc_metadata := {| total_transactions := 0;
                                   processing_method := txt "table_extraction";
                                   detected_headers := None;
                                   metadata_table_info := None |} |}
  else if pd.has_duplicates (pd.columns df) then Raised ValueError
  else
    let transactions :=
      map (fun row => dict_of_pairs (combine (pd.columns df) (map (fun v => Text (clean_value v)) row)))
          (pd.rows df) in
    Returned {| transactions := transactions;
                account_info := Some (txt "Table Extraction Method",
                                      length transactions);
                doc_metadata :=
                  {| total_transactions := length transactions;
                     processing_method := txt "table_extraction";
                     detected_headers := Some (pd.columns df);
                     metadata_table_info :=
                       Some (match table_info with
                             | Some l => l
                             | None => []
                             end) |} |}.

End Extractor.

(** *** [_find_column] and [_extract_sample_transactions] *)

(** [str(row[col])] when the label [col] repeats is pandas' rendering of the
    cells of the row under it: a parameter of the development, given the
    label, the cells and the number of the row. *)
Class SeriesText := {
  str_of_series : str -> list cell -> nat -> str
}.

Section Samples.
Context {U : UnicodeData} {R : SeriesText}.

(** The first of the [possible_names] that some label contains, both
    lower-cased, decides; of the labels that contain it the first is
    returned, as it is written. *)
Fixpoint _find_column (df : pd.DataFrame) (possible_names : list str) : option str :=
  match possible_names with
  | [] => None
  | name :: others =>
      match find (fun col => contains (lower name) (lower col)) (pd.columns df) with
      | Some col => Some col
      | None => _find_column df others
      end
  end.

(** [str(row[col])] for row number [i] of the frame. *)
Definition str_of_item (df : pd.DataFrame) (i : nat) (row : list cell) (col : str) : str :=
  match map snd (filter (fun kv => str_eqb (fst kv) col) (combine (pd.columns df) row)) with
  | [v] => pd.str_of_cell v
  | vs => str_of_series col vs i
  end.

(** [if col:] on what [_find_column] returned. *)
Definition found (col : option str) : option str :=
  match col with
  | Some (c :: cs) => Some (c :: cs)
  | _ => None
  end.

(** One turn of the loop over [df.head(max_samples).iterrows()]. *)
Definition sample_of (df : pd.DataFrame) (date_col desc_col amount_col : option str)
  (i : nat) (row : list cell) : dict str :=
  match found date_col with
  | Some col => [(txt "date", str_of_item df i row col)]
  | None => []
  end
  ++ match found desc_col with
     | Some col =>
         let description := str_of_item df i row col in
         [(txt "description",
           firstn 50 description
           ++ (if (50 <? length description)%nat then txt "..." else []))]
     | None => []
     end
  ++ match found amount_col with
     | Some col => [(txt "amount", str_of_item df i row col)]
     | None => []
     end.

Definition _extract_sample_transactions (df : pd.DataFrame) (max_samples : nat)
  : list (dict str) :=
  if pd.empty df then []
  else
    let date_col :=
      _find_column df (map txt ["date"; "transaction_date"; "trans_date"]) in
    let desc_col :=
      _find_column df (map txt ["description"; "particulars"; "narration"; "details"]) in
    let amount_col :=
      _find_column df (map txt ["amount"; "credit"; "debit"; "balance"]) in
    filter (fun sample => match sample with [] => false | _ => true end)
           (map (fun ir => sample_of df date_col desc_col amount_col (fst ir) (snd ir))
                (enumerate (firstn max_samples (pd.rows df)))).

(** The second component of what [process_tables_sequentially] returns. *)
Definition sample_transactions (r : result) : list (dict str) :=
  _extract_sample_transactions (final_df r) 3.

End Samples.

End TableExtractor.

(* ===================================================================== *)
(** ** [DataConverter] and the upload route *)
(* ===================================================================== *)

Module Converter.
Import Py Json TableExtractor.

(** *** The texts of an Excel sheet *)

(** [[0-9a-fA-F]] *)
Definition is_hex_digit (c : char) : bool :=
  match unhex c with
  | Some _ => true
  | None => false
  end.

(** [re.sub(r'/uni[0-9a-fA-F]{4}', '', s)]: the matches, found from the
    left and not overlapping, are left out.  [skip] counts the characters of
    a match still to be passed over. *)
Fixpoint remove_escapes_from (skip : nat) (s : str) : str :=
  match s with
  | [] => []
  | c :: tl =>
      match skip with
      | S k => remove_escapes_from k tl
      | O =>
          if startswith (txt "/uni") s && forallb is_hex_digit (firstn 4 (skipn 4 s))
             && (8 <=? length s)%nat
          then remove_escapes_from 7 tl
          else c :: remove_escapes_from 0 tl
      end
  end.

(** What [to_excel] and [to_excel_with_config] do to the text of a cell:
    [.str.replace(r'/uni[0-9a-fA-F]{4}', '', regex=True)] and then
    [.str.encode('ascii', errors='ignore').str.decode('ascii')]. *)
Definition excel_text (s : str) : str :=
  filter (fun c => (c <? 128)%N) (remove_escapes_from 0 s).

(** The frame of the sheet [Transactions]: [.fillna('')], and then, column
    by column, [.astype(str)] and the two steps of [excel_text]. *)
Definition excel_sheet (transactions : list record) : pd.DataFrame :=
  let df_transactions := pd.fillna [] (pd.from_records transactions) in
  {| pd.columns := pd.columns df_transactions;
     pd.rows := map (map (fun v => Text (excel_text (pd.str_of_cell v))))
                    (pd.rows df_transactions) |}.

(** *** The documents to convert *)

(** Measured times ([time.time()] and the differences of its readings) are
    floats, of which nothing is used but that they are passed on. *)
Class Clock := { seconds : Type }.

Section Documents.
Context {C : Clock}.

(** What the upload route writes under ['metadata'] of the document of the
    emitter before the document is converted and stored. *)
Record additions := {
  metadata_processing_time_seconds : seconds;
  metadata_pages_processed : nat;
  metadata_raw_tables : list merged_table
}.

(** [parsed_data]: the document of the emitter, as it is or with the
    additions of the route. *)
Record parsed := {
  emitted : document;
  added : option additions
}.

End Documents.

(** *** The conversions *)

(** The libraries that write the files (pandas' [to_csv], the Excel writer
    with [openpyxl], [json.dumps]) are no part of the repository, and each
    conversion reads the clock for a time stamp: what is written, or that
    the writing raises, is a parameter of the development, given what the
    conversion hands to the library and the turn of the loop of
    [convert_to_formats] at which it does ([0] for a conversion on its own).
    - CSV: the frame of the transactions and the account information.
    - Excel: the frame of the sheet [Transactions], the account
      information, the number of transactions and, where the metadata have
      it, the number of pages.
    - JSON: all of [parsed_data]. *)
Class Writers {C : Clock} := {
  csv_writer : nat -> pd.DataFrame -> option (str * nat) -> outcome str;
  excel_writer :
    nat -> pd.DataFrame -> option (str * nat) -> nat -> option nat -> outcome (list N);
  json_writer : nat -> parsed -> outcome str
}.

(** A value of the [results] of [convert_to_formats]. *)
Inductive payload :=
| Csv (text : str)
| Excel (excel_bytes : list N)
| Json (text : str).

Section Conversions.
Context {U : UnicodeData} {C : Clock} {W : Writers}.

Definition to_csv (turn : nat) (parsed_data : parsed) : outcome str :=
  let transactions := transactions (emitted parsed_data) in
  let account_info := account_info (emitted parsed_data) in
  match transactions with
  | [] => Raised ValueError
  | _ :: _ => csv_writer turn (pd.from_records transactions) account_info
  end.

(** Whatever the writing raises is raised as a [ValueError], and so are
    bytes that are none or do not begin with [PK]. *)
Definition to_excel (turn : nat) (parsed_data : parsed) : outcome (list N) :=
  let transactions := transactions (emitted parsed_data) in
  let account_info := account_info (emitted parsed_data) in
  match transactions with
  | [] => Raised ValueError
  | _ :: _ =>
      match excel_writer turn (excel_sheet transactions) account_info
                         (length transactions)
                         (option_map metadata_pages_processed (added parsed_data)) with
      | Returned excel_bytes =>
          if (length excel_bytes =? 0)%nat then Raised ValueError
          else if negb (startswith (txt "PK") excel_bytes) then Raised ValueError
          else Returned excel_bytes
      | Raised _ => Raised ValueError
      end
  end.

Definition to_json (turn : nat) (parsed_data : parsed) : outcome str :=
  json_writer turn parsed_data.

(** The loop of [convert_to_formats], from the [results] gathered in the
    turns before. *)
Fixpoint convert_from (turn : nat) (parsed_data : parsed) (formats : list str)
  (results : dict payload) : outcome (dict payload) :=
  match formats with
  | [] => Returned results
  | fmt :: others =>
      if str_eqb (lower fmt) (txt "csv") then
        text <- to_csv turn parsed_data ;;
        convert_from (S turn) parsed_data others (dict_set (txt "csv") (Csv text) results)
      else if str_eqb (lower fmt) (txt "excel") then
        excel_bytes <- to_excel turn parsed_data ;;
        convert_from (S turn) parsed_data others
                     (dict_set (txt "excel") (Excel excel_bytes) results)
      else if str_eqb (lower fmt) (txt "json") then
        text <- to_json turn parsed_data ;;
        convert_from (S turn) parsed_data others (dict_set (txt "json") (Json text) results)
      else convert_from (S turn) parsed_data others results
  end.

Definition convert_to_formats (parsed_data : parsed) (formats : list str)
  : outcome (dict payload) :=
  convert_from 0 parsed_data formats [].

End Conversions.
End Converter.

Module TableConvert.
Import Py Json TableExtractor Converter.

(** [s.split(sep)] for a separator of one character. *)
Fixpoint split (sep : char) (s : str) : list str :=
  match s with
  | [] => [[]]
  | c :: tl =>
      if (c =? sep)%N then [] :: split sep tl
      else match split sep tl with
           | part :: parts => (c :: part) :: parts
           | [] => [[c]]
           end
  end.

(** What an f-string writes of an [int], and of a text that may be [None]. *)
Definition str_of_int (z : Z) : str :=
  match z with
  | Zneg p => txt "-" ++ str_of_nat (Pos.to_nat p)
  | _ => str_of_nat (Z.to_nat z)
  end.

Definition str_of_optional (s : option str) : str :=
  match s with
  | Some s => s
  | None => txt "None"
  end.

(** *** What the route is given *)

(** The uploaded file, [file_content] being what [await file.read()]
    gives. *)
Record UploadFile := {
  content_type : option str;
  filename : option str;
  file_content : list N
}.

(** What the route reads of [current_user]. *)
Record UserResponse := {
  user_id : str;
  credits : Z
}.

(** What the route reads of the dict [extract_tables_from_pdf] returns:
    whether it has the key ['error'], its ['tables'] and its
    ['pages_processed'], a key the extraction always sets. *)
Record extraction := {
  error : option str;
  tables : list table;
  pages_processed : nat
}.

(** *** Exceptions, and the calls of the data base *)

(** What is raised inside the route: an exception of the extractor or of
    the converter, an [HTTPException], or another [Exception] with its
    text.  All are caught by [except Exception]. *)
Inductive thrown :=
| Of (e : exn)
| HTTPException (status_code : nat) (detail : str)
| Exception (message : str).

(** A step of the route returns or raises. *)
Inductive attempt (A : Type) :=
| done (a : A)
| threw (e : thrown).
Arguments done {A} a.
Arguments threw {A} e.

Section Calls.
Context {C : Clock}.

(** The [update_data] of [db.update_conversion]; its time stamp
    ['completed_at'] is left out. *)
Inductive update_data :=
| failed (error_message : str)
| completed (pages credits_used : nat) (processed_data : parsed).

(** The calls the route makes of [db], with their arguments (of the
    conversion record its status ['processing'], and of the credit
    transaction its type ['conversion'], are constants). *)
Inductive db_call :=
| create_conversion (conversion_id user : str) (file_name : option str)
    (file_size : nat) (output_formats : list str)
| update_conversion (conversion_id : str) (data : update_data)
| update_user_credits (user : str) (new_credits : Z)
| create_credit_transaction (user : str) (amount : Z)
    (description conversion_id : str).

(** A record of the conversions as the data base returns it: what the
    download route reads of it.  [processed_data] is [None] for a record
    that has none, or an empty one. *)
Record stored := {
  stored_id : str;
  stored_status : str;
  processed_data : option parsed;
  file_name : option str
}.

(** What [get_user_conversions] comes back with: the records, unless the
    client raises. *)
Inductive fetched :=
| records (conversions : list stored)
| unreachable (message : str).

(** How a call ends: it returns a record, or returns [None], or raises (the
    client raises when the data base cannot be reached, and
    [update_conversion] also when the answer cannot be read). *)
Inductive reply :=
| row
| no_row
| raises (message : str).

End Calls.

(** What surrounds a request, and is no part of the repository or is not
    embedded: the identifier that is drawn, the extraction of the tables by
    docling, the time measured, the data base (a call that writes is
    answered knowing the calls made before it; [get_user_conversions]
    returns the records or raises), the text [str()] makes of an exception
    of a library, and [base64] and [json.loads]. *)
Class Services {C : Clock} := {
  json_object : Type;
  uuid4 : str;
  extract_tables_from_pdf : list N -> str -> extraction;
  total_time : seconds;
  db : list db_call -> db_call -> reply;
  get_user_conversions : str -> nat -> fetched;
  describe : thrown -> str;
  b64encode : list N -> str;
  json_loads : str -> option json_object
}.

Section Route.
Context {U : UnicodeData} {C : Clock} {W : Writers} {E : Services}.

(** [str(e)] *)
Definition str_of_exception (e : thrown) : str :=
  match e with
  | Exception message => message
  | _ => describe e
  end.

(** The response model: [csv_data], [excel_data] and [json_data] are [None]
    unless set. *)
Record ConversionResult := {
  conversion_id : str;
  status : str;
  csv_data : option str;
  excel_data : option str;
  json_data : option json_object;
  result_pages_processed : nat;
  result_credits_used : nat;
  result_processing_method : str;
  result_processing_time_seconds : seconds;
  result_transactions : list record;
  result_table_info : list info
}.

(** A step of the route leaves the calls it made of the data base behind
    those made before it. *)
Definition action (A : Type) := list db_call -> attempt A * list db_call.

Definition ret {A : Type} (a : A) : action A := fun calls => (done a, calls).

Definition raise {A : Type} (e : thrown) : action A := fun calls => (threw e, calls).

Definition and_then {A B : Type} (m : action A) (k : A -> action B) : action B :=
  fun calls =>
    match m calls with
    | (done a, calls') => k a calls'
    | (threw e, calls') => (threw e, calls')
    end.

(** [try: body except Exception as e: handler] *)
Definition try_except {A : Type} (body : action A) (handler : thrown -> action A)
  : action A :=
  fun calls =>
    match body calls with
    | (done a, calls') => (done a, calls')
    | (threw e, calls') => handler e calls'
    end.

(** A call of the extractor or of the converter. *)
Definition lift {A : Type} (m : outcome A) : action A :=
  match m with
  | Returned a => ret a
  | Raised e => raise (Of e)
  end.

(** [await db. ...]: whether a record came back. *)
Definition await (call : db_call) : action bool :=
  fun calls =>
    match db calls call with
    | row => (done true, calls ++ [call])
    | no_row => (done false, calls ++ [call])
    | raises message => (threw (Exception message), calls ++ [call])
    end.

Notation "x <~ m ;; k" := (and_then m (fun x => k))
  (at level 61, m at next level, right associativity).

Definition valid_formats : list str := map txt ["csv"; "excel"; "json"].

(** "Parse output formats" of [_convert_with_config]. *)
Definition requested_formats (output_formats : str) : list str :=
  let requested := map (fun fmt => lower (strip fmt)) (split 44 output_formats) in
  let requested := filter (fun fmt => mem fmt valid_formats) requested in
  match requested with
  | [] => [txt "csv"]
  | _ :: _ => requested
  end.

(** "Add format data" and [json.loads]: the three optional fields of the
    response. *)
Definition csv_data_of (requested_formats : list str) (converted_data : dict payload)
  : option str :=
  if mem (txt "csv") requested_formats then
    match dict_get converted_data (txt "csv") with
    | Some (Csv text) => Some text
    | _ => None
    end
  else None.

Definition excel_data_of (requested_formats : list str) (converted_data : dict payload)
  : option str :=
  if mem (txt "excel") requested_formats then
    match dict_get converted_data (txt "excel") with
    | Some (Excel excel_bytes) => Some (b64encode excel_bytes)
    | _ => None
    end
  else None.

Definition json_data_of (requested_formats : list str) (converted_data : dict payload)
  : action (option json_object) :=
  if mem (txt "json") requested_formats then
    match dict_get converted_data (txt "json") with
    | Some (Json text) =>
        match json_loads text with
        | Some object => ret (Some object)
        | None => raise (Of JSONDecodeError)
        end
    | _ => ret None
    end
  else ret None.

(** "Update user credits", "Create credit transaction" and "Update
    conversion record": the three calls that follow the conversions. *)
Definition settle (file : UploadFile) (current_user : UserResponse)
  (conversion_id : str) (pages_processed : nat) (parsed_data : parsed) : action bool :=
  let new_credits := (credits current_user - Z.of_nat pages_processed)%Z in
  _ <~ await (update_user_credits (user_id current_user) new_credits) ;;
  _ <~ await (create_credit_transaction
                (user_id current_user) (- Z.of_nat pages_processed)%Z
                (txt "PDF conversion (Method 2) - " ++ str_of_optional (filename file))
                conversion_id) ;;
  await (update_conversion conversion_id
           (completed pages_processed pages_processed parsed_data)).

(** "Prepare response" and "Add format data": the [result_data] for what
    [json.loads] returned, should it have been called.  The validation of
    the response model, whose fields are given values of their types, is
    taken to pass. *)
Definition result_data (requested_formats : list str) (conversion_id : str)
  (pages_processed : nat) (document : document) (converted_data : dict payload)
  (json_data : option json_object) : ConversionResult :=
  {| conversion_id := conversion_id;
     status := txt "completed";
     csv_data := csv_data_of requested_formats converted_data;
     excel_data := excel_data_of requested_formats converted_data;
     json_data := json_data;
     result_pages_processed := pages_processed;
     result_credits_used := pages_processed;
     result_processing_method := txt "table_extraction";
     result_processing_time_seconds := total_time;
     result_transactions := transactions document;
     result_table_info :=
       match metadata_table_info (doc_metadata document) with
       | Some l => l
       | None => []
       end |}.

Definition respond (requested_formats : list str) (conversion_id : str)
  (pages_processed : nat) (document : document) (converted_data : dict payload)
  : action ConversionResult :=
  json_data <~ json_data_of requested_formats converted_data ;;
  ret (result_data requested_formats conversion_id pages_processed document
                   converted_data json_data).

(** The [try] block of [_convert_with_config].  Its inner [try] blocks
    print and raise again what they caught, and are left out with the other
    prints. *)
Definition convert_steps (file : UploadFile) (config : str) (current_user : UserResponse)
  (requested_formats : list str) (conversion_id : str) : action ConversionResult :=
  let raw_tables_data := extract_tables_from_pdf (file_content file) config in
  match error raw_tables_data with
  | Some message => raise (Exception message)
  | None =>
      let pages_processed := pages_processed raw_tables_data in
      if (credits current_user <? Z.of_nat pages_processed)%Z then
        _ <~ await (update_conversion conversion_id
                      (failed (txt "Insufficient credits. Need "
                               ++ str_of_nat pages_processed ++ txt ", have "
                               ++ str_of_int (credits current_user)))) ;;
        raise (HTTPException 402
                 (txt "Insufficient credits. Need "
                  ++ str_of_nat pages_processed ++ txt " credits, you have "
                  ++ str_of_int (credits current_user)))
      else
        r <~ lift (process_tables_sequentially (tables raw_tables_data)) ;;
        document <~ lift (convert_to_structured_format
                            (final_df r) (Some (table_info r))) ;;
        let parsed_data :=
          {| emitted := document;
             added := Some {| metadata_processing_time_seconds := total_time;
                              metadata_pages_processed := pages_processed;
                              metadata_raw_tables := individual_tables r |} |} in
        converted_data <~ lift (convert_to_formats parsed_data requested_formats) ;;
        _ <~ settle file current_user conversion_id pages_processed parsed_data ;;
        respond requested_formats conversion_id pages_processed document converted_data
  end.

(** The route: the checks of the file, the record of the conversion, and
    the [try] block with its handler. *)
Definition _convert_with_config (file : UploadFile) (output_formats config : str)
  (current_user : UserResponse) : action ConversionResult :=
  if negb (match content_type file with
           | Some t => str_eqb t (txt "application/pdf")
           | None => false
           end)
  then raise (HTTPException 400 (txt "Only PDF files are supported"))
  else if (10 * 1024 * 1024 <? N.of_nat (length (file_content file)))%N
  then raise (HTTPException 400 (txt "File size must be less than 10MB"))
  else
    let requested_formats := requested_formats output_formats in
    let conversion_id := uuid4 in
    conversion <~ await (create_conversion conversion_id (user_id current_user)
                           (filename file) (length (file_content file))
                           requested_formats) ;;
    if negb conversion
    then raise (HTTPException 500 (txt "Failed to create conversion record"))
    else
      try_except
        (convert_steps file config current_user requested_formats conversion_id)
        (fun e =>
           _ <~ await (update_conversion conversion_id (failed (str_of_exception e))) ;;
           raise (HTTPException 500 (txt "Conversion failed: " ++ str_of_exception e))).

(** The four endpoints of the upload. *)
Definition convert_bank_statement_fast (file : UploadFile) (output_formats : str)
  (current_user : UserResponse) : action ConversionResult :=
  _convert_with_config file output_formats (txt "fast") current_user.

Definition convert_bank_statement_accurate (file : UploadFile) (output_formats : str)
  (current_user : UserResponse) : action ConversionResult :=
  _convert_with_config file output_formats (txt "accurate") current_user.

Definition convert_bank_statement_standard (file : UploadFile) (output_formats : str)
  (current_user : UserResponse) : action ConversionResult :=
  _convert_with_config file output_formats (txt "standard") current_user.

Definition convert_bank_statement_method2 (file : UploadFile) (output_formats config : str)
  (current_user : UserResponse) : action ConversionResult :=
  _convert_with_config file output_formats config current_user.

(** *** The download *)

(** The [Response] of a download, of its headers the one the route sets. *)
Record Response := {
  content : payload;
  media_type : str;
  content_disposition : str
}.

(** The [try] block of [download_converted_file_method2]. *)
Definition converted_file (conversion : stored) (parsed_data : parsed) (format : str)
  : attempt Response :=
  let attachment := txt "attachment; filename=" ++ str_of_optional (file_name conversion) in
  if str_eqb (lower format) (txt "csv") then
    match to_csv 0 parsed_data with
    | Returned data =>
        done {| content := Csv data;
                media_type := txt "text/csv";
                content_disposition := attachment ++ txt "_method2.csv" |}
    | Raised e => threw (Of e)
    end
  else if str_eqb (lower format) (txt "excel") then
    match to_excel 0 parsed_data with
    | Returned data =>
        done {| content := Excel data;
                media_type :=
                  txt "application/vnd.openxmlformats-officedocument.spreadsheetml.sheet";
                content_disposition := attachment ++ txt "_method2.xlsx" |}
    | Raised e => threw (Of e)
    end
  else if str_eqb (lower format) (txt "json") then
    match to_json 0 parsed_data with
    | Returned data =>
        done {| content := Json data;
                media_type := txt "application/json";
                content_disposition := attachment ++ txt "_method2.json" |}
    | Raised e => threw (Of e)
    end
  else threw (HTTPException 400 (txt "Invalid format. Supported: csv, excel, json")).

Definition download_converted_file_method2 (conversion_id format : str)
  (current_user : UserResponse) : attempt Response :=
  match get_user_conversions (user_id current_user) 100 with
  | unreachable message => threw (Exception message)
  | records conversions =>
      match find (fun c => str_eqb (stored_id c) conversion_id) conversions with
      | None => threw (HTTPException 404 (txt "Conversion not found"))
      | Some conversion =>
          if negb (str_eqb (stored_status conversion) (txt "completed"))
          then threw (HTTPException 400 (txt "Conversion not completed"))
          else
            match processed_data conversion with
            | None => threw (HTTPException 404 (txt "Processed data not found"))
            | Some parsed_data =>
                match converted_file conversion parsed_data format with
                | done response => done response
                | threw e =>
                    threw (HTTPException 500 (txt "Failed to generate download: "
                                              ++ str_of_exception e))
                end
            end
      end
  end.

End Route.
End TableConvert.

(* ===================================================================== *)
(** ** The specification's wording, and the scenarios *)
(* ===================================================================== *)

Module Spec.
Import Py Json.

Section Wording.
Context {U : UnicodeData}.

(** The normalisation of a column label as the specification words it:
    lowercase, trim; ["value"], or a label with both ["value"] and
    ["date"], gives [value_date]; "all remaining whitespace is replaced with
    underscores". *)
Definition normalize_label (col : str) : str :=
  let col_lower := strip (lower col) in
  if contains (txt "value") col_lower && contains (txt "date") col_lower
  then txt "value_date"
  else if str_eqb col_lower (txt "value") then txt "value_date"
  else map (fun c => if isspace c then 95%N else c) col_lower.

Definition signature (cols : list str) : list str := map normalize_label cols.

End Wording.
End Spec.

Module Scenario.
Import Py Json.

(** Rows, tables and frames written with literals. *)
Definition record_of (cells : list (string * string)) : record :=
  map (fun kv => (txt (fst kv), Text (txt (snd kv)))) cells.

Definition table_of (cols : list string) (rows : list (list (string * string)))
  : table :=
  {| columns := Some (map txt cols); data := Some (map record_of rows) |}.

Definition frame_of (cols : list string) (rows : list (list string))
  : pd.DataFrame :=
  {| pd.columns := map txt cols;
     pd.rows := map (map (fun s => Text (txt s))) rows |}.

(** Unicode data for texts within U+0000..U+00FF, where it is never
    consulted. *)
Definition no_ucd : UnicodeData :=
  {| ucd_lower := fun s => s; ucd_isdigit := fun _ => false |}.

(** A first table with real headers. *)
Definition statement_page : table :=
  table_of ["Date"; "Amount"] [[("Date", "2023-12-31"); ("Amount", "5")]].

(** The table of the scenario: placeholder labels, header in the first row. *)
Definition headerless_page : table :=
  table_of ["0"; "1"] [[("0", "Date"); ("1", "Amount")];
                       [("0", "2024-01-01"); ("1", "100")]].

(** Placeholder labels and no keyword in the first row. *)
Definition numbers_page : table :=
  table_of ["0"; "1"; "2"] [[("0", "17"); ("1", "4"); ("2", "x")];
                            [("0", "18"); ("1", "5"); ("2", "y")]].

(** A table with a schema of its own. *)
Definition reference_page : table :=
  table_of ["Ref"] [[("Ref", "R-1")]].

(** A header row with two unnamed cells. *)
Definition twice_split_page : table :=
  table_of ["0"; "1"; "2"] [[("0", "Date"); ("1", ""); ("2", "")];
                            [("0", "2024-01-01"); ("1", "a"); ("2", "b")]].

(** A first table whose second column is unnamed and whose reported
    columns are not its row keys. *)
Definition split_first_page : table :=
  {| columns := Some (map txt ["Date"; "Details"]);
     data := Some [record_of [("Date", "2024-01-01"); ("", "coffee")]] |}.

(** A payee written with a glyph name, as some PDF fonts have it. *)
Definition glyph_page : table :=
  table_of ["Date"; "Payee"] [[("Date", "2024-01-01"); ("Payee", "/uni0041CME")]].

(** A cell with a price per unit. *)
Definition unit_price_page : table :=
  table_of ["Date"; "Details"] [[("Date", "2024-01-01"); ("Details", "5 EUR/unit")]].


(** A table after the first that has no row. *)
Definition rowless_page : table := table_of ["Date"; "Amount"] [].

(** Placeholder labels, no keyword in the first row, and as many columns
    as the first table has headers. *)
Definition plain_page : table :=
  table_of ["0"; "1"] [[("0", "2024-02-01"); ("1", "7")]].

(** Placeholder labels and a header row that names both columns alike. *)
Definition twice_named_page : table :=
  table_of ["0"; "1"] [[("0", "Date"); ("1", "Date")];
                       [("0", "2024-01-01"); ("1", "x")]].

(** Two rows without any key. *)
Definition keyless_page : table :=
  {| columns := Some (map txt ["0"; "1"; "2"]); data := Some [[]; []] |}.

(** A rendering of series for frames whose labels do not repeat, where it
    is never consulted. *)
Definition no_series : TableExtractor.SeriesText :=
  {| TableExtractor.str_of_series := fun _ _ _ => [] |}.

(** Times counted in whole seconds. *)
Definition whole_seconds : Converter.Clock := {| Converter.seconds := nat |}.

(** Writers that write the same few characters whatever they are given. *)
Definition fixed_writers : @Converter.Writers whole_seconds :=
  {| Converter.csv_writer := fun _ _ _ => Returned (txt "Date,Amount");
     Converter.excel_writer := fun _ _ _ _ _ => Returned (txt "PK");
     Converter.json_writer := fun _ _ => Returned (txt "{}") |}.

(** A PDF of four bytes, and users with five credits and with one. *)
Definition small_pdf : TableConvert.UploadFile :=
  {| TableConvert.content_type := Some (txt "application/pdf");
     TableConvert.filename := Some (txt "statement.pdf");
     TableConvert.file_content := txt "%PDF" |}.

Definition user_with (credits : Z) : TableConvert.UserResponse :=
  {| TableConvert.user_id := txt "u-1"; TableConvert.credits := credits |}.

(** An extraction of two pages without error. *)
Definition two_pages (tables : list table) : TableConvert.extraction :=
  {| TableConvert.error := None;
     TableConvert.tables := tables;
     TableConvert.pages_processed := 2 |}.

(** A data base that answers every call with a record, and one that cannot
    be reached when the credit transaction is to be created. *)
Definition always_row : list (@TableConvert.db_call whole_seconds)
                        -> @TableConvert.db_call whole_seconds -> TableConvert.reply :=
  fun _ _ => TableConvert.row.

Definition down_for_transactions : list (@TableConvert.db_call whole_seconds)
                                   -> @TableConvert.db_call whole_seconds
                                   -> TableConvert.reply :=
  fun _ call =>
    match call with
    | TableConvert.create_credit_transaction _ _ _ _ =>
        TableConvert.raises (txt "timed out")
    | _ => TableConvert.row
    end.

(** The surroundings of a request: what the extraction finds in the file
    and how the data base answers. *)
Definition services_with (extracted : TableConvert.extraction)
  (database : list (@TableConvert.db_call whole_seconds)
              -> @TableConvert.db_call whole_seconds -> TableConvert.reply)
  : @TableConvert.Services whole_seconds :=
  {| TableConvert.json_object := str;
     TableConvert.uuid4 := txt "c-1";
     TableConvert.extract_tables_from_pdf := fun _ _ => extracted;
     TableConvert.total_time := (1%nat : @Converter.seconds whole_seconds);
     TableConvert.db := database;
     TableConvert.get_user_conversions := fun _ _ => TableConvert.records [];
     TableConvert.describe := fun _ => txt "error";
     TableConvert.b64encode := fun excel_bytes => excel_bytes;
     TableConvert.json_loads := fun text => Some text |}.

(** The value a call returned. *)
Definition value_of {A : Type} (default : A) (m : outcome A) : A :=
  match m with
  | Returned a => a
  | Raised _ => default
  end.

End Scenario.

(* ===================================================================== *)
(** ** The vocabulary of the properties *)
(* ===================================================================== *)

Import Py Json TableExtractor.

(** Replace a closed term by its value. *)
Ltac evaluate t :=
  let v := eval vm_compute in t in
  replace t with v by (vm_compute; reflexivity).

(** Case analysis on the comparisons of code points in the goal. *)
Ltac compare_chars :=
  repeat match goal with
         | |- context [(?a =? ?b)%N] => destruct (N.eqb_spec a b)
         | |- context [(?a <=? ?b)%N] => destruct (N.leb_spec a b)
         | |- context [(?a <? ?b)%N] => destruct (N.ltb_spec a b)
         end.

Section Vocabulary.
Context {U : UnicodeData}.

Definition new_member (i : nat) (df : pd.DataFrame) (key : list str) : group_member :=
  {| member_number := i + 1; dataframe := pd.set_columns df key |}.

(** The normalised labels of table number [n] (numbers start at 1). *)
Definition signature_of (dfs : list pd.DataFrame) (n : nat) : list str :=
  get_normalized_column_key (pd.columns (nth (n - 1) dfs pd.DataFrame_empty)).

(** The numbers of the tables whose normalised labels are those of [key],
    in increasing order. *)
Definition numbers_with (dfs : list pd.DataFrame) (key : list str) : list nat :=
  filter (fun n => pd.labels_eqb (signature_of dfs n) (get_normalized_column_key key))
         (seq 1 (length dfs)).

Definition first_number (g : list str * list group_member) : nat :=
  hd 0 (map member_number (snd g)).

(** What holds of [column_groups] after the tables [dfs] have been seen. *)
Record grouped (dfs : list pd.DataFrame) (groups : column_groups) : Prop := {
  grouped_distinct :
    NoDup (map (fun g => get_normalized_column_key (fst g)) groups);
  grouped_numbers : forall key members,
    In (key, members) groups ->
    map member_number members = numbers_with dfs key;
  grouped_frames : forall key members m,
    In (key, members) groups -> In m members ->
    exists df, nth_error dfs (member_number m - 1) = Some df
               /\ dataframe m = pd.set_columns df key;
  grouped_first : forall key members,
    In (key, members) groups ->
    exists m others df,
      members = m :: others
      /\ nth_error dfs (member_number m - 1) = Some df
      /\ pd.columns df = key;
  grouped_covered : forall df,
    In df dfs ->
    exists key members,
      In (key, members) groups
      /\ get_normalized_column_key key = get_normalized_column_key (pd.columns df);
  grouped_order : StronglySorted lt (map first_number groups)
}.

(** The rows of the tables numbered [numbers], in that order. *)
Definition rows_of (dfs : list pd.DataFrame) (numbers : list nat) : list (list cell) :=
  flat_map (fun n => pd.rows (nth (n - 1) dfs pd.DataFrame_empty)) numbers.

(** The merged table of a group, told from the tables alone. *)
Definition merged_table_of (dfs : list pd.DataFrame)
  (idx_group : nat * (list str * list group_member)) : merged_table :=
  let key := fst (snd idx_group) in
  let merged_df := {| pd.columns := key;
                      pd.rows := rows_of dfs (numbers_with dfs key) |} in
  {| table_number := fst idx_group + 1;
     table_columns := key;
     row_count := pd.len merged_df;
     table_data := pd.to_dict_records merged_df;
     merged_from := numbers_with dfs key |}.

(** The union of the labels of several frames, in order of first appearance. *)
Definition all_labels (acc : list str) (dfs : list pd.DataFrame) : list str :=
  fold_left (fun acc d => pd.union_labels acc (pd.columns d)) dfs acc.

(** Whether all the frames have the labels of the first. *)
Definition same_labels (dfs : list pd.DataFrame) : bool :=
  match dfs with
  | [] => true
  | first :: rest =>
      forallb (fun d => pd.labels_eqb (pd.columns d) (pd.columns first)) rest
  end.

(** Whether the tables are stacked as they are: those that have a row or a
    column all have the same labels. *)
Definition stacked (dfs : list pd.DataFrame) : bool :=
  same_labels (pd.objs dfs).

(** The labels of the ledger of the processed tables [dfs]. *)
Definition ledger_labels (dfs : list pd.DataFrame) : list str :=
  if stacked dfs
  then pd.columns (hd pd.DataFrame_empty (pd.objs dfs))
  else all_labels [] dfs.

(** The row of the ledger that a row of a table with the labels [own]
    becomes, [cols] being the labels of the ledger. *)
Definition ledger_row (same : bool) (own cols : list str) (row : list cell)
  : list cell :=
  map (pd.fill []) (if same then row else pd.reindex_row own cols row).

(** The ledger of the processed tables [dfs]. *)
Definition ledger (dfs : list pd.DataFrame) : pd.DataFrame :=
  {| pd.columns := ledger_labels dfs;
     pd.rows := flat_map (fun d => map (ledger_row (stacked dfs) (pd.columns d)
                                                   (ledger_labels dfs))
                                       (pd.rows d)) dfs |}.

(** What the method returns for the processed tables [dfs]. *)
Definition result_of (dfs : list pd.DataFrame) : result :=
  let merged := map (merged_table_of dfs) (enumerate (group_tables dfs)) in
  {| final_df := ledger dfs;
     table_info := map info_of merged;
     individual_tables := merged |}.

(** Whether the tables have to be realigned while one of them has a label
    twice. *)
Definition repeated_labels (dfs : list pd.DataFrame) : bool :=
  negb (stacked dfs)
  && existsb (fun d => pd.has_duplicates (pd.columns d)) (pd.objs dfs).

Definition all_text (df : pd.DataFrame) : Prop :=
  Forall (Forall (fun v => pd.isna v = false)) (pd.rows df).

(** A row with the cell of the target column and the cell of the unnamed
    column told apart from the cells before and after them. *)
Record split_row := {
  cells_before : list cell;
  left_cell : cell;
  right_cell : cell;
  cells_after : list cell
}.

Definition row_read (q : split_row) : list cell :=
  cells_before q ++ left_cell q :: right_cell q :: cells_after q.

(** [strip(left) + ' ' + strip(right)], missing cells read as [""]. *)
Definition merged_text (l r : cell) : str :=
  strip (pd.str_of_cell (pd.fill [] l)) ++ txt " "
  ++ strip (pd.str_of_cell (pd.fill [] r)).

Definition row_merged (q : split_row) : list cell :=
  cells_before q ++ Text (merged_text (left_cell q) (right_cell q)) :: cells_after q.

(** The merged tables the method makes of the processed tables [dfs]. *)
Definition merged_tables (dfs : list pd.DataFrame) : list merged_table :=
  map (merged_table_of dfs) (enumerate (group_tables dfs)).

(** The serialisation of a text after the replacement of ['/uni']. *)
Definition corrected_literal (s : str) : str :=
  replace (txt "/uni") (txt "\u") (encode_basestring_ascii s).

Definition is_hex (c : char) : bool :=
  match unhex c with
  | Some _ => true
  | None => false
  end.





Definition correct_item (kv : str * cell) : outcome (str * cell) :=
  k <- correct_text (fst kv) ;; v <- correct_cell (snd kv) ;; Returned (k, v).



(** A frame whose rows have one cell for each label. *)
Definition rectangular (df : pd.DataFrame) : Prop :=
  Forall (fun row => length row = length (pd.columns df)) (pd.rows df).


(** A code point that is no surrogate. *)
Definition scalar_value (c : char) : bool :=
  ((c <? 1114112) && negb ((55296 <=? c) && (c <=? 57343)))%N.

(** A text without surrogates and without ['/uni']. *)
Definition plain (s : str) : Prop :=
  forallb scalar_value s = true /\ contains (txt "/uni") s = false.

Definition plain_cell (v : cell) : Prop :=
  match v with
  | Text s => plain s
  | PyNone | NaN => True
  end.

(** A row as a Python [dict] holds it (no key twice), of plain texts. *)
Definition plain_record (r : record) : Prop :=
  NoDup (map fst r) /\ Forall (fun kv => plain (fst kv) /\ plain_cell (snd kv)) r.

Definition plain_table (t : table) : Prop :=
  match columns t with
  | Some cols => Forall plain cols
  | None => True
  end
  /\ match data t with
     | Some records => Forall plain_record records
     | None => True
     end.

(** Whether [P] holds of the [fuel] numbers from [start] on. *)
Fixpoint holds_from (P : N -> bool) (fuel : nat) (start : N) : bool :=
  match fuel with
  | O => true
  | S fuel' => P start && holds_from P fuel' (N.succ start)
  end.

(** The two halves [json.dumps] writes for a code point above U+FFFF. *)
Definition high_half (c : char) : N :=
  N.lor 55296 (N.land (N.shiftr (c - 65536) 10) 1023).
Definition low_half (c : char) : N :=
  N.lor 56320 (N.land (c - 65536) 1023).


(** The document the emitter makes of a frame without rows. *)
Definition empty_document : document :=
  {| transactions := [];
     account_info := None;
     doc_metadata := {| total_transactions := 0;
                        processing_method := txt "table_extraction";
                        detected_headers := None;
                        metadata_table_info := None |} |}.

(** The rows a table after the first adds to the processed tables: none
    when it is skipped, all but the first when the first is taken for its
    header row, and all otherwise. *)
Definition kept_rows (t : table) : nat :=
  match data t with
  | Some records =>
      let df := pd.from_records records in
      if pd.empty df then 0
      else if all_isdigit (pd.columns df)
              && first_row_looks_like_headers (pd.fillna [] df)
      then length records - 1
      else length records
  | None => 0
  end.

End Vocabulary.

Section RouteVocabulary.
Import Py Json TableExtractor Converter TableConvert.
Context {U : UnicodeData} {C : Clock} {W : Writers} {E : Services}.

(** What a request is answered with, and the calls of the data base it
    makes, when none was made before. *)
Definition response {A : Type} (request : action A) : attempt A := fst (request []).

Definition calls {A : Type} (request : action A) : list db_call := snd (request []).

(** A file the route does not refuse: a PDF of at most 10 MB. *)
Definition accepted (file : UploadFile) : Prop :=
  content_type file = Some (txt "application/pdf")
  /\ (N.of_nat (length (file_content file)) <= 10 * 1024 * 1024)%N.

(** The record of the conversion that the route creates. *)
Definition creation (file : UploadFile) (output_formats : str) (current_user : UserResponse)
  : db_call :=
  create_conversion uuid4 (user_id current_user) (filename file)
                    (length (file_content file)) (requested_formats output_formats).

(** The call that marks the conversion as failed with the text of [e]. *)
Definition failure (e : thrown) : db_call :=
  update_conversion uuid4 (failed (str_of_exception e)).

(** The calls that write the credits left, and the credit transaction. *)
Definition charge (current_user : UserResponse) (pages : nat) : db_call :=
  update_user_credits (user_id current_user) (credits current_user - Z.of_nat pages)%Z.

Definition credit_transaction (file : UploadFile) (current_user : UserResponse)
  (pages : nat) : db_call :=
  create_credit_transaction (user_id current_user) (- Z.of_nat pages)%Z
    (txt "PDF conversion (Method 2) - " ++ str_of_optional (filename file)) uuid4.

(** The document as the route has it converted and stored. *)
Definition parsed_data_of (r : result) (document : document) (pages : nat) : parsed :=
  {| emitted := document;
     added := Some {| metadata_processing_time_seconds := total_time;
                      metadata_pages_processed := pages;
                      metadata_raw_tables := individual_tables r |} |}.

Definition completion (r : result) (document : document) (pages : nat) : db_call :=
  update_conversion uuid4 (completed pages pages (parsed_data_of r document pages)).

(** The call that marks the conversion as failed for want of credits, and
    the exception raised after it. *)
Definition shortage (current_user : UserResponse) (pages : nat) : db_call :=
  update_conversion uuid4
    (failed (txt "Insufficient credits. Need " ++ str_of_nat pages ++ txt ", have "
             ++ str_of_int (credits current_user))).

Definition payment_required (current_user : UserResponse) (pages : nat) : thrown :=
  HTTPException 402
    (txt "Insufficient credits. Need " ++ str_of_nat pages ++ txt " credits, you have "
     ++ str_of_int (credits current_user)).

(** The exception the handler of the route raises for [e]. *)
Definition conversion_failed (e : thrown) : thrown :=
  HTTPException 500 (txt "Conversion failed: " ++ str_of_exception e).

(** The data base answers a call, after the calls made before it, and does
    not raise. *)
Definition answered (before : list db_call) (call : db_call) : Prop :=
  forall message, db before call <> raises message.

(** The method, the emitter and the conversions into the requested formats
    all return for the tables extracted from the file. *)
Definition converted (file : UploadFile) (output_formats config : str)
  (r : result) (document : document) (converted_data : dict payload) : Prop :=
  let raw_tables_data := extract_tables_from_pdf (file_content file) config in
  process_tables_sequentially (tables raw_tables_data) = Returned r
  /\ convert_to_structured_format (final_df r) (Some (table_info r)) = Returned document
  /\ convert_to_formats (parsed_data_of r document (pages_processed raw_tables_data))
                        (requested_formats output_formats)
     = Returned converted_data.

(** One of the three raises [e], those before it having returned. *)
Definition unconverted (file : UploadFile) (output_formats config : str) (e : exn) : Prop :=
  let raw_tables_data := extract_tables_from_pdf (file_content file) config in
  process_tables_sequentially (tables raw_tables_data) = Raised e
  \/ (exists r,
        process_tables_sequentially (tables raw_tables_data) = Returned r
        /\ (convert_to_structured_format (final_df r) (Some (table_info r)) = Raised e
            \/ exists document,
                 convert_to_structured_format (final_df r) (Some (table_info r))
                 = Returned document
                 /\ convert_to_formats
                      (parsed_data_of r document (pages_processed raw_tables_data))
                      (requested_formats output_formats)
                    = Raised e)).

(** The handler of the route answers for [cause]: it raises the 500 made of
    it, unless the call that marks the conversion as failed, made after the
    calls [before], raises itself. *)
Definition handled {A : Type} (request : action A) (before : list db_call)
  (cause : thrown) : Prop :=
  (answered before (failure cause) /\ response request = threw (conversion_failed cause))
  \/ exists message,
       db before (failure cause) = raises message
       /\ response request = threw (Exception message).

(** The value under a key of the converted data is of the kind of the
    key. *)
Definition of_kind (k : str) (v : payload) : bool :=
  match v with
  | Csv _ => str_eqb k (txt "csv")
  | Excel _ => str_eqb k (txt "excel")
  | Json _ => str_eqb k (txt "json")
  end.

(** The JSON text of the converted data that the route reads back for
    the response, if it reads one. *)
Definition json_text (requested_formats : list str) (converted_data : dict payload)
  : option str :=
  if mem (txt "json") requested_formats then
    match dict_get converted_data (txt "json") with
    | Some (Json text) => Some text
    | _ => None
    end
  else None.

(** What [json.loads] makes of it. *)
Definition json_read (requested_formats : list str) (converted_data : dict payload)
  : option json_object :=
  match json_text requested_formats converted_data with
  | Some text => json_loads text
  | None => None
  end.

(** A call that writes credits of some user. *)
Definition writes_credits (call : db_call) : bool :=
  match call with
  | update_user_credits _ _ => true
  | _ => false
  end.

End RouteVocabulary.

(* ===================================================================== *)
(** ** Properties *)
(* ===================================================================== *)

(** *** Text and labels *)

Lemma str_eqb_eq (a b : str) : str_eqb a b = true <-> a = b.
Proof.
  unfold str_eqb. destruct (list_eq_dec N.eq_dec a b); split; congruence.
Qed.

Lemma str_eqb_refl (a : str) : str_eqb a a = true.
Proof. now apply str_eqb_eq. Qed.

Lemma str_eqb_neq (a b : str) : str_eqb a b = false <-> a <> b.
Proof.
  unfold str_eqb. destruct (list_eq_dec N.eq_dec a b); split; congruence.
Qed.

Lemma labels_eqb_eq (a b : list str) : pd.labels_eqb a b = true <-> a = b.
Proof.
  unfold pd.labels_eqb.
  destruct (list_eq_dec (list_eq_dec N.eq_dec) a b); split; congruence.
Qed.

Lemma mem_In (x : str) (xs : list str) : mem x xs = true <-> In x xs.
Proof.
  unfold mem. rewrite existsb_exists. split.
  - intros [y [Hy He]]. apply str_eqb_eq in He. now subst.
  - intros H. exists x. split; [assumption | apply str_eqb_refl].
Qed.

Lemma mem_not_In (x : str) (xs : list str) : mem x xs = false <-> ~ In x xs.
Proof.
  rewrite <- mem_In. destruct (mem x xs); split; congruence.
Qed.

(** *** Frames built from records *)

Lemma from_records_len (records : list record) :
  pd.len (pd.from_records records) = length records.
Proof. unfold pd.len, pd.from_records. simpl. apply length_map. Qed.

Lemma fillna_len (v : str) (df : pd.DataFrame) :
  pd.len (pd.fillna v df) = pd.len df.
Proof. unfold pd.len, pd.fillna. simpl. apply length_map. Qed.

Lemma from_records_rectangular (records : list record) :
  Forall (fun row => length row = length (pd.columns (pd.from_records records)))
         (pd.rows (pd.from_records records)).
Proof.
  unfold pd.from_records. simpl. apply Forall_forall. intros row Hin.
  apply in_map_iff in Hin. destruct Hin as [r [Hr _]]. subst row.
  apply length_map.
Qed.

Lemma fillna_rectangular (v : str) (df : pd.DataFrame) :
  Forall (fun row => length row = length (pd.columns df)) (pd.rows df) ->
  Forall (fun row => length row = length (pd.columns (pd.fillna v df)))
         (pd.rows (pd.fillna v df)).
Proof.
  intros H. unfold pd.fillna. simpl. apply Forall_forall. intros row Hin.
  apply in_map_iff in Hin. destruct Hin as [r [Hr Hin]]. subst row.
  rewrite length_map. rewrite Forall_forall in H. now apply H.
Qed.

(** *** Split-column merging keeps the rows *)

Lemma getitem_filled_stripped_length (df : pd.DataFrame) (k : str) (vs : list str) :
  pd.getitem_filled_stripped df k = Returned vs -> length vs = pd.len df.
Proof.
  unfold pd.getitem_filled_stripped.
  destruct (pd.count _ _) as [|[|n]]; try discriminate.
  intros H. inversion H. unfold pd.len. apply length_map.
Qed.

Lemma merge_split_column_try_len (df merged : pd.DataFrame) :
  merge_split_column_try df = Returned merged -> pd.len merged = pd.len df.
Proof.
  unfold merge_split_column_try.
  destruct (0 <? pd.index [] (pd.columns df))%nat.
  - destruct (pd.getitem_filled_stripped df (nth _ _ _)) as [left|e] eqn:Hl;
      simpl; [|discriminate].
    destruct (pd.getitem_filled_stripped df []) as [right|e] eqn:Hr;
      simpl; [|discriminate].
    intros H. inversion H. subst merged.
    apply getitem_filled_stripped_length in Hl, Hr.
    unfold pd.len in *. unfold pd.drop, pd.setitem. simpl.
    rewrite !length_map, !length_combine, length_map, length_combine. lia.
  - intros H. now inversion H.
Qed.

Lemma merge_split_column_len (df : pd.DataFrame) :
  pd.len (merge_split_column df) = pd.len df.
Proof.
  unfold merge_split_column. destruct (mem [] (pd.columns df)); [|reflexivity].
  destruct (merge_split_column_try df) eqn:H; [|reflexivity].
  now apply merge_split_column_try_len.
Qed.

Lemma merge_split_column_no_empty_label (df : pd.DataFrame) :
  ~ In [] (pd.columns df) -> merge_split_column df = df.
Proof.
  intros H. unfold merge_split_column.
  apply mem_not_In in H. now rewrite H.
Qed.

(** *** Generic names *)

Lemma generic_headers_length (n : nat) : length (generic_headers n) = n.
Proof. unfold generic_headers. now rewrite length_map, length_seq. Qed.

Lemma generic_headers_no_empty_label (n : nat) : ~ In [] (generic_headers n).
Proof.
  unfold generic_headers. intros H. apply in_map_iff in H.
  destruct H as [i [H _]]. discriminate H.
Qed.

Section Properties.
Context {U : UnicodeData}.

(** *** One table after the first *)

Lemma process_table_unfold (master_headers : list str) (t : table)
  (records : list record) :
  data t = Some records ->
  pd.empty (pd.from_records records) = false ->
  process_table master_headers t =
  Some (merge_split_column
          (resolve_headers master_headers (pd.fillna [] (pd.from_records records)))).
Proof.
  intros Hd He. unfold process_table. rewrite Hd.
  destruct records as [|r records].
  - discriminate He.
  - now rewrite He.
Qed.

Lemma first_row_looks_like_headers_row (df : pd.DataFrame) :
  first_row_looks_like_headers df = true ->
  exists c first_row rest_rows, pd.rows df = (c :: first_row) :: rest_rows.
Proof.
  unfold first_row_looks_like_headers.
  destruct (pd.rows df) as [|[|c first_row] rest_rows].
  - discriminate.
  - simpl. discriminate.
  - intros _. now exists c, first_row, rest_rows.
Qed.

Lemma looks_like_headers_not_empty (records : list record) :
  first_row_looks_like_headers (pd.fillna [] (pd.from_records records)) = true ->
  pd.empty (pd.from_records records) = false.
Proof.
  intros H. apply first_row_looks_like_headers_row in H.
  destruct H as [c [first_row [rest_rows H]]].
  pose proof (fillna_rectangular [] _ (from_records_rectangular records)) as Hrect.
  rewrite H in Hrect. inversion Hrect as [|x l Hlen _]. subst.
  assert (Hcols : length (pd.columns (pd.from_records records)) <> 0).
  { change (pd.columns (pd.from_records records))
      with (pd.columns (pd.fillna [] (pd.from_records records))).
    rewrite <- Hlen. discriminate. }
  assert (Hrows : length (pd.rows (pd.from_records records)) <> 0).
  { change (pd.len (pd.from_records records) <> 0).
    rewrite <- (fillna_len []). unfold pd.len. rewrite H. discriminate. }
  unfold pd.empty.
  destruct (length (pd.columns (pd.from_records records))); [now elim Hcols|].
  destruct (length (pd.rows (pd.from_records records))); [now elim Hrows|].
  reflexivity.
Qed.

(** A table after the first whose row keys are all numeric, whose first row
    bears no keyword and whose column count differs from the master headers'
    gets the labels [Column_1 .. Column_N] and keeps every row. *)
Lemma mismatch_gets_generic_names (master_headers : list str) (t : table)
  (records : list record) :
  data t = Some records ->
  pd.empty (pd.from_records records) = false ->
  all_isdigit (pd.columns (pd.from_records records)) = true ->
  first_row_looks_like_headers (pd.fillna [] (pd.from_records records)) = false ->
  length (pd.columns (pd.from_records records)) <> length master_headers ->
  process_table master_headers t =
  Some {| pd.columns := generic_headers (length (pd.columns (pd.from_records records)));
          pd.rows := pd.rows (pd.fillna [] (pd.from_records records)) |}.
Proof.
  intros Hd He Hdigit Hfirst Hcount.
  rewrite (process_table_unfold _ _ _ Hd He).
  unfold resolve_headers.
  change (pd.columns (pd.fillna [] (pd.from_records records)))
    with (pd.columns (pd.from_records records)).
  rewrite Hdigit, Hfirst.
  apply Nat.eqb_neq in Hcount. rewrite Hcount.
  rewrite merge_split_column_no_empty_label.
  - reflexivity.
  - apply generic_headers_no_empty_label.
Qed.

(** *** Grouping: the scan of the existing groups *)

Lemma columns_are_similar_iff (cols1 cols2 : list str) :
  columns_are_similar cols1 cols2 = true <->
  get_normalized_column_key cols1 = get_normalized_column_key cols2.
Proof.
  unfold columns_are_similar.
  destruct (length cols1 =? length cols2)%nat eqn:Hlen; simpl.
  - apply labels_eqb_eq.
  - split; [discriminate|]. intros H.
    apply Nat.eqb_neq in Hlen. exfalso. apply Hlen.
    apply (f_equal (@length str)) in H.
    unfold get_normalized_column_key in H. now rewrite !length_map in H.
Qed.

Lemma columns_are_similar_refl (cols : list str) :
  columns_are_similar cols cols = true.
Proof. now apply columns_are_similar_iff. Qed.

Lemma merge_with_existing_some (i : nat) (df : pd.DataFrame)
  (groups merged : column_groups) :
  merge_with_existing i df groups = Some merged ->
  exists before key members after,
    groups = before ++ (key, members) :: after
    /\ Forall (fun g => columns_are_similar (pd.columns df) (fst g) = false) before
    /\ columns_are_similar (pd.columns df) key = true
    /\ merged = before ++ (key, members ++ [new_member i df key]) :: after.
Proof.
  revert merged. induction groups as [|[key members] others IH]; intros merged H.
  - discriminate.
  - simpl in H.
    destruct (columns_are_similar (pd.columns df) key) eqn:Hsim.
    + inversion H. exists [], key, members, others. repeat split; auto.
    + destruct (merge_with_existing i df others) as [m|] eqn:Hm; [|discriminate].
      inversion H. subst merged.
      destruct (IH m eq_refl) as [before [k [ms [after [Hg [Hb [Hs Hm']]]]]]].
      exists ((key, members) :: before), k, ms, after.
      subst. repeat split; auto.
Qed.

Lemma merge_with_existing_none (i : nat) (df : pd.DataFrame) (groups : column_groups) :
  merge_with_existing i df groups = None ->
  Forall (fun g => columns_are_similar (pd.columns df) (fst g) = false) groups.
Proof.
  induction groups as [|[key members] others IH]; intros H.
  - constructor.
  - simpl in H.
    destruct (columns_are_similar (pd.columns df) key) eqn:Hsim; [discriminate|].
    destruct (merge_with_existing i df others); [discriminate|].
    constructor; auto.
Qed.

Lemma combine_snoc {A B : Type} (s : list A) (l : list B) (n : A) (x : B) :
  length s = length l ->
  combine (s ++ [n]) (l ++ [x]) = combine s l ++ [(n, x)].
Proof.
  revert l. induction s as [|b s IH]; intros [|a l] Hs; simpl in *;
    try discriminate; auto.
  f_equal. apply IH. congruence.
Qed.

Lemma enumerate_snoc {A : Type} (l : list A) (x : A) :
  enumerate (l ++ [x]) = enumerate l ++ [(length l, x)].
Proof.
  unfold enumerate. rewrite length_app. simpl.
  rewrite Nat.add_1_r, seq_S. simpl.
  apply combine_snoc. apply length_seq.
Qed.

Lemma group_tables_snoc (dfs : list pd.DataFrame) (df : pd.DataFrame) :
  group_tables (dfs ++ [df]) = group_step (group_tables dfs) (length dfs, df).
Proof.
  unfold group_tables. rewrite enumerate_snoc, fold_left_app. reflexivity.
Qed.

(** *** Grouping: the invariant of the loop *)

Lemma numbers_with_snoc (dfs : list pd.DataFrame) (df : pd.DataFrame) (key : list str) :
  numbers_with (dfs ++ [df]) key =
  numbers_with dfs key ++
  (if columns_are_similar (pd.columns df) key then [length dfs + 1] else []).
Proof.
  unfold numbers_with. rewrite length_app. simpl.
  rewrite Nat.add_1_r, seq_S, filter_app. f_equal.
  - apply filter_ext_in. intros n Hn. apply in_seq in Hn.
    unfold signature_of. rewrite app_nth1 by lia. reflexivity.
  - simpl. unfold signature_of.
    replace (S (length dfs) - 1) with (length dfs) by lia.
    rewrite nth_middle.
    destruct (columns_are_similar (pd.columns df) key) eqn:Hs.
    + apply columns_are_similar_iff in Hs. rewrite Hs.
      replace (pd.labels_eqb _ _) with true
        by (symmetry; now apply labels_eqb_eq).
      reflexivity.
    + destruct (pd.labels_eqb _ _) eqn:He; [|reflexivity].
      apply labels_eqb_eq, columns_are_similar_iff in He. congruence.
Qed.

Lemma numbers_with_bound (dfs : list pd.DataFrame) (key : list str) (n : nat) :
  In n (numbers_with dfs key) -> 1 <= n <= length dfs.
Proof.
  unfold numbers_with. intros H. apply filter_In in H. destruct H as [H _].
  apply in_seq in H. lia.
Qed.

Lemma numbers_with_In (dfs : list pd.DataFrame) (key : list str) (i : nat) (df : pd.DataFrame) :
  nth_error dfs i = Some df ->
  (In (i + 1) (numbers_with dfs key) <->
   get_normalized_column_key (pd.columns df) = get_normalized_column_key key).
Proof.
  intros Hnth. unfold numbers_with. rewrite filter_In, in_seq.
  assert (Hi : i < length dfs) by (apply nth_error_Some; congruence).
  unfold signature_of. replace (i + 1 - 1) with i by lia.
  rewrite (nth_error_nth _ _ _ Hnth). rewrite labels_eqb_eq.
  split; [tauto|]. intros H. split; [lia|assumption].
Qed.

Lemma StronglySorted_snoc (l : list nat) (x : nat) :
  StronglySorted lt l -> Forall (fun a => a < x) l -> StronglySorted lt (l ++ [x]).
Proof.
  induction 1 as [|a l Hl IH Ha]; intros Hx; simpl.
  - repeat constructor.
  - inversion Hx; subst. constructor.
    + now apply IH.
    + apply Forall_app. split; [assumption|]. now repeat constructor.
Qed.

Lemma grouped_nil : grouped [] [].
Proof.
  constructor; simpl; try contradiction; constructor.
Qed.

Lemma set_columns_own (df : pd.DataFrame) : pd.set_columns df (pd.columns df) = df.
Proof. now destruct df. Qed.

Lemma nth_error_snoc_old {A : Type} (l : list A) (x a : A) (i : nat) :
  nth_error l i = Some a -> nth_error (l ++ [x]) i = Some a.
Proof.
  intros H. rewrite nth_error_app1; [assumption|].
  apply nth_error_Some. congruence.
Qed.

Lemma not_similar_numbers (dfs : list pd.DataFrame) (df : pd.DataFrame) (key : list str) :
  columns_are_similar (pd.columns df) key = false ->
  numbers_with (dfs ++ [df]) key = numbers_with dfs key.
Proof.
  intros H. rewrite numbers_with_snoc, H. apply app_nil_r.
Qed.

Lemma not_similar_neq (cols key : list str) :
  get_normalized_column_key cols <> get_normalized_column_key key ->
  columns_are_similar cols key = false.
Proof.
  intros H. destruct (columns_are_similar cols key) eqn:Hs; [|reflexivity].
  apply columns_are_similar_iff in Hs. contradiction.
Qed.

(** A table that is similar to the key of a group joins it. *)
Lemma grouped_join (dfs : list pd.DataFrame) (df : pd.DataFrame)
  (before after : column_groups) (key : list str) (members : list group_member) :
  grouped dfs (before ++ (key, members) :: after) ->
  Forall (fun g => columns_are_similar (pd.columns df) (fst g) = false) before ->
  columns_are_similar (pd.columns df) key = true ->
  grouped (dfs ++ [df])
          (before ++ (key, members ++ [new_member (length dfs) df key]) :: after).
Proof.
  intros [Hdist Hnum Hfr Hfirst Hcov Hord] Hbefore Hsim.
  assert (Hkeys : forall k ms,
             In (k, ms) (before ++ (key, members ++ [new_member (length dfs) df key]) :: after) ->
             (In (k, ms) before \/ In (k, ms) after) /\ In (k, ms) (before ++ (key, members) :: after)
             \/ k = key /\ ms = members ++ [new_member (length dfs) df key]).
  { intros k ms Hin. apply in_app_or in Hin. destruct Hin as [Hin|[Hin|Hin]].
    - left. split; [now left|]. apply in_or_app. now left.
    - inversion Hin. now right.
    - left. split; [now right|]. apply in_or_app. right. now right. }
  assert (Hhere : In (key, members) (before ++ (key, members) :: after))
    by (apply in_or_app; right; now left).
  assert (Hafter : forall k ms, In (k, ms) after ->
             columns_are_similar (pd.columns df) k = false).
  { intros k ms Hin. apply not_similar_neq. intros Heq.
    rewrite map_app in Hdist. simpl in Hdist.
    apply NoDup_remove_2 in Hdist. apply Hdist. apply in_or_app. right.
    apply columns_are_similar_iff in Hsim. rewrite <- Hsim, Heq.
    apply (in_map (fun g => get_normalized_column_key (fst g)) _ (k, ms)), Hin. }
  constructor.
  - rewrite map_app in *. exact Hdist.
  - intros k ms Hin. destruct (Hkeys k ms Hin) as [[Hwhere Hold]|[-> ->]].
    + rewrite not_similar_numbers; [now apply Hnum|].
      destruct Hwhere as [Hb|Ha].
      * rewrite Forall_forall in Hbefore. apply (Hbefore (k, ms) Hb).
      * now apply (Hafter k ms).
    + rewrite map_app, numbers_with_snoc, Hsim. simpl.
      now rewrite (Hnum key members Hhere).
  - intros k ms m Hin Hm. destruct (Hkeys k ms Hin) as [[_ Hold]|[-> ->]].
    + destruct (Hfr k ms m Hold Hm) as [d [Hd Hm']].
      exists d. split; [now apply nth_error_snoc_old|assumption].
    + apply in_app_or in Hm. destruct Hm as [Hm|[<-|[]]].
      * destruct (Hfr key members m Hhere Hm) as [d [Hd Hm']].
        exists d. split; [now apply nth_error_snoc_old|assumption].
      * exists df. simpl. replace (length dfs + 1 - 1) with (length dfs) by lia.
        split; [|reflexivity]. rewrite nth_error_app2 by lia.
        now rewrite Nat.sub_diag.
  - intros k ms Hin. destruct (Hkeys k ms Hin) as [[_ Hold]|[-> ->]].
    + destruct (Hfirst k ms Hold) as [m [others [d [Hms [Hd Hc]]]]].
      exists m, others, d. repeat split; auto. now apply nth_error_snoc_old.
    + destruct (Hfirst key members Hhere) as [m [others [d [Hms [Hd Hc]]]]].
      exists m, (others ++ [new_member (length dfs) df key]), d.
      subst members. repeat split; auto. now apply nth_error_snoc_old.
  - intros d Hd. apply in_app_or in Hd. destruct Hd as [Hd|[<-|[]]].
    + destruct (Hcov d Hd) as [k [ms [Hin Hk]]].
      apply in_app_or in Hin. destruct Hin as [Hin|[Hin|Hin]].
      * exists k, ms. split; [apply in_or_app; now left|assumption].
      * inversion Hin; subst k ms.
        exists key, (members ++ [new_member (length dfs) df key]).
        split; [apply in_or_app; right; now left|assumption].
      * exists k, ms. split; [apply in_or_app; right; now right|assumption].
    + exists key, (members ++ [new_member (length dfs) df key]).
      split; [apply in_or_app; right; now left|].
      symmetry. now apply columns_are_similar_iff.
  - destruct (Hfirst key members Hhere) as [m [others [d [Hms _]]]].
    rewrite map_app in *. simpl in *. unfold first_number in *. simpl in *.
    subst members. exact Hord.
Qed.

Lemma similar_false_neq (cols key : list str) :
  columns_are_similar cols key = false ->
  get_normalized_column_key cols <> get_normalized_column_key key.
Proof.
  intros H Heq. apply columns_are_similar_iff in Heq. congruence.
Qed.

(** A table that is similar to no key starts a group. *)
Lemma grouped_start (dfs : list pd.DataFrame) (df : pd.DataFrame) (groups : column_groups) :
  grouped dfs groups ->
  Forall (fun g => columns_are_similar (pd.columns df) (fst g) = false) groups ->
  grouped (dfs ++ [df])
          (groups ++ [(pd.columns df, [{| member_number := length dfs + 1;
                                          dataframe := df |}])]).
Proof.
  intros [Hdist Hnum Hfr Hfirst Hcov Hord] Hnone.
  rewrite Forall_forall in Hnone.
  assert (Hnew : numbers_with dfs (pd.columns df) = []).
  { unfold numbers_with.
    destruct (filter _ _) as [|n l] eqn:Hf; [reflexivity|]. exfalso.
    assert (Hn : In n (n :: l)) by now left.
    rewrite <- Hf in Hn. apply filter_In in Hn. destruct Hn as [Hn He].
    apply in_seq in Hn. apply labels_eqb_eq in He. unfold signature_of in He.
    destruct (Hcov (nth (n - 1) dfs pd.DataFrame_empty)) as [k [ms [Hin Hk]]].
    { apply nth_In. lia. }
    specialize (Hnone (k, ms) Hin). simpl in Hnone.
    apply similar_false_neq in Hnone. apply Hnone. congruence. }
  constructor.
  - rewrite map_app. simpl. apply NoDup_app; [assumption| |].
    { repeat constructor. intros []. }
    intros sig Hsig [<-|[]]. apply in_map_iff in Hsig.
    destruct Hsig as [[k ms] [Hk Hin]]. simpl in Hk.
    specialize (Hnone (k, ms) Hin). simpl in Hnone.
    apply similar_false_neq in Hnone. apply Hnone. congruence.
  - intros k ms Hin. apply in_app_or in Hin. destruct Hin as [Hin|[Hin|[]]].
    + rewrite not_similar_numbers; [now apply Hnum|].
      apply (Hnone (k, ms) Hin).
    + inversion Hin; subst k ms. simpl.
      now rewrite numbers_with_snoc, Hnew, columns_are_similar_refl.
  - intros k ms m Hin Hm. apply in_app_or in Hin. destruct Hin as [Hin|[Hin|[]]].
    + destruct (Hfr k ms m Hin Hm) as [d [Hd Hm']].
      exists d. split; [now apply nth_error_snoc_old|assumption].
    + inversion Hin; subst k ms. destruct Hm as [<-|[]]. simpl.
      exists df. replace (length dfs + 1 - 1) with (length dfs) by lia.
      split; [|now rewrite set_columns_own].
      rewrite nth_error_app2 by lia. now rewrite Nat.sub_diag.
  - intros k ms Hin. apply in_app_or in Hin. destruct Hin as [Hin|[Hin|[]]].
    + destruct (Hfirst k ms Hin) as [m [others [d [Hms [Hd Hc]]]]].
      exists m, others, d. repeat split; auto. now apply nth_error_snoc_old.
    + inversion Hin; subst k ms.
      exists {| member_number := length dfs + 1; dataframe := df |}, [], df.
      simpl. replace (length dfs + 1 - 1) with (length dfs) by lia.
      repeat split. rewrite nth_error_app2 by lia. now rewrite Nat.sub_diag.
  - intros d Hd. apply in_app_or in Hd. destruct Hd as [Hd|[<-|[]]].
    + destruct (Hcov d Hd) as [k [ms [Hin Hk]]].
      exists k, ms. split; [apply in_or_app; now left|assumption].
    + eexists _, _. split; [apply in_or_app; right; now left|reflexivity].
  - rewrite map_app. simpl. apply StronglySorted_snoc; [assumption|].
    apply Forall_forall. intros n Hn. apply in_map_iff in Hn.
    destruct Hn as [[k ms] [Hn Hin]]. unfold first_number in *. simpl in *.
    destruct (Hfirst k ms Hin) as [m [others [d [Hms _]]]].
    assert (Hb : In n (numbers_with dfs k)).
    { rewrite <- (Hnum k ms Hin). subst ms n. now left. }
    apply numbers_with_bound in Hb. lia.
Qed.

Lemma grouped_step (dfs : list pd.DataFrame) (df : pd.DataFrame) (groups : column_groups) :
  grouped dfs groups ->
  grouped (dfs ++ [df]) (group_step groups (length dfs, df)).
Proof.
  intros H. unfold group_step.
  destruct (merge_with_existing (length dfs) df groups) as [merged|] eqn:Hm.
  - apply merge_with_existing_some in Hm.
    destruct Hm as [before [key [members [after [-> [Hb [Hs ->]]]]]]].
    now apply grouped_join.
  - apply merge_with_existing_none in Hm. now apply grouped_start.
Qed.

(** The invariant holds of the groups the loop leaves. *)
Lemma group_tables_grouped (dfs : list pd.DataFrame) : grouped dfs (group_tables dfs).
Proof.
  induction dfs as [|df dfs IH] using rev_ind.
  - apply grouped_nil.
  - rewrite group_tables_snoc. now apply grouped_step.
Qed.

(** *** Grouping: the merged tables *)

Lemma mapM_map {A B : Type} (f : A -> outcome B) (g : A -> B) (l : list A) :
  (forall x, In x l -> f x = Returned (g x)) ->
  mapM f l = Returned (map g l).
Proof.
  induction l as [|x l IH]; intros H; simpl.
  - reflexivity.
  - rewrite (H x) by now left. simpl.
    rewrite IH by (intros y Hy; apply H; now right). reflexivity.
Qed.

(** The frames that [pd.concat] leaves out have no row and no column. *)
Lemma non_empties_In (d : pd.DataFrame) (dfs : list pd.DataFrame) :
  In d (pd.non_empties dfs) <->
  In d dfs /\ (pd.rows d <> [] \/ pd.columns d <> []).
Proof.
  unfold pd.non_empties. rewrite filter_In, Nat.ltb_lt. unfold pd.len.
  split; intros [Hd H]; (split; [assumption|]).
  - destruct (pd.rows d); [|left; discriminate].
    destruct (pd.columns d); [simpl in H; lia|right; discriminate].
  - destruct H as [H|H]; [destruct (pd.rows d)|destruct (pd.columns d)];
      simpl; try contradiction; lia.
Qed.

Lemma objs_In (d : pd.DataFrame) (dfs : list pd.DataFrame) :
  In d (pd.objs dfs) -> In d dfs.
Proof.
  unfold pd.objs. destruct (pd.non_empties dfs) eqn:E; [auto|].
  rewrite <- E. intros H. now apply non_empties_In in H.
Qed.

Lemma objs_kept (d : pd.DataFrame) (dfs : list pd.DataFrame) :
  In d dfs -> pd.rows d <> [] \/ pd.columns d <> [] -> In d (pd.objs dfs).
Proof.
  intros Hd H. assert (Hin : In d (pd.non_empties dfs)) by now apply non_empties_In.
  unfold pd.objs. destruct (pd.non_empties dfs); [contradiction|assumption].
Qed.

Lemma objs_not_nil (dfs : list pd.DataFrame) : dfs <> [] -> pd.objs dfs <> [].
Proof.
  unfold pd.objs. destruct (pd.non_empties dfs); [auto|discriminate].
Qed.

Lemma objs_head (first : pd.DataFrame) (later : list pd.DataFrame) :
  pd.rows first <> [] \/ pd.columns first <> [] ->
  pd.objs (first :: later) = first :: pd.non_empties later.
Proof.
  intros H.
  assert (Hin : In first (pd.non_empties [first])) by (apply non_empties_In; simpl; auto).
  unfold pd.objs, pd.non_empties in *. simpl in *.
  destruct (0 <? _)%nat; [reflexivity|contradiction].
Qed.

Lemma non_empties_flat_map {B : Type} (g : pd.DataFrame -> list B)
  (dfs : list pd.DataFrame) :
  (forall d, pd.rows d = [] -> g d = []) ->
  flat_map g (pd.non_empties dfs) = flat_map g dfs.
Proof.
  intros Hg. induction dfs as [|d dfs IH]; [reflexivity|].
  unfold pd.non_empties in *. simpl.
  destruct (0 <? _)%nat eqn:Hd; simpl; [now rewrite IH|].
  rewrite IH, Hg; [reflexivity|].
  apply Nat.ltb_ge in Hd. unfold pd.len in Hd.
  destruct (pd.rows d); [reflexivity|simpl in Hd; lia].
Qed.

(** What is left out has no row to give ... *)
Lemma objs_flat_map {B : Type} (g : pd.DataFrame -> list B) (dfs : list pd.DataFrame) :
  (forall d, pd.rows d = [] -> g d = []) ->
  flat_map g (pd.objs dfs) = flat_map g dfs.
Proof.
  intros Hg. unfold pd.objs.
  destruct (pd.non_empties dfs) eqn:E; [reflexivity|].
  rewrite <- E. now apply non_empties_flat_map.
Qed.

Lemma non_empties_all_labels (dfs : list pd.DataFrame) (acc : list str) :
  all_labels acc (pd.non_empties dfs) = all_labels acc dfs.
Proof.
  revert acc. induction dfs as [|d dfs IH]; intros acc; [reflexivity|].
  unfold pd.non_empties, all_labels in *. simpl.
  destruct (0 <? _)%nat eqn:Hd; simpl; [now rewrite IH|].
  rewrite IH. apply Nat.ltb_ge in Hd.
  destruct (pd.columns d); [reflexivity|simpl in Hd; lia].
Qed.

(** ... and no label. *)
Lemma objs_all_labels (dfs : list pd.DataFrame) (acc : list str) :
  all_labels acc (pd.objs dfs) = all_labels acc dfs.
Proof.
  unfold pd.objs. destruct (pd.non_empties dfs) eqn:E; [reflexivity|].
  rewrite <- E. apply non_empties_all_labels.
Qed.

Lemma same_labels_Forall (first : pd.DataFrame) (rest : list pd.DataFrame) :
  same_labels (first :: rest) = true <->
  Forall (fun d => pd.columns d = pd.columns first) (first :: rest).
Proof.
  simpl. rewrite forallb_forall, Forall_forall. split.
  - intros H d [<-|Hd]; [reflexivity|]. now apply labels_eqb_eq, H.
  - intros H d Hd. apply labels_eqb_eq, H. now right.
Qed.

(** When the tables are stacked, each that has a row or a column has the
    labels of the ledger. *)
Lemma stacked_labels (dfs : list pd.DataFrame) (d : pd.DataFrame) :
  stacked dfs = true -> In d (pd.objs dfs) -> pd.columns d = ledger_labels dfs.
Proof.
  unfold ledger_labels, stacked. intros Hs Hd. rewrite Hs.
  destruct (pd.objs dfs) as [|first rest]; [contradiction|].
  apply same_labels_Forall in Hs. rewrite Forall_forall in Hs. now apply Hs.
Qed.

(** [pd.concat] raises when it has to realign a frame whose labels repeat,
    and otherwise returns the frames stacked or realigned. *)
Lemma concat_unfold (dfs : list pd.DataFrame) :
  dfs <> [] ->
  pd.concat dfs =
  if repeated_labels dfs then Raised InvalidIndexError
  else Returned {| pd.columns := ledger_labels dfs;
                   pd.rows := flat_map (fun d => if stacked dfs then pd.rows d
                                                 else pd.reindex (ledger_labels dfs) d)
                                       dfs |}.
Proof.
  intros Hne. apply objs_not_nil in Hne.
  assert (Hrows : forall (same : bool) cols,
             flat_map (fun d => if same then pd.rows d else pd.reindex cols d) (pd.objs dfs)
             = flat_map (fun d => if same then pd.rows d else pd.reindex cols d) dfs).
  { intros same cols. apply objs_flat_map. intros d Hd.
    destruct same; [assumption|]. unfold pd.reindex. now rewrite Hd. }
  rewrite <- Hrows.
  unfold pd.concat, repeated_labels, ledger_labels, stacked.
  rewrite <- (objs_all_labels dfs []).
  destruct (pd.objs dfs) as [|first rest]; [contradiction|].
  change (forallb _ rest) with (same_labels (first :: rest)).
  destruct (same_labels (first :: rest)); [reflexivity|].
  cbn [negb andb]. destruct (existsb _ (first :: rest)); reflexivity.
Qed.

(** Frames with the very same labels are stacked as they are. *)
Lemma concat_same_labels (key : list str) (first : pd.DataFrame) (rest : list pd.DataFrame) :
  Forall (fun d => pd.columns d = key) (first :: rest) ->
  pd.concat (first :: rest) =
  Returned {| pd.columns := key; pd.rows := flat_map pd.rows (first :: rest) |}.
Proof.
  intros H. rewrite Forall_forall in H.
  assert (Hs : stacked (first :: rest) = true).
  { unfold stacked.
    destruct (pd.objs (first :: rest)) as [|o os] eqn:E; [reflexivity|].
    apply same_labels_Forall, Forall_forall. intros d Hd.
    rewrite (H d), (H o); try reflexivity; apply objs_In; rewrite E; simpl; auto. }
  assert (Hl : ledger_labels (first :: rest) = key).
  { assert (Hne : pd.objs (first :: rest) <> []) by now apply objs_not_nil.
    destruct (pd.objs (first :: rest)) as [|o os] eqn:E; [contradiction|].
    rewrite <- (stacked_labels _ o Hs) by (rewrite E; now left).
    apply H, objs_In. rewrite E. now left. }
  rewrite concat_unfold by discriminate.
  unfold repeated_labels. rewrite Hs, Hl. reflexivity.
Qed.

Lemma grouped_rows (dfs : list pd.DataFrame) (groups : column_groups)
  (key : list str) (members : list group_member) :
  grouped dfs groups -> In (key, members) groups ->
  flat_map pd.rows (map dataframe members) = rows_of dfs (numbers_with dfs key)
  /\ Forall (fun d => pd.columns d = key) (map dataframe members).
Proof.
  intros Hg Hin.
  rewrite <- (grouped_numbers _ _ Hg key members Hin).
  pose proof (grouped_frames _ _ Hg key members) as Hfr.
  specialize (fun m => Hfr m Hin).
  clear Hin. unfold rows_of.
  induction members as [|m ms IH]; simpl.
  - split; constructor.
  - destruct (Hfr m) as [d [Hd Hm]]; [now left|].
    destruct IH as [IH1 IH2]; [intros m' Hm'; apply Hfr; now right|].
    rewrite (nth_error_nth _ _ _ Hd), Hm, IH1. split; [reflexivity|].
    constructor; [reflexivity|assumption].
Qed.

Lemma merge_group_grouped (dfs : list pd.DataFrame) (groups : column_groups)
  (idx : nat) (key : list str) (members : list group_member) :
  grouped dfs groups -> In (key, members) groups ->
  merge_group (idx, (key, members)) = Returned (merged_table_of dfs (idx, (key, members))).
Proof.
  intros Hg Hin. unfold merge_group.
  destruct (grouped_rows _ _ _ _ Hg Hin) as [Hrows Hcols].
  pose proof (grouped_numbers _ _ Hg key members Hin) as Hnum.
  destruct (grouped_first _ _ Hg key members Hin) as [m [others [d [Hms _]]]].
  assert (Hc : pd.concat (map dataframe members) =
               Returned {| pd.columns := key;
                           pd.rows := flat_map pd.rows (map dataframe members) |}).
  { rewrite Hms in *. simpl map in *. now apply concat_same_labels. }
  rewrite Hc. unfold bind, merged_table_of. simpl fst. simpl snd.
  now rewrite Hrows, Hnum.
Qed.

Lemma enumerate_In {A : Type} (l : list A) (i : nat) (x : A) :
  In (i, x) (enumerate l) -> In x l.
Proof. unfold enumerate. apply in_combine_r. Qed.

(** The merging of the groups always returns. *)
Lemma merge_groups_returns (dfs : list pd.DataFrame) :
  merge_groups (group_tables dfs) =
  Returned (map (merged_table_of dfs) (enumerate (group_tables dfs))).
Proof.
  unfold merge_groups. apply mapM_map. intros [idx [key members]] Hin.
  apply merge_group_grouped with (groups := group_tables dfs).
  - apply group_tables_grouped.
  - now apply enumerate_In in Hin.
Qed.

Lemma map_fst_combine {A B : Type} (s : list A) (l : list B) :
  length s = length l -> map fst (combine s l) = s.
Proof.
  revert l. induction s as [|n s IH]; intros [|a l] H; simpl in *;
    try discriminate; auto.
  f_equal. apply IH. congruence.
Qed.

Lemma map_snd_combine {A B : Type} (s : list A) (l : list B) :
  length s = length l -> map snd (combine s l) = l.
Proof.
  revert l. induction s as [|n s IH]; intros [|a l] H; simpl in *;
    try discriminate; auto.
  f_equal. apply IH. congruence.
Qed.

Lemma enumerate_fst {A : Type} (l : list A) :
  map fst (enumerate l) = seq 0 (length l).
Proof. apply map_fst_combine, length_seq. Qed.

Lemma enumerate_snd {A : Type} (l : list A) : map snd (enumerate l) = l.
Proof. apply map_snd_combine, length_seq. Qed.

Lemma enumerate_length {A : Type} (l : list A) : length (enumerate l) = length l.
Proof.
  unfold enumerate. rewrite length_combine, length_seq. apply Nat.min_id.
Qed.

(** *** Unions of labels *)

Lemma union_labels_extra (ks acc : list str) :
  exists extra,
    pd.union_labels acc ks = acc ++ extra
    /\ (forall k, In k extra -> In k ks /\ ~ In k acc).
Proof.
  unfold pd.union_labels. revert acc.
  induction ks as [|k ks IH]; intros acc; simpl.
  - exists []. split; [now rewrite app_nil_r|intros k []].
  - destruct (mem k acc) eqn:Hk.
    + destruct (IH acc) as [extra [He Hx]]. exists extra. split; [assumption|].
      intros k' Hk'. destruct (Hx k' Hk'). auto.
    + destruct (IH (acc ++ [k])) as [extra [He Hx]].
      exists (k :: extra). split.
      * rewrite He, <- app_assoc. reflexivity.
      * apply mem_not_In in Hk. intros k' [<-|Hk']; [auto|].
        destruct (Hx k' Hk') as [H1 H2]. split; [auto|].
        intros H. apply H2. apply in_or_app. now left.
Qed.

Lemma union_labels_In (ks acc : list str) (k : str) :
  In k (pd.union_labels acc ks) <-> In k acc \/ In k ks.
Proof.
  unfold pd.union_labels. revert acc.
  induction ks as [|k0 ks IH]; intros acc; simpl.
  - tauto.
  - destruct (mem k0 acc) eqn:Hk; rewrite IH.
    + apply mem_In in Hk. split; [tauto|]. intros [H|[<-|H]]; auto.
    + rewrite in_app_iff. simpl. tauto.
Qed.

Lemma union_labels_NoDup (ks acc : list str) :
  NoDup acc -> NoDup (pd.union_labels acc ks).
Proof.
  unfold pd.union_labels. revert acc.
  induction ks as [|k ks IH]; intros acc H; simpl.
  - assumption.
  - destruct (mem k acc) eqn:Hk; apply IH; [assumption|].
    apply mem_not_In in Hk. apply NoDup_app; [assumption| |].
    + repeat constructor. intros [].
    + intros a Ha [<-|[]]. contradiction.
Qed.

Lemma union_labels_known (ks acc : list str) :
  (forall k, In k ks -> In k acc) -> pd.union_labels acc ks = acc.
Proof.
  unfold pd.union_labels. revert acc.
  induction ks as [|k ks IH]; intros acc H; simpl.
  - reflexivity.
  - replace (mem k acc) with true
      by (symmetry; apply mem_In, H; now left).
    apply IH. intros k' Hk'. apply H. now right.
Qed.

Lemma union_labels_fresh (ks : list str) :
  NoDup ks -> pd.union_labels [] ks = ks.
Proof.
  intros H.
  assert (G : forall acc, NoDup (acc ++ ks) -> pd.union_labels acc ks = acc ++ ks).
  { clear H. unfold pd.union_labels.
    induction ks as [|k ks IH]; intros acc H; simpl.
    - now rewrite app_nil_r.
    - pose proof (NoDup_remove_2 _ _ _ H) as Hk.
      replace (mem k acc) with false.
      + rewrite IH.
        * now rewrite <- app_assoc.
        * now rewrite <- app_assoc.
      + symmetry. apply mem_not_In. intros Hin. apply Hk.
        apply in_or_app. now left. }
  now apply (G []).
Qed.

Lemma all_labels_extra (dfs : list pd.DataFrame) (acc : list str) :
  exists extra,
    all_labels acc dfs = acc ++ extra /\ (forall k, In k extra -> ~ In k acc).
Proof.
  unfold all_labels. revert acc.
  induction dfs as [|d dfs IH]; intros acc; simpl.
  - exists []. split; [now rewrite app_nil_r|intros k []].
  - destruct (union_labels_extra (pd.columns d) acc) as [e1 [He1 Hx1]].
    destruct (IH (pd.union_labels acc (pd.columns d))) as [e2 [He2 Hx2]].
    exists (e1 ++ e2). split.
    + rewrite He2, He1, <- app_assoc. reflexivity.
    + intros k Hk. apply in_app_or in Hk. destruct Hk as [Hk|Hk].
      * now apply Hx1.
      * intros Hacc. apply (Hx2 k Hk). rewrite He1. apply in_or_app. now left.
Qed.

Lemma all_labels_In (dfs : list pd.DataFrame) (acc : list str) (k : str) :
  In k (all_labels acc dfs) <->
  In k acc \/ exists d, In d dfs /\ In k (pd.columns d).
Proof.
  unfold all_labels. revert acc.
  induction dfs as [|d dfs IH]; intros acc; simpl.
  - split; [auto|]. intros [H|[d [[] _]]]. assumption.
  - rewrite IH, union_labels_In. split.
    + intros [[H|H]|[d' [H1 H2]]]; eauto.
    + intros [H|[d' [[<-|H1] H2]]]; eauto.
Qed.

Lemma all_labels_NoDup (dfs : list pd.DataFrame) (acc : list str) :
  NoDup acc -> NoDup (all_labels acc dfs).
Proof.
  unfold all_labels. revert acc.
  induction dfs as [|d dfs IH]; intros acc H; simpl.
  - assumption.
  - apply IH. now apply union_labels_NoDup.
Qed.

Lemma all_labels_same (dfs : list pd.DataFrame) (acc : list str) :
  Forall (fun d => pd.columns d = acc) dfs -> all_labels acc dfs = acc.
Proof.
  unfold all_labels. induction 1 as [|d dfs Hd _ IH]; simpl.
  - reflexivity.
  - rewrite union_labels_known; [assumption|]. intros k. now rewrite Hd.
Qed.

Lemma from_records_NoDup (records : list record) :
  NoDup (pd.columns (pd.from_records records)).
Proof.
  unfold pd.from_records. simpl.
  assert (G : forall acc, NoDup acc ->
              NoDup (fold_left (fun acc r => pd.union_labels acc (map fst r)) records acc)).
  { induction records as [|r records IH]; intros acc H; simpl.
    - assumption.
    - apply IH. now apply union_labels_NoDup. }
  apply G. constructor.
Qed.

(** *** Concatenation *)

Lemma has_duplicates_NoDup (labels : list str) :
  pd.has_duplicates labels = false <-> NoDup labels.
Proof.
  induction labels as [|k labels IH]; simpl.
  - split; [constructor|reflexivity].
  - rewrite orb_false_iff, IH, mem_not_In. split.
    + intros [H1 H2]. now constructor.
    + intros H. inversion H. auto.
Qed.

Lemma map_flat_map {A B C : Type} (f : B -> C) (g : A -> list B) (l : list A) :
  map f (flat_map g l) = flat_map (fun x => map f (g x)) l.
Proof.
  induction l as [|x l IH]; simpl; [reflexivity|].
  now rewrite map_app, IH.
Qed.

(** The tables are realigned while one has a label twice only when a table
    after the first has a label twice. *)
Lemma repeated_labels_In (first : pd.DataFrame) (later : list pd.DataFrame) :
  NoDup (pd.columns first) ->
  repeated_labels (first :: later) = true ->
  exists d, In d later /\ ~ NoDup (pd.columns d).
Proof.
  intros Hfirst. unfold repeated_labels.
  rewrite andb_true_iff, existsb_exists. intros [_ [d [Hd Hdup]]].
  assert (Hnd : ~ NoDup (pd.columns d)).
  { intros Hnd. apply has_duplicates_NoDup in Hnd. congruence. }
  exists d. split; [|assumption].
  apply objs_In in Hd. destruct Hd as [<-|Hd]; [contradiction|assumption].
Qed.

Lemma flat_map_length_sum {A B : Type} (f : A -> list B) (l : list A) :
  length (flat_map f l) = list_sum (map (fun x => length (f x)) l).
Proof.
  induction l as [|x l IH]; simpl; [reflexivity|].
  now rewrite length_app, IH.
Qed.

(** *** The outcomes of the method *)

Lemma run_unfold (tables_json rest : list table) (first_table : table)
  (master_headers : list str) (records : list record) :
  unicode_corrected tables_json = Returned (first_table :: rest) ->
  find_master_headers first_table = Some master_headers ->
  data first_table = Some records ->
  process_tables_sequentially tables_json =
  (concatenated <- pd.concat (all_processed master_headers records rest) ;;
   Returned {| final_df := pd.fillna [] concatenated;
               table_info := table_info (result_of (all_processed master_headers records rest));
               individual_tables :=
                 individual_tables (result_of (all_processed master_headers records rest)) |}).
Proof.
  intros Hjson Hmaster Hdata. unfold process_tables_sequentially.
  rewrite Hjson. unfold bind at 1. rewrite Hmaster, Hdata.
  rewrite merge_groups_returns.
  destruct (pd.concat _); reflexivity.
Qed.

Lemma first_frame_NoDup (records : list record) :
  NoDup (pd.columns (pd.fillna [] (pd.from_records records))).
Proof. apply from_records_NoDup. Qed.

(** The run raises when the tables have to be realigned while one carries a
    label twice ... *)
Lemma run_raises (tables_json rest : list table) (first_table : table)
  (master_headers : list str) (records : list record) :
  unicode_corrected tables_json = Returned (first_table :: rest) ->
  find_master_headers first_table = Some master_headers ->
  data first_table = Some records ->
  repeated_labels (all_processed master_headers records rest) = true ->
  process_tables_sequentially tables_json = Raised InvalidIndexError.
Proof.
  intros Hjson Hmaster Hdata Hdup.
  rewrite (run_unfold _ _ _ _ _ Hjson Hmaster Hdata).
  rewrite concat_unfold by (unfold all_processed; discriminate).
  now rewrite Hdup.
Qed.

Lemma fillna_concat (dfs : list pd.DataFrame) :
  dfs <> [] ->
  repeated_labels dfs = false ->
  exists c, pd.concat dfs = Returned c /\ pd.fillna [] c = ledger dfs.
Proof.
  intros Hne Hdup. eexists. split.
  - rewrite concat_unfold by assumption. rewrite Hdup. reflexivity.
  - unfold ledger, pd.fillna. cbn [pd.columns pd.rows]. f_equal.
    rewrite map_flat_map. apply flat_map_ext. intros d.
    unfold ledger_row, pd.reindex.
    destruct (stacked dfs); [reflexivity|]. now rewrite map_map.
Qed.

(** ... and returns the ledger and the merged tables otherwise. *)
Lemma run_returns (tables_json rest : list table) (first_table : table)
  (master_headers : list str) (records : list record) :
  unicode_corrected tables_json = Returned (first_table :: rest) ->
  find_master_headers first_table = Some master_headers ->
  data first_table = Some records ->
  repeated_labels (all_processed master_headers records rest) = false ->
  process_tables_sequentially tables_json =
  Returned (result_of (all_processed master_headers records rest)).
Proof.
  intros Hjson Hmaster Hdata Hdup.
  rewrite (run_unfold _ _ _ _ _ Hjson Hmaster Hdata).
  destruct (fillna_concat (all_processed master_headers records rest)) as [c [Hc Hl]];
    [unfold all_processed; discriminate|assumption|].
  rewrite Hc. unfold bind. rewrite Hl. reflexivity.
Qed.

(** A run that returned had no repeated label, and returned just that. *)
Lemma run_returned (tables_json rest : list table) (first_table : table)
  (master_headers : list str) (records : list record) (r : result) :
  unicode_corrected tables_json = Returned (first_table :: rest) ->
  find_master_headers first_table = Some master_headers ->
  data first_table = Some records ->
  process_tables_sequentially tables_json = Returned r ->
  r = result_of (all_processed master_headers records rest).
Proof.
  intros Hjson Hmaster Hdata Hrun.
  destruct (repeated_labels (all_processed master_headers records rest)) eqn:Hdup.
  - rewrite (run_raises _ _ _ _ _ Hjson Hmaster Hdata Hdup) in Hrun. discriminate.
  - rewrite (run_returns _ _ _ _ _ Hjson Hmaster Hdata Hdup) in Hrun. congruence.
Qed.

(** *** Cells under their labels *)

Lemma dict_get_combine_map (f : cell -> cell) (cols : list str) (row : list cell) (k : str) :
  dict_get (combine cols (map f row)) k = option_map f (dict_get (combine cols row) k).
Proof.
  revert row. induction cols as [|c cols IH]; intros [|v row]; simpl; auto.
  destruct (str_eqb k c); [reflexivity|apply IH].
Qed.

Lemma dict_get_combine_In (cols : list str) (row : list cell) (k : str) (v : cell) :
  dict_get (combine cols row) k = Some v -> In k cols.
Proof.
  revert row. induction cols as [|c cols IH]; intros [|x row]; simpl; try discriminate.
  destruct (str_eqb k c) eqn:He.
  - apply str_eqb_eq in He. auto.
  - intros H. right. now apply (IH row).
Qed.

Lemma dict_get_combine_not_In (cols : list str) (row : list cell) (k : str) :
  ~ In k cols -> dict_get (combine cols row) k = None.
Proof.
  intros H. destruct (dict_get (combine cols row) k) eqn:He; [|reflexivity].
  apply dict_get_combine_In in He. contradiction.
Qed.

Lemma dict_get_combine_self (g : str -> cell) (cols : list str) (k : str) :
  In k cols -> dict_get (combine cols (map g cols)) k = Some (g k).
Proof.
  induction cols as [|c cols IH]; simpl; [intros []|].
  intros H. destruct (str_eqb k c) eqn:He.
  - apply str_eqb_eq in He. now subst.
  - apply IH. destruct H as [->|H]; [|assumption].
    now rewrite str_eqb_refl in He.
Qed.

(** Realigning a row to its own labels, when none repeats, gives the row. *)
Lemma reindex_row_own (own : list str) (row : list cell) :
  NoDup own -> length row = length own -> pd.reindex_row own own row = row.
Proof.
  unfold pd.reindex_row. revert row.
  induction own as [|c own IH]; intros [|v row] Hnd Hlen; simpl in *;
    try discriminate; [reflexivity|].
  rewrite str_eqb_refl. f_equal. inversion Hnd; subst.
  transitivity (map (fun k => match dict_get (combine own row) k with
                              | Some v => v
                              | None => NaN
                              end) own).
  - apply map_ext_in. intros k Hk.
    replace (str_eqb k c) with false; [reflexivity|].
    symmetry. apply str_eqb_neq. intros ->. contradiction.
  - apply IH; [assumption|congruence].
Qed.

Lemma reindex_row_app (own cols1 cols2 : list str) (row : list cell) :
  pd.reindex_row own (cols1 ++ cols2) row =
  pd.reindex_row own cols1 row ++ pd.reindex_row own cols2 row.
Proof. unfold pd.reindex_row. apply map_app. Qed.

Lemma reindex_row_absent (own extra : list str) (row : list cell) :
  (forall k, In k extra -> ~ In k own) ->
  pd.reindex_row own extra row = repeat NaN (length extra).
Proof.
  unfold pd.reindex_row. induction extra as [|k extra IH]; intros H; simpl.
  - reflexivity.
  - rewrite dict_get_combine_not_In by (apply H; now left).
    f_equal. apply IH. intros k' Hk'. apply H. now right.
Qed.

(** *** Processed tables have no missing cell *)

Lemma fill_text (value : str) (v : cell) : pd.isna (pd.fill value v) = false.
Proof. unfold pd.fill. destruct v; reflexivity. Qed.

Lemma fill_id (value : str) (v : cell) : pd.isna v = false -> pd.fill value v = v.
Proof. unfold pd.fill. now intros ->. Qed.

Lemma map_fill_id (value : str) (row : list cell) :
  Forall (fun v => pd.isna v = false) row -> map (pd.fill value) row = row.
Proof.
  induction 1 as [|v row Hv _ IH]; simpl; [reflexivity|].
  now rewrite fill_id, IH.
Qed.

Lemma fillna_all_text (value : str) (df : pd.DataFrame) : all_text (pd.fillna value df).
Proof.
  unfold all_text, pd.fillna. simpl.
  apply Forall_forall. intros row Hrow. apply in_map_iff in Hrow.
  destruct Hrow as [r [<- _]]. apply Forall_forall. intros v Hv.
  apply in_map_iff in Hv. destruct Hv as [x [<- _]]. apply fill_text.
Qed.

Lemma set_nth_In {A : Type} (i : nat) (x a : A) (l : list A) :
  In a (pd.set_nth i x l) -> a = x \/ In a l.
Proof.
  revert i. induction l as [|b l IH]; intros [|i]; simpl; auto.
  - intros [<-|H]; auto.
  - intros [<-|H]; auto. destruct (IH i H); auto.
Qed.

Lemma merge_split_column_try_all_text (df merged : pd.DataFrame) :
  all_text df -> merge_split_column_try df = Returned merged -> all_text merged.
Proof.
  unfold merge_split_column_try. intros Hdf.
  destruct (0 <? pd.index [] (pd.columns df))%nat;
    [|intros H; inversion H; subst; assumption].
  destruct (pd.getitem_filled_stripped df (nth _ _ _)) as [left|e]; simpl; [|discriminate].
  destruct (pd.getitem_filled_stripped df []) as [right|e]; simpl; [|discriminate].
  intros H. inversion H. subst merged. clear H.
  unfold all_text, pd.drop, pd.setitem in *. simpl.
  apply Forall_forall. intros row Hrow.
  apply in_map_iff in Hrow. destruct Hrow as [r [<- Hr]].
  apply in_map_iff in Hr. destruct Hr as [[r0 x] [<- Hr0]]. simpl.
  apply in_combine_l in Hr0.
  rewrite Forall_forall in Hdf. specialize (Hdf r0 Hr0).
  rewrite Forall_forall in Hdf.
  apply Forall_forall. intros v Hv.
  apply in_map_iff in Hv. destruct Hv as [[k v'] [<- Hv]]. simpl.
  apply filter_In in Hv. destruct Hv as [Hv _].
  apply in_combine_r in Hv. apply set_nth_In in Hv.
  destruct Hv as [->|Hv]; [reflexivity|now apply Hdf].
Qed.

Lemma merge_split_column_all_text (df : pd.DataFrame) :
  all_text df -> all_text (merge_split_column df).
Proof.
  intros H. unfold merge_split_column.
  destruct (mem [] (pd.columns df)); [|assumption].
  destruct (merge_split_column_try df) eqn:Ht; [|assumption].
  now apply (merge_split_column_try_all_text df).
Qed.

Lemma resolve_headers_all_text (master_headers : list str) (df : pd.DataFrame) :
  all_text df -> all_text (resolve_headers master_headers df).
Proof.
  intros H. unfold resolve_headers.
  destruct (all_isdigit _); [|assumption].
  destruct (first_row_looks_like_headers df).
  - unfold all_text in *. simpl. destruct (pd.rows df); [constructor|].
    now inversion H.
  - destruct (_ =? _)%nat; exact H.
Qed.

Lemma process_subsequent_all_text (master_headers : list str) (rest : list table) :
  Forall all_text (process_subsequent master_headers rest).
Proof.
  unfold process_subsequent. apply Forall_forall. intros d Hd.
  apply in_flat_map in Hd. destruct Hd as [t [_ Hd]].
  unfold process_table in Hd.
  destruct (data t) as [[|r records]|]; try contradiction.
  destruct (pd.empty _); [contradiction|].
  destruct Hd as [<-|[]].
  apply merge_split_column_all_text, resolve_headers_all_text, fillna_all_text.
Qed.

Lemma all_processed_all_text (master_headers : list str) (records : list record)
  (rest : list table) :
  Forall all_text (all_processed master_headers records rest).
Proof.
  unfold all_processed. constructor.
  - apply fillna_all_text.
  - apply process_subsequent_all_text.
Qed.

(** *** The ledger *)

Lemma ledger_len (dfs : list pd.DataFrame) :
  pd.len (ledger dfs) = list_sum (map pd.len dfs).
Proof.
  unfold pd.len, ledger. simpl. rewrite flat_map_length_sum.
  f_equal. apply map_ext. intros d. apply length_map.
Qed.

Lemma ledger_labels_same (first : pd.DataFrame) (later : list pd.DataFrame) :
  NoDup (pd.columns first) ->
  same_labels (first :: later) = true ->
  all_labels [] (first :: later) = pd.columns first.
Proof.
  intros Hnd Hsame. apply same_labels_Forall in Hsame. inversion Hsame; subst.
  unfold all_labels. simpl fold_left.
  rewrite union_labels_fresh by assumption. now apply all_labels_same.
Qed.

(** The labels of the ledger are the labels of the tables. *)
Lemma ledger_labels_In (dfs : list pd.DataFrame) (k : str) :
  In k (ledger_labels dfs) <-> exists d, In d dfs /\ In k (pd.columns d).
Proof.
  destruct (stacked dfs) eqn:Hs.
  - split.
    + intros Hk. unfold ledger_labels in Hk. rewrite Hs in Hk.
      destruct (pd.objs dfs) as [|o os] eqn:E; [contradiction|].
      exists o. split; [|exact Hk]. apply objs_In. rewrite E. now left.
    + intros [d [Hd Hk]]. rewrite <- (stacked_labels dfs d Hs); [assumption|].
      apply objs_kept; [assumption|]. right. intros Hc. rewrite Hc in Hk. contradiction.
  - unfold ledger_labels. rewrite Hs, all_labels_In.
    split; [intros [[]|H]; assumption|auto].
Qed.

(** When they do not repeat, they are in order of first appearance. *)
Lemma ledger_labels_NoDup (dfs : list pd.DataFrame) :
  NoDup (ledger_labels dfs) -> ledger_labels dfs = all_labels [] dfs.
Proof.
  unfold ledger_labels, stacked. intros Hnd.
  destruct (same_labels (pd.objs dfs)) eqn:Hs; [|reflexivity].
  rewrite <- (objs_all_labels dfs []).
  destruct (pd.objs dfs) as [|o os]; [reflexivity|].
  symmetry. now apply ledger_labels_same.
Qed.

(** The labels of the ledger begin with those of the first table. *)
Lemma ledger_labels_first (first : pd.DataFrame) (later : list pd.DataFrame) :
  NoDup (pd.columns first) ->
  exists extra,
    pd.columns (ledger (first :: later)) = pd.columns first ++ extra
    /\ (forall k, In k extra -> ~ In k (pd.columns first)).
Proof.
  intros Hnd. unfold ledger. cbn [pd.columns].
  destruct (stacked (first :: later)) eqn:Hs.
  - destruct (pd.columns first) as [|c cs] eqn:Hc.
    + exists (ledger_labels (first :: later)). split; [reflexivity|intros k _ []].
    + exists []. split; [|intros k []]. rewrite app_nil_r, <- Hc.
      symmetry. apply stacked_labels; [assumption|].
      apply objs_kept; [now left|]. right. rewrite Hc. discriminate.
  - unfold ledger_labels. rewrite Hs. unfold all_labels. simpl fold_left.
    rewrite union_labels_fresh by assumption.
    apply all_labels_extra.
Qed.

Lemma has_row_kept (dfs : list pd.DataFrame) (d : pd.DataFrame) (row : list cell) :
  In d dfs -> In row (pd.rows d) -> In d (pd.objs dfs).
Proof.
  intros Hd Hrow. apply objs_kept; [assumption|].
  left. intros Hr. rewrite Hr in Hrow. contradiction.
Qed.

(** A cell of a table is found in the ledger under its label. *)
Lemma ledger_cell_kept (dfs : list pd.DataFrame) (d : pd.DataFrame)
  (row : list cell) (k : str) (v : cell) :
  In d dfs -> In row (pd.rows d) ->
  dict_get (combine (pd.columns d) row) k = Some v ->
  dict_get (combine (pd.columns (ledger dfs))
                    (ledger_row (stacked dfs) (pd.columns d)
                                (pd.columns (ledger dfs)) row)) k
  = Some (pd.fill [] v).
Proof.
  intros Hd Hrow Hget. unfold ledger. cbn [pd.columns]. unfold ledger_row.
  destruct (stacked dfs) eqn:Hs.
  - rewrite <- (stacked_labels dfs d Hs) by now apply (has_row_kept dfs d row).
    now rewrite dict_get_combine_map, Hget.
  - unfold pd.reindex_row. rewrite map_map.
    rewrite (dict_get_combine_self
               (fun k => pd.fill [] match dict_get (combine (pd.columns d) row) k with
                                    | Some v => v
                                    | None => NaN
                                    end)).
    + now rewrite Hget.
    + apply ledger_labels_In. exists d. split; [assumption|].
      now apply dict_get_combine_In in Hget.
Qed.

(** Under a label its table does not have, a row of the ledger has [""]. *)
Lemma ledger_cell_absent (dfs : list pd.DataFrame) (d : pd.DataFrame)
  (row : list cell) (k : str) :
  In d dfs -> In row (pd.rows d) ->
  In k (pd.columns (ledger dfs)) ->
  ~ In k (pd.columns d) ->
  dict_get (combine (pd.columns (ledger dfs))
                    (ledger_row (stacked dfs) (pd.columns d)
                                (pd.columns (ledger dfs)) row)) k
  = Some (Text []).
Proof.
  intros Hd Hrow Hk Hnot. unfold ledger in *. cbn [pd.columns] in *.
  unfold ledger_row.
  destruct (stacked dfs) eqn:Hs.
  - exfalso.
    rewrite <- (stacked_labels dfs d Hs) in Hk by now apply (has_row_kept dfs d row).
    contradiction.
  - unfold pd.reindex_row. rewrite map_map.
    rewrite (dict_get_combine_self
               (fun k => pd.fill [] match dict_get (combine (pd.columns d) row) k with
                                    | Some v => v
                                    | None => NaN
                                    end)) by assumption.
    now rewrite dict_get_combine_not_In.
Qed.

Lemma flat_map_head {A B : Type} (f : A -> list B) (x : A) (l : list A) :
  flat_map f (x :: l) = f x ++ flat_map f l.
Proof. reflexivity. Qed.

(** The rows of the first table open the ledger, each followed by one [""]
    for every label the later tables add. *)
Lemma ledger_first_rows (first : pd.DataFrame) (later : list pd.DataFrame) :
  NoDup (pd.columns first) ->
  all_text first ->
  Forall (fun row => length row = length (pd.columns first)) (pd.rows first) ->
  exists extra later_rows,
    pd.columns (ledger (first :: later)) = pd.columns first ++ extra
    /\ pd.rows (ledger (first :: later)) =
       map (fun row => row ++ repeat (Text []) (length extra)) (pd.rows first)
       ++ later_rows.
Proof.
  intros Hnd Htext Hrect.
  destruct (ledger_labels_first first later Hnd) as [extra [Hcols Hextra]].
  exists extra. eexists. split; [exact Hcols|].
  unfold ledger at 1. cbn [pd.rows]. rewrite flat_map_head. f_equal.
  apply map_ext_in. intros row Hrow.
  unfold all_text in Htext. rewrite Forall_forall in Htext, Hrect.
  specialize (Htext row Hrow). specialize (Hrect row Hrow).
  change (ledger_labels (first :: later)) with (pd.columns (ledger (first :: later))).
  unfold ledger_row.
  destruct (stacked (first :: later)) eqn:Hs.
  - assert (He : extra = []).
    { unfold ledger in Hcols. cbn [pd.columns] in Hcols.
      rewrite <- (stacked_labels _ first Hs) in Hcols
        by (apply (has_row_kept _ first row); [now left|assumption]).
      rewrite <- (app_nil_r (pd.columns first)) in Hcols at 1.
      now apply app_inv_head in Hcols. }
    subst extra. simpl. now rewrite app_nil_r, map_fill_id.
  - rewrite Hcols, reindex_row_app.
    rewrite (reindex_row_own _ _ Hnd Hrect).
    rewrite (reindex_row_absent _ _ _ Hextra).
    rewrite map_app, map_fill_id by assumption. f_equal.
    clear. induction (length extra) as [|n IH]; [reflexivity|].
    simpl. now rewrite IH.
Qed.

Lemma dict_get_combine_value (cols : list str) (row : list cell) (k : str) (v : cell) :
  dict_get (combine cols row) k = Some v -> In v row.
Proof.
  revert row. induction cols as [|c cols IH]; intros [|x row]; simpl; try discriminate.
  destruct (str_eqb k c).
  - intros H. inversion H. now left.
  - intros H. right. now apply IH.
Qed.

Lemma find_master_headers_none (first_table : table) :
  (forall cols, columns first_table = Some cols -> all_isdigit cols = true) ->
  find_master_headers first_table = None.
Proof.
  intros H. unfold find_master_headers.
  destruct (columns first_table) as [[|c cs]|]; try reflexivity.
  now rewrite (H (c :: cs) eq_refl).
Qed.

Lemma find_master_headers_some (first_table : table) (master_headers : list str) :
  find_master_headers first_table = Some master_headers ->
  columns first_table = Some master_headers
  /\ master_headers <> [] /\ all_isdigit master_headers = false.
Proof.
  unfold find_master_headers.
  destruct (columns first_table) as [[|c cs]|]; try discriminate.
  destruct (all_isdigit (c :: cs)) eqn:Hd; simpl; [discriminate|].
  intros H. inversion H. subst. repeat split; [discriminate|assumption].
Qed.

(** The labels of a frame built from records are the keys of the records. *)
Lemma from_records_columns_In (records : list record) (k : str) :
  In k (pd.columns (pd.from_records records)) <->
  exists r, In r records /\ In k (map fst r).
Proof.
  unfold pd.from_records. simpl.
  assert (G : forall acc,
             In k (fold_left (fun acc r => pd.union_labels acc (map fst r)) records acc) <->
             In k acc \/ exists r, In r records /\ In k (map fst r)).
  { induction records as [|r records IH]; intros acc; simpl.
    - split; [auto|]. intros [H|[r [[] _]]]. assumption.
    - rewrite IH, union_labels_In. split.
      + intros [[H|H]|[r' [H1 H2]]]; eauto.
      + intros [H|[r' [[<-|H1] H2]]]; eauto. }
  rewrite G. split; [intros [[]|H]; assumption|auto].
Qed.

(** *** C5: the rows of the ledger *)

Lemma flat_map_ext_In {A B : Type} (f g : A -> list B) (l : list A) :
  (forall x, In x l -> f x = g x) -> flat_map f l = flat_map g l.
Proof.
  induction l as [|x l IH]; intros H; simpl; [reflexivity|].
  rewrite (H x) by now left. f_equal. apply IH. intros y Hy. apply H. now right.
Qed.

Lemma ledger_rows_same (dfs : list pd.DataFrame) (cols : list str) :
  (forall d, In d dfs -> all_text d) ->
  flat_map (fun d => map (ledger_row true (pd.columns d) cols) (pd.rows d)) dfs
  = flat_map pd.rows dfs.
Proof.
  intros Htext. apply flat_map_ext_In. intros d Hd.
  specialize (Htext d Hd). unfold all_text in Htext. rewrite Forall_forall in Htext.
  rewrite <- (map_id (pd.rows d)) at 2. apply map_ext_in. intros row Hrow.
  unfold ledger_row. apply map_fill_id. now apply Htext.
Qed.

(** C5 (amended).  In a run that returns, the rows of the ledger are, table
    after table in the order of the tables and row after row in the order of
    each table, without any row dropped or merged, the rows of the processed
    tables, each realigned to the labels of the ledger: a cell stays under
    its label, and under a label its table lacks the row has [""].  When the
    tables, one without any row or column apart, all have the same labels,
    the rows of the ledger are exactly the concatenation of their rows. *)
Theorem C5_ledger_rows_in_table_order
  (tables_json rest : list table) (first_table : table)
  (master_headers : list str) (records : list record) (r : result) :
  unicode_corrected tables_json = Returned (first_table :: rest) ->
  find_master_headers first_table = Some master_headers ->
  data first_table = Some records ->
  process_tables_sequentially tables_json = Returned r ->
  let dfs := all_processed master_headers records rest in
  let cols := pd.columns (final_df r) in
  let realigned d := ledger_row (stacked dfs) (pd.columns d) cols in
  pd.rows (final_df r) = flat_map (fun d => map (realigned d) (pd.rows d)) dfs
  /\ pd.len (final_df r) = list_sum (map pd.len dfs)
  /\ (forall d row k v,
        In d dfs -> In row (pd.rows d) ->
        dict_get (combine (pd.columns d) row) k = Some v ->
        dict_get (combine cols (realigned d row)) k = Some v)
  /\ (forall d row k,
        In d dfs -> In row (pd.rows d) -> In k cols -> ~ In k (pd.columns d) ->
        dict_get (combine cols (realigned d row)) k = Some (Text []))
  /\ (stacked dfs = true -> pd.rows (final_df r) = flat_map pd.rows dfs).
Proof.
  intros Hjson Hmaster Hdata Hrun dfs cols realigned.
  subst cols realigned.
  rewrite (run_returned _ _ _ _ _ _ Hjson Hmaster Hdata Hrun).
  unfold result_of. cbn [final_df]. fold dfs.
  pose proof (all_processed_all_text master_headers records rest) as Htext.
  fold dfs in Htext. rewrite Forall_forall in Htext.
  split; [reflexivity|]. split; [apply ledger_len|].
  split; [|split].
  - intros d row k v Hd Hrow Hget.
    rewrite (ledger_cell_kept _ _ _ _ _ Hd Hrow Hget).
    f_equal. apply fill_id.
    specialize (Htext d Hd). unfold all_text in Htext.
    rewrite Forall_forall in Htext. specialize (Htext row Hrow).
    rewrite Forall_forall in Htext. apply Htext.
    now apply dict_get_combine_value in Hget.
  - intros d row k Hd Hrow Hk Hnot. now apply ledger_cell_absent.
  - intros Hs. unfold ledger. cbn [pd.rows]. rewrite Hs.
    now apply ledger_rows_same.
Qed.

(** *** Generic names do not repeat *)

Lemma txt_inj (a b : string) : txt a = txt b -> a = b.
Proof.
  unfold txt. intros H.
  assert (Hl : list_ascii_of_string a = list_ascii_of_string b).
  { revert H. generalize (list_ascii_of_string a) (list_ascii_of_string b).
    induction l as [|x l IH]; intros [|y l'] H; simpl in *; try discriminate; auto.
    inversion H as [[Hxy Hl]]. f_equal; [|now apply IH].
    rewrite <- (ascii_N_embedding x), <- (ascii_N_embedding y). now rewrite Hxy. }
  rewrite <- (string_of_list_ascii_of_string a), <- (string_of_list_ascii_of_string b).
  now rewrite Hl.
Qed.

Lemma str_of_nat_inj (a b : nat) : str_of_nat a = str_of_nat b -> a = b.
Proof.
  unfold str_of_nat. intros H. apply txt_inj in H.
  apply (f_equal NilEmpty.uint_of_string) in H. rewrite !NilEmpty.usu in H.
  inversion H as [Hu]. apply (f_equal Nat.of_uint) in Hu.
  now rewrite !DecimalNat.Unsigned.of_to in Hu.
Qed.

Lemma NoDup_map_inj {A B : Type} (f : A -> B) (l : list A) :
  (forall x y, f x = f y -> x = y) -> NoDup l -> NoDup (map f l).
Proof.
  intros Hinj. induction 1 as [|x l Hx _ IH]; simpl; constructor; auto.
  intros Hin. apply in_map_iff in Hin. destruct Hin as [y [Hy Hin]].
  apply Hinj in Hy. now subst.
Qed.

Lemma generic_headers_NoDup (n : nat) : NoDup (generic_headers n).
Proof.
  unfold generic_headers. apply NoDup_map_inj; [|apply seq_NoDup].
  intros i j H. apply app_inv_head in H. apply str_of_nat_inj in H. lia.
Qed.

(** *** The exceptions of a run *)

(** Once the input is read and the first table has headers and rows, the
    method raises only for a later table whose labels repeat. *)
Lemma run_raised (tables_json rest : list table) (first_table : table)
  (master_headers : list str) (records : list record) (e : exn) :
  unicode_corrected tables_json = Returned (first_table :: rest) ->
  find_master_headers first_table = Some master_headers ->
  data first_table = Some records ->
  process_tables_sequentially tables_json = Raised e ->
  e = InvalidIndexError
  /\ exists d, In d (process_subsequent master_headers rest)
               /\ ~ NoDup (pd.columns d).
Proof.
  intros Hjson Hmaster Hdata Hrun.
  destruct (repeated_labels (all_processed master_headers records rest)) eqn:Hdup.
  - rewrite (run_raises _ _ _ _ _ Hjson Hmaster Hdata Hdup) in Hrun.
    split; [congruence|].
    apply (repeated_labels_In _ _ (first_frame_NoDup records) Hdup).
  - rewrite (run_returns _ _ _ _ _ Hjson Hmaster Hdata Hdup) in Hrun. discriminate.
Qed.

Lemma process_subsequent_In (master_headers : list str) (rest : list table)
  (t : table) (df : pd.DataFrame) :
  In t rest -> process_table master_headers t = Some df ->
  In df (process_subsequent master_headers rest).
Proof.
  intros Ht Hdf. unfold process_subsequent. apply in_flat_map.
  exists t. split; [assumption|]. rewrite Hdf. now left.
Qed.

(** The rows of a processed table are in the ledger, together and in order. *)
Lemma ledger_rows_of_table (dfs : list pd.DataFrame) (d : pd.DataFrame) :
  In d dfs ->
  exists before after,
    pd.rows (ledger dfs) =
    before ++ map (ledger_row (stacked dfs) (pd.columns d) (pd.columns (ledger dfs)))
                  (pd.rows d) ++ after.
Proof.
  intros Hd. apply in_split in Hd. destruct Hd as [l1 [l2 Hd]].
  unfold ledger at 1. cbn [pd.rows].
  change (ledger_labels dfs) with (pd.columns (ledger dfs)).
  generalize (ledger_row (stacked dfs)) (pd.columns (ledger dfs)).
  intros f cols. rewrite Hd, flat_map_app, flat_map_head. eauto.
Qed.

(** *** C6: the detected headers *)

Lemma convert_detected_headers (df : pd.DataFrame) (infos : option (list info))
  (document : document) :
  convert_to_structured_format df infos = Returned document ->
  detected_headers (doc_metadata document) =
  if pd.empty df then None else Some (pd.columns df).
Proof.
  unfold convert_to_structured_format.
  destruct (pd.empty df).
  - intros H. inversion H. reflexivity.
  - destruct (pd.has_duplicates (pd.columns df)); [discriminate|].
    intros H. inversion H. reflexivity.
Qed.

(** The emitter refuses a frame with rows whose labels repeat. *)
Lemma convert_returned_NoDup (df : pd.DataFrame) (infos : option (list info))
  (document : document) :
  convert_to_structured_format df infos = Returned document ->
  pd.empty df = false -> NoDup (pd.columns df).
Proof.
  unfold convert_to_structured_format. intros H He. rewrite He in H.
  apply has_duplicates_NoDup.
  destruct (pd.has_duplicates (pd.columns df)); [discriminate|reflexivity].
Qed.

(** C6 (amended).  The detected headers the emitter reports are the labels
    of the frame it is given (the key is absent for an empty frame).  For
    the ledger of a run these are the labels of all the processed tables in
    order of first appearance: the labels of the first table, followed by
    every label that only later tables have. *)
Theorem C6_detected_headers_are_all_labels
  (tables_json rest : list table) (first_table : table)
  (master_headers : list str) (records : list record) (r : result)
  (document : document) :
  unicode_corrected tables_json = Returned (first_table :: rest) ->
  find_master_headers first_table = Some master_headers ->
  data first_table = Some records ->
  process_tables_sequentially tables_json = Returned r ->
  convert_to_structured_format (final_df r) (Some (table_info r)) = Returned document ->
  let dfs := all_processed master_headers records rest in
  let first_df := pd.fillna [] (pd.from_records records) in
  detected_headers (doc_metadata document) =
    (if pd.empty (final_df r) then None else Some (pd.columns (final_df r)))
  /\ (pd.empty (final_df r) = false -> pd.columns (final_df r) = all_labels [] dfs)
  /\ (forall k, In k (pd.columns (final_df r)) <->
                exists d, In d dfs /\ In k (pd.columns d))
  /\ exists extra,
       pd.columns (final_df r) = pd.columns first_df ++ extra
       /\ forall k, In k extra ->
            ~ In k (pd.columns first_df)
            /\ exists d, In d (process_subsequent master_headers rest)
                         /\ In k (pd.columns d).
Proof.
  intros Hjson Hmaster Hdata Hrun Hdoc dfs first_df.
  split; [now apply (convert_detected_headers _ _ _ Hdoc)|].
  split.
  { intros Hrows. apply (convert_returned_NoDup _ _ _ Hdoc) in Hrows.
    rewrite (run_returned _ _ _ _ _ _ Hjson Hmaster Hdata Hrun) in *.
    now apply ledger_labels_NoDup. }
  rewrite (run_returned _ _ _ _ _ _ Hjson Hmaster Hdata Hrun).
  unfold result_of. cbn [final_df].
  split; [intros k; apply ledger_labels_In|].
  destruct (ledger_labels_first first_df (process_subsequent master_headers rest)
              (first_frame_NoDup records)) as [extra [Hcols Hextra]].
  exists extra. split; [exact Hcols|].
  intros k Hk. split; [now apply Hextra|].
  assert (Hin : In k (pd.columns (ledger (first_df :: process_subsequent master_headers rest)))).
  { rewrite Hcols. apply in_or_app. now right. }
  apply ledger_labels_In in Hin. destruct Hin as [d [[<-|Hd] Hkd]].
  - exfalso. now apply (Hextra k Hk).
  - now exists d.
Qed.

(** *** C1: a header in the first row *)

(** C1 (amended).  For a table after the first, once a first table has given
    the master headers: when its row keys are all numeric and the texts of
    its first row, lower-cased and joined by single spaces, contain one of
    the keywords, header resolution takes the stripped cells of that row as
    the labels and drops the row, so the processed table has one row fewer
    than the table read.  The table of the scenario, coming after a first
    table, resolves to the labels Date and Amount and one row. *)
Theorem C1_header_row_adopted
  (master_headers : list str) (t : table) (records : list record) :
  data t = Some records ->
  all_isdigit (pd.columns (pd.from_records records)) = true ->
  first_row_looks_like_headers (pd.fillna [] (pd.from_records records)) = true ->
  let df := pd.fillna [] (pd.from_records records) in
  let resolved := resolve_headers master_headers df in
  (exists first_row rest_rows,
     pd.rows df = first_row :: rest_rows
     /\ resolved = {| pd.columns := map (fun v => strip (pd.str_of_cell v)) first_row;
                      pd.rows := rest_rows |})
  /\ pd.len resolved + 1 = length records
  /\ process_table master_headers t = Some (merge_split_column resolved)
  /\ pd.len (merge_split_column resolved) + 1 = length records
  /\ process_table master_headers Scenario.headerless_page
     = Some (Scenario.frame_of ["Date"; "Amount"] [["2024-01-01"; "100"]])
  /\ pd.to_dict_records (Scenario.frame_of ["Date"; "Amount"] [["2024-01-01"; "100"]])
     = [Scenario.record_of [("Date", "2024-01-01"); ("Amount", "100")]].
Proof.
  intros Hdata Hdigit Hrow df resolved.
  destruct (first_row_looks_like_headers_row _ Hrow) as [c [first_row [rest_rows Hrows]]].
  assert (Hres : resolved = {| pd.columns := map (fun v => strip (pd.str_of_cell v))
                                                 (c :: first_row);
                               pd.rows := rest_rows |}).
  { unfold resolved, resolve_headers, df.
    change (pd.columns (pd.fillna [] (pd.from_records records)))
      with (pd.columns (pd.from_records records)).
    rewrite Hdigit, Hrow.
    unfold pd.set_columns, pd.iloc_from_1. cbn [pd.rows pd.columns].
    now rewrite Hrows. }
  assert (Hlen : pd.len resolved + 1 = length records).
  { rewrite Hres. unfold pd.len. cbn [pd.rows].
    rewrite <- (from_records_len records), <- (fillna_len []).
    unfold pd.len. rewrite Hrows. simpl. lia. }
  split; [exists (c :: first_row), rest_rows; now split|].
  split; [exact Hlen|]. split.
  - apply process_table_unfold; [assumption|].
    now apply looks_like_headers_not_empty.
  - split; [now rewrite merge_split_column_len|].
    split; vm_compute; reflexivity.
Qed.

(** *** C4: split-column merging *)

Lemma index_app_absent (k : str) (pre l : list str) :
  ~ In k pre -> pd.index k (pre ++ l) = length pre + pd.index k l.
Proof.
  induction pre as [|c pre IH]; intros H; simpl; [reflexivity|].
  replace (str_eqb c k) with false.
  - rewrite IH; [reflexivity|]. intros Hin. apply H. now right.
  - symmetry. apply str_eqb_neq. intros ->. apply H. now left.
Qed.

Lemma count_once (k : str) (pre post : list str) :
  ~ In k pre -> ~ In k post -> pd.count (pre ++ k :: post) k = 1.
Proof.
  intros Hpre Hpost. unfold pd.count.
  apply (count_occ_not_In (list_eq_dec N.eq_dec)) in Hpre, Hpost.
  rewrite count_occ_app, (count_occ_cons_eq _ post eq_refl), Hpre, Hpost.
  reflexivity.
Qed.

Lemma getitem_once (df : pd.DataFrame) (k : str) :
  pd.count (pd.columns df) k = 1 ->
  pd.getitem_filled_stripped df k =
  Returned (map (fun row => strip (pd.str_of_cell
                                     (pd.fill [] (nth (pd.index k (pd.columns df)) row NaN))))
                (pd.rows df)).
Proof. unfold pd.getitem_filled_stripped. now intros ->. Qed.

Lemma getitem_repeated (df : pd.DataFrame) (k : str) :
  1 < pd.count (pd.columns df) k ->
  pd.getitem_filled_stripped df k = Raised AttributeError.
Proof.
  unfold pd.getitem_filled_stripped.
  destruct (pd.count _ _) as [|[|n]]; [lia|lia|reflexivity].
Qed.

Lemma combine_map_same {A B C : Type} (f : A -> B) (g : A -> C) (l : list A) :
  combine (map f l) (map g l) = map (fun x => (f x, g x)) l.
Proof. induction l as [|x l IH]; simpl; [reflexivity|now rewrite IH]. Qed.

Lemma set_nth_middle {A : Type} (pre : list A) (a x : A) (post : list A) :
  pd.set_nth (length pre) x (pre ++ a :: post) = pre ++ x :: post.
Proof. induction pre as [|b pre IH]; simpl; [reflexivity|now rewrite IH]. Qed.

Lemma combine_app_same {A B : Type} (l1 l2 : list A) (r1 r2 : list B) :
  length l1 = length r1 ->
  combine (l1 ++ l2) (r1 ++ r2) = combine l1 r1 ++ combine l2 r2.
Proof.
  revert r1. induction l1 as [|a l1 IH]; intros [|b r1] H; simpl in *;
    try discriminate; [reflexivity|].
  f_equal. apply IH. congruence.
Qed.

Lemma drop_kept (k : str) (cols : list str) (row : list cell) :
  ~ In k cols -> length row = length cols ->
  map snd (filter (fun p : str * cell => negb (str_eqb (fst p) k)) (combine cols row)) = row
  /\ filter (fun c => negb (str_eqb c k)) cols = cols.
Proof.
  revert row. induction cols as [|c cols IH]; intros [|v row] Hk Hlen; simpl in *;
    try discriminate; [split; reflexivity|].
  replace (str_eqb c k) with false.
  - simpl. destruct (IH row) as [H1 H2]; [tauto|congruence|].
    now rewrite H1, H2.
  - symmetry. apply str_eqb_neq. intros ->. apply Hk. now left.
Qed.

Lemma row_read_left (pre : list str) (q : split_row) :
  length (cells_before q) = length pre ->
  nth (length pre) (row_read q) NaN = left_cell q.
Proof. intros <-. unfold row_read. apply nth_middle. Qed.

Lemma row_read_right (pre : list str) (q : split_row) :
  length (cells_before q) = length pre ->
  nth (length pre + 1) (row_read q) NaN = right_cell q.
Proof.
  intros <-. unfold row_read.
  change (cells_before q ++ left_cell q :: right_cell q :: cells_after q)
    with (cells_before q ++ [left_cell q] ++ right_cell q :: cells_after q).
  rewrite app_assoc.
  replace (length (cells_before q) + 1) with (length (cells_before q ++ [left_cell q]))
    by (rewrite length_app; reflexivity).
  apply nth_middle.
Qed.

Lemma drop_unnamed_row (pre post : list str) (target : str) (q : split_row) (x : cell) :
  ~ In [] pre -> target <> [] -> ~ In [] post ->
  length (cells_before q) = length pre -> length (cells_after q) = length post ->
  map snd (filter (fun p : str * cell => negb (str_eqb (fst p) []))
                  (combine (pre ++ target :: [] :: post)
                           (cells_before q ++ x :: right_cell q :: cells_after q)))
  = cells_before q ++ x :: cells_after q.
Proof.
  intros Hpre Ht Hpost Hb Ha.
  rewrite combine_app_same by congruence. simpl combine.
  rewrite filter_app, map_app.
  destruct (drop_kept [] pre (cells_before q) Hpre Hb) as [-> _].
  f_equal. simpl.
  replace (str_eqb target []) with false
    by (symmetry; now apply str_eqb_neq).
  simpl. f_equal.
  now destruct (drop_kept [] post (cells_after q) Hpost Ha) as [-> _].
Qed.

Lemma drop_unnamed_label (pre post : list str) (target : str) :
  ~ In [] pre -> target <> [] -> ~ In [] post ->
  filter (fun c => negb (str_eqb c [])) (pre ++ target :: [] :: post)
  = pre ++ target :: post.
Proof.
  intros Hpre Ht Hpost. rewrite filter_app.
  destruct (drop_kept [] pre (repeat NaN (length pre)) Hpre (repeat_length _ _)) as [_ ->].
  f_equal. simpl.
  replace (str_eqb target []) with false
    by (symmetry; now apply str_eqb_neq).
  simpl. f_equal.
  now destruct (drop_kept [] post (repeat NaN (length post)) Hpost (repeat_length _ _))
    as [_ ->].
Qed.

(** The merge, for a frame whose unnamed label occurs once, right after a
    label that occurs once. *)
Lemma merge_split_column_once (pre post : list str) (target : str) (qs : list split_row) :
  ~ In [] pre -> target <> [] -> ~ In [] post ->
  ~ In target pre -> ~ In target post ->
  Forall (fun q => length (cells_before q) = length pre
                   /\ length (cells_after q) = length post) qs ->
  merge_split_column {| pd.columns := pre ++ target :: [] :: post;
                        pd.rows := map row_read qs |}
  = {| pd.columns := pre ++ target :: post; pd.rows := map row_merged qs |}.
Proof.
  intros Hpre Ht Hpost Htpre Htpost Hqs.
  assert (Hidx : pd.index [] (pre ++ target :: [] :: post) = length pre + 1).
  { rewrite index_app_absent by assumption. simpl.
    replace (str_eqb target []) with false
      by (symmetry; now apply str_eqb_neq).
    reflexivity. }
  assert (Htidx : pd.index target (pre ++ target :: [] :: post) = length pre).
  { rewrite index_app_absent by assumption. simpl.
    rewrite str_eqb_refl. lia. }
  assert (Hct : pd.count (pre ++ target :: [] :: post) target = 1).
  { apply count_once; [assumption|]. intros [H|H]; auto. }
  assert (Hce : pd.count (pre ++ target :: [] :: post) [] = 1).
  { change (pre ++ target :: [] :: post) with (pre ++ [target] ++ [] :: post).
    rewrite app_assoc. apply count_once; [|assumption].
    intros H. apply in_app_or in H. destruct H as [H|[H|[]]]; auto. }
  unfold merge_split_column. cbn [pd.columns].
  replace (mem [] (pre ++ target :: [] :: post)) with true
    by (symmetry; apply mem_In, in_or_app; right; right; now left).
  unfold merge_split_column_try. cbn [pd.columns].
  rewrite Hidx. replace (0 <? length pre + 1)%nat with true
    by (symmetry; apply Nat.ltb_lt; lia).
  replace (length pre + 1 - 1) with (length pre) by lia.
  rewrite nth_middle.
  rewrite (getitem_once _ target) by exact Hct.
  rewrite (getitem_once _ []) by exact Hce.
  cbn [pd.columns pd.rows bind]. rewrite Hidx, Htidx.
  unfold pd.drop, pd.setitem. cbn [pd.columns pd.rows]. rewrite Htidx.
  f_equal; [now apply drop_unnamed_label|].
  rewrite !map_map, combine_map_same, map_map, combine_map_same, !map_map.
  apply map_ext_in. intros q Hq.
  rewrite Forall_forall in Hqs. destruct (Hqs q Hq) as [Hb Ha].
  cbn [fst snd].
  rewrite (row_read_left pre q Hb), (row_read_right pre q Hb).
  unfold row_read. rewrite <- Hb at 1. rewrite set_nth_middle.
  unfold row_merged, merged_text.
  now apply drop_unnamed_row.
Qed.

Lemma merge_split_column_stays (df : pd.DataFrame) :
  ~ In [] (pd.columns df) \/ pd.index [] (pd.columns df) = 0 ->
  merge_split_column df = df.
Proof.
  intros [H|H]; [now apply merge_split_column_no_empty_label|].
  unfold merge_split_column, merge_split_column_try. rewrite H. simpl.
  now destruct (mem [] (pd.columns df)).
Qed.

Lemma merge_split_column_raises (df : pd.DataFrame) :
  In [] (pd.columns df) ->
  0 < pd.index [] (pd.columns df) ->
  1 < pd.count (pd.columns df) []
  \/ 1 < pd.count (pd.columns df)
                   (nth (pd.index [] (pd.columns df) - 1) (pd.columns df) []) ->
  (exists e, merge_split_column_try df = Raised e)
  /\ merge_split_column df = df.
Proof.
  intros Hin Hidx Hrep.
  assert (Htry : exists e, merge_split_column_try df = Raised e).
  { unfold merge_split_column_try.
    apply Nat.ltb_lt in Hidx. rewrite Hidx.
    destruct (pd.getitem_filled_stripped df (nth _ _ _)) as [left|e] eqn:Hl;
      [|now exists e].
    cbn [bind]. destruct Hrep as [Hrep|Hrep].
    - rewrite (getitem_repeated _ _ Hrep). now exists AttributeError.
    - rewrite (getitem_repeated _ _ Hrep) in Hl. discriminate. }
  split; [exact Htry|]. destruct Htry as [e He].
  unfold merge_split_column. rewrite He. now destruct (mem [] (pd.columns df)).
Qed.

(** C4 (amended).  Split-column merging of a processed table never changes
    the number of rows and never raises.  When the unnamed label occurs
    once, after a label that occurs once, every row gets
    [strip(left) + " " + strip(right)] in the column before the unnamed one,
    a missing cell read as [""], and the unnamed column is dropped, so that
    no unnamed column is left.  When the unnamed label is absent or first,
    or when the merge raises, as it does when the unnamed label or the one
    before it occurs twice, the table is passed on as it is. *)
Theorem C4_split_column_merging (df : pd.DataFrame) :
  pd.len (merge_split_column df) = pd.len df
  /\ (~ In [] (pd.columns df) \/ pd.index [] (pd.columns df) = 0 ->
      merge_split_column df = df)
  /\ (forall e, merge_split_column_try df = Raised e -> merge_split_column df = df)
  /\ (In [] (pd.columns df) ->
      0 < pd.index [] (pd.columns df) ->
      1 < pd.count (pd.columns df) []
      \/ 1 < pd.count (pd.columns df)
                       (nth (pd.index [] (pd.columns df) - 1) (pd.columns df) []) ->
      (exists e, merge_split_column_try df = Raised e)
      /\ merge_split_column df = df)
  /\ (forall pre post target qs,
        ~ In [] pre -> target <> [] -> ~ In [] post ->
        ~ In target pre -> ~ In target post ->
        Forall (fun q => length (cells_before q) = length pre
                         /\ length (cells_after q) = length post) qs ->
        df = {| pd.columns := pre ++ target :: [] :: post;
                pd.rows := map row_read qs |} ->
        pd.index [] (pd.columns df) = length pre + 1
        /\ merge_split_column df
           = {| pd.columns := pre ++ target :: post; pd.rows := map row_merged qs |}
        /\ ~ In [] (pd.columns (merge_split_column df))).
Proof.
  split; [apply merge_split_column_len|].
  split; [apply merge_split_column_stays|].
  split.
  { intros e He. unfold merge_split_column. rewrite He.
    now destruct (mem [] (pd.columns df)). }
  split; [apply merge_split_column_raises|].
  intros pre post target qs Hpre Ht Hpost Htpre Htpost Hqs ->.
  rewrite merge_split_column_once by assumption. cbn [pd.columns].
  split; [|split; [reflexivity|]].
  - rewrite index_app_absent by assumption. simpl.
    replace (str_eqb target []) with false
      by (symmetry; now apply str_eqb_neq).
    reflexivity.
  - intros H. apply in_app_or in H. destruct H as [H|[H|H]]; auto.
Qed.

(** *** C3 and C8: the groups *)

Lemma merged_tables_numbers (dfs : list pd.DataFrame) :
  map table_number (merged_tables dfs) = seq 1 (length (merged_tables dfs)).
Proof.
  unfold merged_tables. rewrite length_map, enumerate_length, map_map.
  cbn [table_number merged_table_of].
  rewrite <- seq_shift, <- (enumerate_fst (group_tables dfs)), map_map.
  apply map_ext. intros p. apply Nat.add_1_r.
Qed.

Lemma merged_tables_In (dfs : list pd.DataFrame) (t : merged_table) :
  In t (merged_tables dfs) ->
  exists idx key members,
    In (key, members) (group_tables dfs)
    /\ t = merged_table_of dfs (idx, (key, members)).
Proof.
  unfold merged_tables. intros H. apply in_map_iff in H.
  destruct H as [[idx [key members]] [<- Hin]].
  exists idx, key, members. split; [|reflexivity].
  now apply enumerate_In in Hin.
Qed.

Lemma merged_tables_of_group (dfs : list pd.DataFrame) (key : list str)
  (members : list group_member) :
  In (key, members) (group_tables dfs) ->
  exists t, In t (merged_tables dfs)
            /\ table_columns t = key /\ merged_from t = numbers_with dfs key.
Proof.
  intros H. rewrite <- (enumerate_snd (group_tables dfs)) in H.
  apply in_map_iff in H. destruct H as [[idx g] [Hg Hin]]. simpl in Hg. subst g.
  exists (merged_table_of dfs (idx, (key, members))).
  split; [|split; reflexivity].
  unfold merged_tables. now apply in_map.
Qed.

Lemma merged_tables_first_numbers (dfs : list pd.DataFrame) :
  map (fun t => hd 0 (merged_from t)) (merged_tables dfs)
  = map first_number (group_tables dfs).
Proof.
  unfold merged_tables. rewrite map_map.
  rewrite <- (enumerate_snd (group_tables dfs)) at 2. rewrite map_map.
  apply map_ext_in. intros [idx [key members]] Hin.
  apply enumerate_In in Hin. cbn [merged_from merged_table_of fst snd].
  unfold first_number. cbn [snd].
  now rewrite (grouped_numbers _ _ (group_tables_grouped dfs) key members Hin).
Qed.

Lemma merged_tables_signatures (dfs : list pd.DataFrame) :
  map (fun t => get_normalized_column_key (table_columns t)) (merged_tables dfs)
  = map (fun g => get_normalized_column_key (fst g)) (group_tables dfs).
Proof.
  unfold merged_tables. rewrite map_map.
  rewrite <- (enumerate_snd (group_tables dfs)) at 2. rewrite map_map.
  apply map_ext. now intros [idx [key members]].
Qed.

(** Two tables are in one merged table exactly when their normalised labels
    are the same. *)
Lemma same_group_iff (dfs : list pd.DataFrame) (i j : nat) (dfi dfj : pd.DataFrame) :
  nth_error dfs i = Some dfi -> nth_error dfs j = Some dfj ->
  (exists t, In t (merged_tables dfs)
             /\ In (i + 1) (merged_from t) /\ In (j + 1) (merged_from t))
  <-> get_normalized_column_key (pd.columns dfi)
      = get_normalized_column_key (pd.columns dfj).
Proof.
  intros Hi Hj. split.
  - intros [t [Ht [Hti Htj]]].
    destruct (merged_tables_In _ _ Ht) as [idx [key [members [_ ->]]]].
    cbn [merged_from merged_table_of fst snd] in *.
    apply (numbers_with_In dfs key i dfi Hi) in Hti.
    apply (numbers_with_In dfs key j dfj Hj) in Htj. congruence.
  - intros Heq.
    destruct (grouped_covered _ _ (group_tables_grouped dfs) dfi) as [key [members [Hin Hk]]].
    { now apply nth_error_In in Hi. }
    destruct (merged_tables_of_group _ _ _ Hin) as [t [Ht [_ Hfrom]]].
    exists t. split; [assumption|]. rewrite Hfrom. split.
    + now apply (numbers_with_In dfs key i dfi Hi).
    + apply (numbers_with_In dfs key j dfj Hj). congruence.
Qed.

(** A merged table carries the labels of its first member, as that table
    had them, over the rows of all its members. *)
Lemma merged_table_relabelled (dfs : list pd.DataFrame) (t : merged_table) :
  In t (merged_tables dfs) ->
  exists first_df,
    nth_error dfs (hd 0 (merged_from t) - 1) = Some first_df
    /\ table_columns t = pd.columns first_df
    /\ table_data t = pd.to_dict_records
                        {| pd.columns := pd.columns first_df;
                           pd.rows := rows_of dfs (merged_from t) |}
    /\ row_count t = length (rows_of dfs (merged_from t)).
Proof.
  intros Ht. destruct (merged_tables_In _ _ Ht) as [idx [key [members [Hin ->]]]].
  pose proof (group_tables_grouped dfs) as Hg.
  destruct (grouped_first _ _ Hg key members Hin) as [m [others [d [Hms [Hd Hkey]]]]].
  exists d. cbn [merged_from merged_table_of table_columns table_data row_count fst snd].
  rewrite <- (grouped_numbers _ _ Hg key members Hin), Hms. cbn [map hd].
  rewrite Hkey. repeat split. assumption.
Qed.

Lemma replace_char (a b : char) (s : str) :
  replace [a] [b] s = map (fun c => if (c =? a)%N then b else c) s.
Proof.
  unfold replace. induction s as [|c s IH]; [reflexivity|].
  simpl. rewrite andb_true_r, N.eqb_sym.
  destruct (c =? a)%N; simpl; now rewrite IH.
Qed.

Lemma replace_space (s : str) :
  replace (txt " ") (txt "_") s = map (fun c => if (c =? 32)%N then 95%N else c) s.
Proof. apply (replace_char 32%N 95%N). Qed.

(** Where the lowered and stripped label has no white space but spaces, the
    normalisation is the one the specification words. *)
Lemma normalize_column_as_worded (col : str) :
  (forall c, In c (strip (lower col)) -> isspace c = true -> c = 32%N) ->
  normalize_column col = Spec.normalize_label col.
Proof.
  intros H. unfold normalize_column, Spec.normalize_label.
  destruct (_ && _); [reflexivity|].
  destruct (str_eqb _ _); [reflexivity|].
  rewrite replace_space. apply map_ext_in. intros c Hc.
  destruct (c =? 32)%N eqn:He.
  - apply N.eqb_eq in He. now subst.
  - destruct (isspace c) eqn:Hs; [|reflexivity].
    apply N.eqb_neq in He. exfalso. now apply He, H.
Qed.

(** C3 (amended).  The merging of the groups returns, and two processed
    tables are in the same merged table if and only if their labels,
    normalised, are the same in the same order, where normalising lowers and
    strips a label, gives [value_date] for ["value"] and for a label with
    both ["value"] and ["date"], and otherwise puts an underscore for every
    space character (other white space inside a label stays).  A merged
    table has the labels of its first member as that table had them, over
    the rows of all its members.  Tables with the labels Date, Amount and
    Amount, Date are not merged; tables with the labels Value, Particulars
    and Value Date, Particulars are, under the first one's labels. *)
Theorem C3_tables_grouped_by_normalized_labels (dfs : list pd.DataFrame) :
  merge_groups (group_tables dfs) = Returned (merged_tables dfs)
  /\ (forall i j dfi dfj,
        nth_error dfs i = Some dfi -> nth_error dfs j = Some dfj ->
        ((exists t, In t (merged_tables dfs)
                    /\ In (i + 1) (merged_from t) /\ In (j + 1) (merged_from t))
         <-> get_normalized_column_key (pd.columns dfi)
             = get_normalized_column_key (pd.columns dfj)))
  /\ (forall t, In t (merged_tables dfs) ->
        exists first_df,
          nth_error dfs (hd 0 (merged_from t) - 1) = Some first_df
          /\ table_columns t = pd.columns first_df
          /\ table_data t = pd.to_dict_records
                              {| pd.columns := pd.columns first_df;
                                 pd.rows := rows_of dfs (merged_from t) |}
          /\ row_count t = length (rows_of dfs (merged_from t)))
  /\ (forall col,
        (forall c, In c (strip (lower col)) -> isspace c = true -> c = 32%N) ->
        normalize_column col = Spec.normalize_label col)
  /\ (forall rows1 rows2,
        map merged_from
            (merged_tables [ {| pd.columns := map txt ["Date"; "Amount"]; pd.rows := rows1 |};
                             {| pd.columns := map txt ["Amount"; "Date"]; pd.rows := rows2 |} ])
        = [[1]; [2]])
  /\ (forall rows1 rows2,
        map (fun t => (table_columns t, merged_from t, row_count t))
            (merged_tables [ {| pd.columns := map txt ["Value"; "Particulars"];
                                pd.rows := rows1 |};
                             {| pd.columns := map txt ["Value Date"; "Particulars"];
                                pd.rows := rows2 |} ])
        = [(map txt ["Value"; "Particulars"], [1; 2], length (rows1 ++ rows2))]).
Proof.
  split; [apply merge_groups_returns|].
  split; [apply same_group_iff|].
  split; [apply merged_table_relabelled|].
  split; [apply normalize_column_as_worded|].
  split; intros rows1 rows2.
  - reflexivity.
  - unfold merged_tables.
    match goal with |- context [group_tables ?l] => evaluate (group_tables l) end.
    cbn [enumerate combine seq length map merged_table_of fst snd
         table_columns merged_from row_count].
    match goal with |- context [numbers_with ?l ?k] => evaluate (numbers_with l k) end.
    unfold pd.len, rows_of. cbn [flat_map nth Nat.sub pd.rows].
    now rewrite app_nil_r.
Qed.

(** C8.  The grouping is a function of the processed tables: on the same
    tables it returns the same merged tables, hence the same signatures,
    members and numbers.  The numbers are 1, 2, ... in the order of the
    groups; the groups are in the order in which their first members were
    met and have different signatures; the members of a group are the
    tables with its signature, in increasing order. *)
Theorem C8_grouping_is_deterministic (dfs1 dfs2 : list pd.DataFrame) :
  dfs1 = dfs2 ->
  exists tables,
    merge_groups (group_tables dfs1) = Returned tables
    /\ merge_groups (group_tables dfs2) = Returned tables
    /\ map table_number tables = seq 1 (length tables)
    /\ StronglySorted lt (map (fun t => hd 0 (merged_from t)) tables)
    /\ NoDup (map (fun t => get_normalized_column_key (table_columns t)) tables)
    /\ (forall t, In t tables ->
          merged_from t = numbers_with dfs1 (table_columns t)
          /\ merged_from t <> []).
Proof.
  intros <-. exists (merged_tables dfs1).
  pose proof (group_tables_grouped dfs1) as Hg.
  split; [apply merge_groups_returns|]. split; [apply merge_groups_returns|].
  split; [apply merged_tables_numbers|]. split.
  { rewrite merged_tables_first_numbers. apply (grouped_order _ _ Hg). }
  split.
  { rewrite merged_tables_signatures. apply (grouped_distinct _ _ Hg). }
  intros t Ht. destruct (merged_tables_In _ _ Ht) as [idx [key [members [Hin ->]]]].
  cbn [merged_from merged_table_of table_columns fst snd].
  split; [reflexivity|].
  rewrite <- (grouped_numbers _ _ Hg key members Hin).
  destruct (grouped_first _ _ Hg key members Hin) as [m [others [d [-> _]]]].
  discriminate.
Qed.

(** *** C10: the unicode correction *)



Lemma hexdigit_not_slash (d : N) : hexdigit d <> 47%N.
Proof. unfold hexdigit. compare_chars; lia. Qed.

Lemma hex4_no_slash (n : N) : Forall (fun x => x <> 47%N) (hex4 n).
Proof. unfold hex4. repeat constructor; apply hexdigit_not_slash. Qed.

Lemma encode_char_no_slash (c : char) :
  c <> 47%N -> Forall (fun x => x <> 47%N) (encode_char c).
Proof.
  intros Hc. unfold encode_char.
  compare_chars; cbn [andb txt map list_ascii_of_string];
    try (repeat constructor; discriminate);
    try (repeat constructor; assumption);
    repeat (apply Forall_app; split);
    try apply hex4_no_slash; repeat constructor; discriminate.
Qed.

(** The escape of a character begins with a backslash, or is the character. *)
Lemma encode_char_head (c : char) :
  exists x w, encode_char c = x :: w /\ (x = 92%N \/ x = c /\ w = []).
Proof.
  unfold encode_char.
  compare_chars; cbn [andb txt map list_ascii_of_string app];
    eexists _, _; (split; [reflexivity|]); auto.
Qed.


Lemma startswith_uni_other (c : char) (t : str) :
  c <> 47%N -> startswith (txt "/uni") (c :: t) = false.
Proof.
  intros Hc. change (txt "/uni") with [47; 117; 110; 105]%N. cbn [startswith].
  destruct (N.eqb_spec 47 c); [congruence|reflexivity].
Qed.

Lemma replace_no_slash (w t : str) :
  Forall (fun x => x <> 47%N) w ->
  replace_from (txt "/uni") (txt "\u") 0 (w ++ t)
  = w ++ replace_from (txt "/uni") (txt "\u") 0 t.
Proof.
  induction 1 as [|x w Hx _ IH]; [reflexivity|].
  cbn [app replace_from]. rewrite (startswith_uni_other _ _ Hx). now rewrite IH.
Qed.

Lemma corrected_literal_other (c : char) (s : str) :
  c <> 47%N ->
  corrected_literal (c :: s) = encode_char c ++ corrected_literal s.
Proof.
  intros Hc. unfold corrected_literal, replace, encode_basestring_ascii.
  cbn [flat_map]. now apply replace_no_slash, encode_char_no_slash.
Qed.

Lemma corrected_literal_uni (s : str) :
  corrected_literal (txt "/uni" ++ s) = 92%N :: 117%N :: corrected_literal s.
Proof. reflexivity. Qed.

(** In a serialisation a plain character stands for itself alone. *)
Lemma startswith_encoded (a c : char) (p s : str) :
  a <> 92%N -> encode_char a = [a] ->
  startswith (a :: p) (encode_basestring_ascii (c :: s))
  = (a =? c)%N && startswith p (encode_basestring_ascii s).
Proof.
  intros Ha Hplain. unfold encode_basestring_ascii. cbn [flat_map].
  destruct (N.eqb_spec a c) as [<-|Hac].
  - rewrite Hplain. cbn [app startswith]. now rewrite N.eqb_refl.
  - destruct (encode_char_head c) as [x [w [-> [->|[-> _]]]]]; cbn [app startswith];
      [destruct (N.eqb_spec a 92)|destruct (N.eqb_spec a c)];
      try congruence; reflexivity.
Qed.

Lemma startswith_plain_encoded (p s : str) :
  Forall (fun a => a <> 92%N /\ encode_char a = [a]) p ->
  startswith p (encode_basestring_ascii s) = startswith p s.
Proof.
  intros Hp. revert s. induction Hp as [|a p [Ha Hplain] _ IH]; intros s.
  - now destruct s.
  - destruct s as [|c s]; [reflexivity|].
    rewrite (startswith_encoded a c p s Ha Hplain).
    change (startswith (a :: p) (c :: s)) with ((a =? c)%N && startswith p s).
    now rewrite IH.
Qed.

Lemma startswith_uni_encoded (s : str) :
  startswith (txt "uni") (encode_basestring_ascii s) = startswith (txt "uni") s.
Proof.
  apply startswith_plain_encoded.
  repeat constructor; (discriminate || reflexivity).
Qed.

Lemma corrected_literal_slash (s : str) :
  startswith (txt "uni") s = false ->
  corrected_literal (47%N :: s) = 47%N :: corrected_literal s.
Proof.
  intros H. unfold corrected_literal, replace, encode_basestring_ascii.
  cbn [flat_map]. change (encode_char 47) with [47%N]. cbn [app replace_from].
  change (startswith (txt "/uni") (47%N :: flat_map encode_char s))
    with (startswith (txt "uni") (encode_basestring_ascii s)).
  now rewrite startswith_uni_encoded, H.
Qed.

Lemma is_hex_plain (c : char) :
  is_hex c = true -> c <> 47%N /\ encode_char c = [c].
Proof.
  unfold is_hex, unhex, encode_char.
  compare_chars; cbn [andb]; intros Hhex; try discriminate Hhex; split;
    try lia; reflexivity.
Qed.









Lemma mapM_raised {A B : Type} (f : A -> outcome B) (l : list A) (e : exn) :
  mapM f l = Raised e -> exists x, In x l /\ f x = Raised e.
Proof.
  induction l as [|x l IH]; simpl; [discriminate|].
  destruct (f x) as [y|e'] eqn:Hx; simpl.
  - destruct (mapM f l) as [ys|e'']; simpl; [discriminate|].
    intros H. inversion H. subst.
    destruct (IH eq_refl) as [x' [Hin Hx']]. exists x'. auto.
  - intros H. inversion H. subst. exists x. auto.
Qed.


Lemma correct_text_only (s : str) (e : exn) :
  correct_text s = Raised e -> e = JSONDecodeError.
Proof.
  unfold correct_text, decoded. destruct (unicode_correction s); congruence.
Qed.

Lemma correct_cell_only (v : cell) (e : exn) :
  correct_cell v = Raised e -> e = JSONDecodeError.
Proof.
  destruct v as [s| |]; simpl; try discriminate.
  destruct (correct_text s) eqn:Hs; simpl; [discriminate|].
  intros H. inversion H. subst. now apply (correct_text_only s).
Qed.

Lemma correct_item_only (kv : str * cell) (e : exn) :
  correct_item kv = Raised e -> e = JSONDecodeError.
Proof.
  unfold correct_item.
  destruct (correct_text (fst kv)) eqn:Hk; simpl.
  - destruct (correct_cell (snd kv)) eqn:Hv; simpl; [discriminate|].
    intros H. inversion H. subst. now apply (correct_cell_only (snd kv)).
  - intros H. inversion H. subst. now apply (correct_text_only (fst kv)).
Qed.

Lemma correct_record_only (r : record) (e : exn) :
  correct_record r = Raised e -> e = JSONDecodeError.
Proof.
  unfold correct_record. fold correct_item.
  destruct (mapM correct_item r) eqn:Hm; simpl; [discriminate|].
  intros H. inversion H. subst.
  destruct (mapM_raised _ _ _ Hm) as [kv [_ Hkv]].
  now apply (correct_item_only kv).
Qed.

Lemma correct_table_only (t : table) (e : exn) :
  correct_table t = Raised e -> e = JSONDecodeError.
Proof.
  unfold correct_table, correct_field.
  destruct (columns t) as [cols|].
  - destruct (mapM correct_text cols) eqn:Hc; simpl.
    + destruct (data t) as [recs|]; simpl; [|discriminate].
      destruct (mapM correct_record recs) eqn:Hr; simpl; [discriminate|].
      intros H. inversion H. subst.
      destruct (mapM_raised _ _ _ Hr) as [r [_ Hr']].
      now apply (correct_record_only r).
    + intros H. inversion H. subst.
      destruct (mapM_raised _ _ _ Hc) as [s [_ Hs]].
      now apply (correct_text_only s).
  - simpl. destruct (data t) as [recs|]; simpl; [|discriminate].
    destruct (mapM correct_record recs) eqn:Hr; simpl; [discriminate|].
    intros H. inversion H. subst.
    destruct (mapM_raised _ _ _ Hr) as [r [_ Hr']].
    now apply (correct_record_only r).
Qed.





(* ===================================================================== *)
(** ** Further properties of the method *)
(* ===================================================================== *)

(** *** What the method raises *)

Lemma unicode_corrected_only (tables_json : list table) (e : exn) :
  unicode_corrected tables_json = Raised e -> e = JSONDecodeError.
Proof.
  unfold unicode_corrected. intros H.
  destruct (mapM_raised _ _ _ H) as [t [_ Ht]]. now apply (correct_table_only t).
Qed.

(** The method raises in three situations and no other: the decoding error
    of step 1; [KeyError] when the first table has headers and no ['data'];
    [InvalidIndexError] when the processed tables have to be realigned while
    one of them, a table after the first, carries a label twice. *)
Theorem run_raises_exactly (tables_json : list table) (e : exn) :
  (process_tables_sequentially tables_json = Raised e <->
   (e = JSONDecodeError /\ unicode_corrected tables_json = Raised JSONDecodeError)
   \/ exists first_table rest master_headers,
        unicode_corrected tables_json = Returned (first_table :: rest)
        /\ find_master_headers first_table = Some master_headers
        /\ ((e = KeyError /\ data first_table = None)
            \/ (e = InvalidIndexError
                /\ exists records,
                     data first_table = Some records
                     /\ repeated_labels (all_processed master_headers records rest) = true)))
  /\ (forall master_headers records rest,
        repeated_labels (all_processed master_headers records rest) = true ->
        exists d, In d (process_subsequent master_headers rest)
                  /\ ~ NoDup (pd.columns d)).
Proof.
  split; [split|].
  - intros Hrun.
    destruct (unicode_corrected tables_json) as [tables|e'] eqn:Hjson.
    + right. unfold process_tables_sequentially in Hrun.
      rewrite Hjson in Hrun. unfold bind at 1 in Hrun.
      destruct tables as [|first_table rest]; [discriminate|].
      destruct (find_master_headers first_table) as [master_headers|] eqn:Hm;
        [|discriminate].
      exists first_table, rest, master_headers.
      split; [reflexivity|]. split; [exact Hm|].
      destruct (data first_table) as [records|] eqn:Hd.
      * right.
        destruct (repeated_labels (all_processed master_headers records rest)) eqn:Hdup.
        -- rewrite concat_unfold in Hrun by (unfold all_processed; discriminate).
           rewrite Hdup in Hrun. inversion Hrun. split; [reflexivity|].
           now exists records.
        -- destruct (fillna_concat (all_processed master_headers records rest))
             as [c [Hc _]]; [unfold all_processed; discriminate|assumption|].
           rewrite Hc, merge_groups_returns in Hrun. discriminate.
      * left. inversion Hrun. auto.
    + left. pose proof (unicode_corrected_only _ _ Hjson) as ->.
      unfold process_tables_sequentially in Hrun. rewrite Hjson in Hrun.
      inversion Hrun. auto.
  - intros [[-> Hjson]|[first_table [rest [master_headers [Hjson [Hm H]]]]]].
    + unfold process_tables_sequentially. now rewrite Hjson.
    + destruct H as [[-> Hd]|[-> [records [Hd Hdup]]]].
      * unfold process_tables_sequentially. rewrite Hjson. unfold bind.
        now rewrite Hm, Hd.
      * now apply (run_raises _ rest first_table master_headers records).
  - intros master_headers records rest Hdup.
    apply (repeated_labels_In _ _ (first_frame_NoDup records) Hdup).
Qed.

(** *** C2: a first table without usable headers *)

(** C2 (amended).  The correction of step 1 comes before the look at the
    first table: when it fails the method raises [JSONDecodeError], whatever
    the first table is.  When it reads the input back and the first table
    of what it read has no columns, or columns that are all numeric, the
    method stops at once and returns an empty frame and empty lists,
    whatever the later tables are; it raises nothing, and the emitter makes
    of this result a document without transactions and without detected
    headers. *)
Theorem C2_unusable_first_table_ends_the_run (tables_json : list table) :
  (forall e, unicode_corrected tables_json = Raised e ->
             e = JSONDecodeError
             /\ process_tables_sequentially tables_json = Raised JSONDecodeError)
  /\ (forall first_table rest,
        unicode_corrected tables_json = Returned (first_table :: rest) ->
        (forall cols, columns first_table = Some cols -> all_isdigit cols = true) ->
        process_tables_sequentially tables_json = Returned nothing
        /\ (forall e, process_tables_sequentially tables_json <> Raised e)
        /\ pd.empty (final_df nothing) = true
        /\ individual_tables nothing = []
        /\ exists document,
             convert_to_structured_format (final_df nothing) (Some (table_info nothing))
             = Returned document
             /\ transactions document = []
             /\ detected_headers (doc_metadata document) = None).
Proof.
  split.
  - intros e He. pose proof (unicode_corrected_only _ _ He) as ->.
    split; [reflexivity|]. unfold process_tables_sequentially. now rewrite He.
  - intros first_table rest Hjson Hcols.
    assert (Hrun : process_tables_sequentially tables_json = Returned nothing).
    { unfold process_tables_sequentially. rewrite Hjson. unfold bind.
      now rewrite (find_master_headers_none _ Hcols). }
    split; [exact Hrun|]. split; [intros e He; congruence|].
    repeat split. eexists. repeat split.
Qed.

(** *** Tables that are passed over *)

Lemma from_records_no_columns (records : list record) :
  pd.columns (pd.from_records records) = [] <-> forall r, In r records -> r = [].
Proof.
  split.
  - intros Hc r Hr. destruct r as [|[k v] r]; [reflexivity|].
    assert (Hk : In k (pd.columns (pd.from_records records))).
    { apply from_records_columns_In. exists ((k, v) :: r). split; [assumption|now left]. }
    rewrite Hc in Hk. contradiction.
  - intros H. destruct (pd.columns (pd.from_records records)) as [|k cols] eqn:Hc;
      [reflexivity|].
    assert (Hk : In k (pd.columns (pd.from_records records))) by (rewrite Hc; now left).
    apply from_records_columns_In in Hk. destruct Hk as [r [Hr Hk]].
    rewrite (H r Hr) in Hk. contradiction.
Qed.

(** The loop passes over a table exactly when it has no ['data'], no row, or
    only rows without any key. *)
Lemma process_table_none (master_headers : list str) (t : table) :
  process_table master_headers t = None <->
  data t = None
  \/ exists records, data t = Some records /\ forall r, In r records -> r = [].
Proof.
  unfold process_table. destruct (data t) as [[|r records]|].
  - split; [|reflexivity]. intros _. right. exists []. split; [reflexivity|intros r []].
  - unfold pd.empty.
    replace (length (pd.rows (pd.from_records (r :: records))) =? 0)%nat with false
      by (unfold pd.from_records; reflexivity).
    rewrite orb_false_r.
    destruct (length (pd.columns (pd.from_records (r :: records))) =? 0)%nat eqn:Hc.
    + split; [|reflexivity]. intros _. right. exists (r :: records).
      split; [reflexivity|]. apply from_records_no_columns.
      apply Nat.eqb_eq in Hc. now apply length_zero_iff_nil.
    + split; [discriminate|]. intros [H|[records' [H Hall]]]; [discriminate|].
      inversion H. subst records'. apply from_records_no_columns in Hall.
      rewrite Hall in Hc. discriminate.
  - split; [auto|reflexivity].
Qed.

(** A table after the first that has no ['data'], no row, or only rows
    without any key leaves no trace: the method does with the input what it
    does with the input without this table, the numbers in [merged_from]
    included. *)
Theorem skipped_table_leaves_no_trace
  (tables_json tables_json' l1 l2 : list table) (first_table t : table) :
  unicode_corrected tables_json = Returned (first_table :: l1 ++ t :: l2) ->
  unicode_corrected tables_json' = Returned (first_table :: l1 ++ l2) ->
  (data t = None
   \/ exists records, data t = Some records /\ forall r, In r records -> r = []) ->
  (forall master_headers, process_table master_headers t = None)
  /\ process_tables_sequentially tables_json = process_tables_sequentially tables_json'.
Proof.
  intros Hjson Hjson' Hskip.
  assert (Hnone : forall master_headers, process_table master_headers t = None)
    by (intros master_headers; now apply process_table_none).
  split; [exact Hnone|].
  unfold process_tables_sequentially. rewrite Hjson, Hjson'.
  unfold bind at 1. unfold bind at 3.
  destruct (find_master_headers first_table) as [master_headers|]; [|reflexivity].
  destruct (data first_table) as [records|]; [|reflexivity].
  replace (all_processed master_headers records (l1 ++ t :: l2))
    with (all_processed master_headers records (l1 ++ l2)); [reflexivity|].
  unfold all_processed, process_subsequent. f_equal.
  rewrite !flat_map_app. f_equal. simpl. now rewrite Hnone.
Qed.

(** *** C7: a column count that differs from the master headers' *)

(** The generic names, written out. *)
Lemma generic_headers_names (n : nat) :
  generic_headers n = map (fun i => txt "Column_" ++ str_of_nat i) (seq 1 n).
Proof.
  unfold generic_headers. rewrite <- seq_shift, map_map.
  apply map_ext. intros i. now rewrite Nat.add_1_r.
Qed.

(** C7 (amended).  A table after the first whose row keys are all numeric,
    whose first row bears no header keyword and whose column count [N]
    differs from the master headers'.  Without a row that has a key (it has
    no row, or only rows without keys) it is skipped.  With one, it is given
    the labels [Column_1 .. Column_N] and keeps every row: it is one of the
    processed tables, with as many rows as it was read with, and in a run
    that returns these rows are in the ledger, together and in order.  The
    mismatch raises nothing: processing the table gives a frame whose labels
    do not repeat; but the run can still raise, [InvalidIndexError] and for
    another table, one whose labels repeat, and then nothing is returned at
    all. *)
Theorem C7_count_mismatch_gets_generic_names
  (tables_json rest : list table) (first_table t : table)
  (master_headers : list str) (first_records records : list record) :
  unicode_corrected tables_json = Returned (first_table :: rest) ->
  find_master_headers first_table = Some master_headers ->
  data first_table = Some first_records ->
  In t rest ->
  data t = Some records ->
  all_isdigit (pd.columns (pd.from_records records)) = true ->
  first_row_looks_like_headers (pd.fillna [] (pd.from_records records)) = false ->
  length (pd.columns (pd.from_records records)) <> length master_headers ->
  let n := length (pd.columns (pd.from_records records)) in
  let dfs := all_processed master_headers first_records rest in
  let generic :=
    {| pd.columns := map (fun i => txt "Column_" ++ str_of_nat i) (seq 1 n);
       pd.rows := pd.rows (pd.fillna [] (pd.from_records records)) |} in
  (pd.empty (pd.from_records records) = true <->
   records = [] \/ forall row, In row records -> row = [])
  /\ (pd.empty (pd.from_records records) = true ->
      process_table master_headers t = None)
  /\ (pd.empty (pd.from_records records) = false ->
      process_table master_headers t = Some generic
      /\ In generic dfs
      /\ pd.len generic = length records
      /\ length (pd.columns generic) = n
      /\ (forall i, i < n ->
            nth_error (pd.columns generic) i = Some (txt "Column_" ++ str_of_nat (i + 1)))
      /\ NoDup (pd.columns generic)
      /\ (forall r, process_tables_sequentially tables_json = Returned r ->
            exists before after,
              pd.rows (final_df r) =
              before ++ map (ledger_row (stacked dfs) (pd.columns generic)
                                        (pd.columns (final_df r)))
                            (pd.rows generic) ++ after)
      /\ (forall e, process_tables_sequentially tables_json = Raised e ->
            e = InvalidIndexError
            /\ exists d, In d dfs /\ ~ NoDup (pd.columns d) /\ d <> generic)).
Proof.
  intros Hjson Hmaster Hfirst Ht Hdata Hdigit Hrow Hcount n dfs generic.
  split; [|split].
  - split.
    + intros Hempty. destruct records as [|record records]; [now left|right].
      apply from_records_no_columns.
      unfold pd.empty in Hempty. apply orb_true_iff in Hempty.
      destruct Hempty as [Hcols|Hrows].
      * apply Nat.eqb_eq in Hcols. now apply length_zero_iff_nil.
      * apply Nat.eqb_eq in Hrows.
        change (pd.len (pd.from_records (record :: records)) = 0) in Hrows.
        rewrite from_records_len in Hrows. discriminate.
    + intros [->|Hkeys]; [reflexivity|].
      apply from_records_no_columns in Hkeys. unfold pd.empty. now rewrite Hkeys.
  - intros Hempty. unfold process_table. rewrite Hdata.
    destruct records; [reflexivity|]. now rewrite Hempty.
  - intros Hempty.
    assert (Hgen : process_table master_headers t = Some generic).
    { rewrite (mismatch_gets_generic_names _ _ _ Hdata Hempty Hdigit Hrow Hcount).
      unfold generic, n. now rewrite generic_headers_names. }
    assert (Hin : In generic dfs).
    { right. now apply (process_subsequent_In master_headers rest t). }
    assert (Hnd : NoDup (pd.columns generic)).
    { unfold generic. cbn [pd.columns]. rewrite <- generic_headers_names.
      apply generic_headers_NoDup. }
    split; [exact Hgen|]. split; [exact Hin|].
    split; [|split; [|split; [|split; [exact Hnd|split]]]].
    + unfold generic, pd.len. cbn [pd.rows].
      change (pd.len (pd.fillna [] (pd.from_records records)) = length records).
      now rewrite fillna_len, from_records_len.
    + unfold generic. cbn [pd.columns]. now rewrite length_map, length_seq.
    + intros i Hi. unfold generic. cbn [pd.columns].
      rewrite nth_error_map, nth_error_seq.
      apply Nat.ltb_lt in Hi. rewrite Hi. cbn [option_map].
      now rewrite Nat.add_comm.
    + intros r Hrun.
      rewrite (run_returned _ _ _ _ _ _ Hjson Hmaster Hfirst Hrun).
      unfold result_of. cbn [final_df]. now apply ledger_rows_of_table.
    + intros e Hrun.
      destruct (run_raised _ _ _ _ _ _ Hjson Hmaster Hfirst Hrun) as [He [d [Hd Hdup]]].
      split; [exact He|]. exists d. split; [now right|]. split; [assumption|].
      intros ->. contradiction.
Qed.

(** *** Master headers on a table without headers *)

(** A table after the first whose row keys are all numeric, whose first row
    bears no keyword and which has as many columns as the master headers
    takes the master headers as labels and keeps every row, the first
    included; only the merging of a split column can still change it, and
    does not when no master header is empty.  In a run that returns, its
    rows are in the ledger, together and in order. *)
Theorem master_headers_applied
  (tables_json rest : list table) (first_table t : table)
  (master_headers : list str) (first_records records : list record) :
  unicode_corrected tables_json = Returned (first_table :: rest) ->
  find_master_headers first_table = Some master_headers ->
  data first_table = Some first_records ->
  In t rest ->
  data t = Some records ->
  pd.empty (pd.from_records records) = false ->
  all_isdigit (pd.columns (pd.from_records records)) = true ->
  first_row_looks_like_headers (pd.fillna [] (pd.from_records records)) = false ->
  length (pd.columns (pd.from_records records)) = length master_headers ->
  let dfs := all_processed master_headers first_records rest in
  let named := {| pd.columns := master_headers;
                  pd.rows := pd.rows (pd.fillna [] (pd.from_records records)) |} in
  columns first_table = Some master_headers
  /\ resolve_headers master_headers (pd.fillna [] (pd.from_records records)) = named
  /\ process_table master_headers t = Some (merge_split_column named)
  /\ In (merge_split_column named) dfs
  /\ pd.len (merge_split_column named) = length records
  /\ (~ In [] master_headers -> merge_split_column named = named)
  /\ (forall r, process_tables_sequentially tables_json = Returned r ->
        exists before after,
          pd.rows (final_df r) =
          before ++ map (ledger_row (stacked dfs)
                                    (pd.columns (merge_split_column named))
                                    (pd.columns (final_df r)))
                        (pd.rows (merge_split_column named)) ++ after).
Proof.
  intros Hjson Hmaster Hfirst Ht Hdata Hempty Hdigit Hrow Hcount dfs named.
  assert (Hres : resolve_headers master_headers (pd.fillna [] (pd.from_records records))
                 = named).
  { unfold resolve_headers.
    change (pd.columns (pd.fillna [] (pd.from_records records)))
      with (pd.columns (pd.from_records records)).
    rewrite Hdigit, Hrow. apply Nat.eqb_eq in Hcount. now rewrite Hcount. }
  assert (Hproc : process_table master_headers t = Some (merge_split_column named))
    by (rewrite (process_table_unfold _ _ _ Hdata Hempty); now rewrite Hres).
  assert (Hin : In (merge_split_column named) dfs).
  { right. now apply (process_subsequent_In master_headers rest t). }
  split; [apply (find_master_headers_some _ _ Hmaster)|].
  split; [exact Hres|]. split; [exact Hproc|]. split; [exact Hin|].
  split; [|split].
  - rewrite merge_split_column_len. unfold named, pd.len. cbn [pd.rows].
    change (pd.len (pd.fillna [] (pd.from_records records)) = length records).
    now rewrite fillna_len, from_records_len.
  - intros Hno. now apply merge_split_column_no_empty_label.
  - intros r Hrun.
    rewrite (run_returned _ _ _ _ _ _ Hjson Hmaster Hfirst Hrun).
    unfold result_of. cbn [final_df]. now apply ledger_rows_of_table.
Qed.

(** *** Every table in one merged table, every row counted once *)

Lemma NoDup_flat_map_keys {A K : Type} (f : A -> list nat) (g : A -> K) (l : list A) :
  NoDup (map g l) ->
  (forall x, In x l -> NoDup (f x)) ->
  (forall x y n, In x l -> In y l -> In n (f x) -> In n (f y) -> g x = g y) ->
  NoDup (flat_map f l).
Proof.
  induction l as [|a l IH]; intros Hg Hf Hdisj; simpl; [constructor|].
  inversion Hg as [|k ks Hk Hks]; subst.
  apply NoDup_app.
  - apply Hf. now left.
  - apply IH; [assumption|intros x Hx; apply Hf; now right|].
    intros x y n Hx Hy. apply Hdisj; now right.
  - intros n Hn Hin. apply in_flat_map in Hin. destruct Hin as [y [Hy Hny]].
    apply Hk. rewrite (Hdisj a y n); [now apply in_map|now left|now right|assumption..].
Qed.

Lemma merged_from_numbers (dfs : list pd.DataFrame) (t : merged_table) :
  In t (merged_tables dfs) ->
  merged_from t = numbers_with dfs (table_columns t)
  /\ row_count t = length (rows_of dfs (merged_from t)).
Proof.
  intros Ht. destruct (merged_tables_In _ _ Ht) as [idx [key [members [_ ->]]]].
  split; reflexivity.
Qed.

Lemma numbers_with_signature (dfs : list pd.DataFrame) (key : list str) (n : nat) :
  In n (numbers_with dfs key) ->
  signature_of dfs n = get_normalized_column_key key.
Proof.
  unfold numbers_with. intros H. apply filter_In in H. now apply labels_eqb_eq.
Qed.

Lemma numbers_with_NoDup (dfs : list pd.DataFrame) (key : list str) :
  NoDup (numbers_with dfs key).
Proof. apply NoDup_filter, seq_NoDup. Qed.

Lemma map_nth_seq (h : pd.DataFrame -> nat) (dfs : list pd.DataFrame) (s : nat) :
  map (fun n => h (nth (n - s) dfs pd.DataFrame_empty)) (seq s (length dfs))
  = map h dfs.
Proof.
  revert s. induction dfs as [|d dfs IH]; intros s; [reflexivity|].
  cbn [length seq map]. rewrite Nat.sub_diag. cbn [nth]. f_equal.
  rewrite <- (IH (S s)). apply map_ext_in. intros n Hn. apply in_seq in Hn.
  replace (n - s) with (S (n - S s)) by lia. reflexivity.
Qed.

Lemma list_sum_Permutation (l l' : list nat) :
  Permutation l l' -> list_sum l = list_sum l'.
Proof. induction 1; simpl; lia. Qed.

Lemma list_sum_flat_map {A : Type} (f : A -> list nat) (l : list A) :
  list_sum (flat_map f l) = list_sum (map (fun x => list_sum (f x)) l).
Proof.
  induction l as [|x l IH]; simpl; [reflexivity|].
  now rewrite list_sum_app, IH.
Qed.

Lemma merged_from_partition (dfs : list pd.DataFrame) :
  Permutation (flat_map merged_from (merged_tables dfs)) (seq 1 (length dfs)).
Proof.
  pose proof (group_tables_grouped dfs) as Hg.
  apply NoDup_Permutation.
  - apply (NoDup_flat_map_keys merged_from
             (fun t => get_normalized_column_key (table_columns t))).
    + rewrite merged_tables_signatures. apply (grouped_distinct _ _ Hg).
    + intros t Ht. rewrite (proj1 (merged_from_numbers _ _ Ht)).
      apply numbers_with_NoDup.
    + intros x y n Hx Hy. rewrite (proj1 (merged_from_numbers _ _ Hx)).
      rewrite (proj1 (merged_from_numbers _ _ Hy)). intros Hnx Hny.
      rewrite <- (numbers_with_signature _ _ _ Hnx).
      now rewrite <- (numbers_with_signature _ _ _ Hny).
  - apply seq_NoDup.
  - intros n. rewrite in_flat_map, in_seq. split.
    + intros [t [Ht Hn]]. rewrite (proj1 (merged_from_numbers _ _ Ht)) in Hn.
      apply numbers_with_bound in Hn. lia.
    + intros Hn.
      destruct (nth_error dfs (n - 1)) as [df|] eqn:Hdf;
        [|apply nth_error_None in Hdf; lia].
      destruct (grouped_covered _ _ Hg df (nth_error_In _ _ Hdf))
        as [key [members [Hin Hkey]]].
      destruct (merged_tables_of_group _ _ _ Hin) as [t [Ht [_ Hfrom]]].
      exists t. split; [assumption|]. rewrite Hfrom.
      replace n with (n - 1 + 1) by lia.
      apply (numbers_with_In dfs key (n - 1) df Hdf). now symmetry.
Qed.

Lemma rows_of_length (dfs : list pd.DataFrame) (numbers : list nat) :
  length (rows_of dfs (numbers))
  = list_sum (map (fun n => pd.len (nth (n - 1) dfs pd.DataFrame_empty)) numbers).
Proof. unfold rows_of. apply flat_map_length_sum. Qed.

Lemma row_counts_sum (dfs : list pd.DataFrame) :
  list_sum (map row_count (merged_tables dfs)) = list_sum (map pd.len dfs).
Proof.
  set (h := fun n => pd.len (nth (n - 1) dfs pd.DataFrame_empty)).
  transitivity (list_sum (map h (flat_map merged_from (merged_tables dfs)))).
  - rewrite map_flat_map, list_sum_flat_map. f_equal.
    apply map_ext_in. intros t Ht.
    rewrite (proj2 (merged_from_numbers _ _ Ht)). apply rows_of_length.
  - rewrite (list_sum_Permutation _ _ (Permutation_map h (merged_from_partition dfs))).
    unfold h. now rewrite (map_nth_seq pd.len dfs 1).
Qed.

(** Grouping puts every processed table in exactly one merged table: the
    [merged_from] lists, taken together, hold each of the numbers 1..n once,
    and the row counts of the merged tables add up to the rows of the
    processed tables. *)
Theorem merged_tables_partition (dfs : list pd.DataFrame) :
  merge_groups (group_tables dfs) = Returned (merged_tables dfs)
  /\ Permutation (flat_map merged_from (merged_tables dfs)) (seq 1 (length dfs))
  /\ (forall n, 1 <= n <= length dfs ->
        exists t, In t (merged_tables dfs) /\ In n (merged_from t)
                  /\ forall t', In t' (merged_tables dfs) -> In n (merged_from t') ->
                                table_number t' = table_number t)
  /\ list_sum (map row_count (merged_tables dfs)) = list_sum (map pd.len dfs).
Proof.
  split; [apply merge_groups_returns|].
  split; [apply merged_from_partition|].
  split; [|apply row_counts_sum].
  intros n Hn.
  assert (Hin : In n (flat_map merged_from (merged_tables dfs))).
  { apply (Permutation_in n (Permutation_sym (merged_from_partition dfs))).
    apply in_seq. lia. }
  apply in_flat_map in Hin. destruct Hin as [t [Ht Hnt]].
  exists t. split; [assumption|]. split; [assumption|].
  intros t' Ht' Hnt'.
  pose proof (group_tables_grouped dfs) as Hg.
  assert (Hsig : get_normalized_column_key (table_columns t')
                 = get_normalized_column_key (table_columns t)).
  { rewrite (proj1 (merged_from_numbers _ _ Ht)) in Hnt.
    rewrite (proj1 (merged_from_numbers _ _ Ht')) in Hnt'.
    rewrite <- (numbers_with_signature _ _ _ Hnt).
    now rewrite <- (numbers_with_signature _ _ _ Hnt'). }
  pose proof (grouped_distinct _ _ Hg) as Hnd.
  rewrite <- merged_tables_signatures in Hnd.
  apply In_nth_error in Ht, Ht'. destruct Ht as [i Hi], Ht' as [j Hj].
  assert (Hij : j = i).
  { apply (proj1 (NoDup_nth_error _) Hnd).
    - apply nth_error_Some. rewrite nth_error_map, Hj. discriminate.
    - rewrite !nth_error_map, Hi, Hj. simpl. now rewrite Hsig. }
  subst j. congruence.
Qed.

(** *** The emitter *)

Lemma dict_set_fresh {V : Type} (k : str) (v : V) (d : dict V) :
  ~ In k (map fst d) -> dict_set k v d = d ++ [(k, v)].
Proof.
  induction d as [|[k' v'] d IH]; simpl; intros H; [reflexivity|].
  destruct (str_eqb k k') eqn:He.
  - apply str_eqb_eq in He. subst. exfalso. apply H. now left.
  - rewrite IH; [reflexivity|]. intros Hin. apply H. now right.
Qed.

(** [dict(pairs)] is [pairs] when no key comes twice. *)
Lemma dict_of_pairs_NoDup {V : Type} (pairs : list (str * V)) :
  NoDup (map fst pairs) -> dict_of_pairs pairs = pairs.
Proof.
  unfold dict_of_pairs.
  assert (G : forall acc, NoDup (map fst (acc ++ pairs)) ->
                          fold_left (fun d kv => dict_set (fst kv) (snd kv) d) pairs acc
                          = acc ++ pairs).
  { induction pairs as [|[k v] pairs IH]; intros acc Hnd; simpl.
    - now rewrite app_nil_r.
    - rewrite dict_set_fresh.
      + rewrite IH; rewrite <- app_assoc; [reflexivity|exact Hnd].
      + rewrite map_app in Hnd. simpl in Hnd.
        apply NoDup_remove_2 in Hnd. intros Hin. apply Hnd.
        apply in_or_app. now left. }
  intros Hnd. now apply (G []).
Qed.

Lemma map_fst_combine_le {A B : Type} (l : list A) (l' : list B) :
  length l <= length l' -> map fst (combine l l') = l.
Proof.
  revert l'. induction l as [|a l IH]; intros [|b l'] H; simpl in *;
    try reflexivity; try lia.
  f_equal. apply IH. lia.
Qed.

Lemma NoDup_map_fst_combine {B : Type} (l : list str) (l' : list B) :
  NoDup l -> NoDup (map fst (combine l l')).
Proof.
  intros Hnd. revert l'. induction Hnd as [|a l Ha _ IH]; intros [|b l']; simpl;
    try constructor; [|apply IH].
  intros Hin. apply Ha. apply in_map_iff in Hin.
  destruct Hin as [[x y] [<- Hxy]]. now apply in_combine_l in Hxy.
Qed.

(** What the emitter does with a frame: for a frame without rows or without
    columns the fixed empty document; [ValueError] for a frame with a row
    whose labels repeat; otherwise one transaction per row, in the order of
    the rows, with the labels as keys in the order of the columns and the
    cleaned cells as values, and the number of rows as both totals. *)
Theorem emitter_outcome (df : pd.DataFrame) (infos : option (list info)) :
  (pd.empty df = true ->
   convert_to_structured_format df infos
   = Returned {| transactions := [];
                 account_info := None;
                 doc_metadata := {| total_transactions := 0;
                                    processing_method := txt "table_extraction";
                                    detected_headers := None;
                                    metadata_table_info := None |} |})
  /\ (pd.empty df = false -> ~ NoDup (pd.columns df) ->
      convert_to_structured_format df infos = Raised ValueError)
  /\ (pd.empty df = false -> NoDup (pd.columns df) ->
      exists document,
        convert_to_structured_format df infos = Returned document
        /\ length (transactions document) = pd.len df
        /\ total_transactions (doc_metadata document) = pd.len df
        /\ account_info document = Some (txt "Table Extraction Method", pd.len df)
        /\ metadata_table_info (doc_metadata document)
           = Some (match infos with Some l => l | None => [] end)
        /\ forall i row,
             nth_error (pd.rows df) i = Some row ->
             length row = length (pd.columns df) ->
             exists transaction,
               nth_error (transactions document) i = Some transaction
               /\ map fst transaction = pd.columns df
               /\ forall k v,
                    dict_get (combine (pd.columns df) row) k = Some v ->
                    dict_get transaction k = Some (Text (clean_value v))).
Proof.
  unfold convert_to_structured_format. split; [|split].
  - now intros ->.
  - intros -> Hdup.
    destruct (pd.has_duplicates (pd.columns df)) eqn:Hd; [reflexivity|].
    apply has_duplicates_NoDup in Hd. contradiction.
  - intros -> Hnd. rewrite (proj2 (has_duplicates_NoDup _) Hnd).
    eexists. split; [reflexivity|]. cbn [transactions doc_metadata total_transactions
                                        account_info metadata_table_info].
    rewrite !length_map. unfold pd.len.
    split; [reflexivity|]. split; [reflexivity|]. split; [reflexivity|].
    split; [reflexivity|].
    intros i row Hi Hlen. eexists. split.
    + rewrite nth_error_map, Hi. reflexivity.
    + rewrite dict_of_pairs_NoDup by now apply NoDup_map_fst_combine.
      split.
      * apply map_fst_combine_le. rewrite length_map. lia.
      * intros k v Hget.
        rewrite (dict_get_combine_map (fun v => Text (clean_value v))), Hget.
        reflexivity.
Qed.

(** *** The cleaning of a value *)

Lemma lstrip_split (s : str) :
  exists w, s = w ++ lstrip s /\ Forall (fun c => isspace c = true) w.
Proof.
  induction s as [|c s [w [IH Hw]]]; simpl.
  - now exists [].
  - destruct (isspace c) eqn:Hc.
    + exists (c :: w). split; [simpl; f_equal; exact IH|now constructor].
    + now exists [].
Qed.

Lemma lstrip_head (s : str) (c : char) :
  hd_error (lstrip s) = Some c -> isspace c = false.
Proof.
  induction s as [|a s IH]; simpl; [discriminate|].
  destruct (isspace a) eqn:Ha; [assumption|].
  simpl. intros H. inversion H. now subst.
Qed.

Lemma rstrip_split (s : str) :
  exists w, s = rstrip s ++ w /\ Forall (fun c => isspace c = true) w.
Proof.
  unfold rstrip. destruct (lstrip_split (rev s)) as [w [H Hw]].
  exists (rev w). split.
  - rewrite <- rev_app_distr, <- H. now rewrite rev_involutive.
  - apply Forall_rev. exact Hw.
Qed.

(** A stripped text has no white space at either end. *)
Lemma strip_ends (s : str) (c : char) :
  (hd_error (strip s) = Some c -> isspace c = false)
  /\ (hd_error (rev (strip s)) = Some c -> isspace c = false).
Proof.
  unfold strip. split.
  - destruct (rstrip_split (lstrip s)) as [w [H Hw]].
    destruct (rstrip (lstrip s)) as [|a t] eqn:Hr; [discriminate|].
    simpl. intros Ha. inversion Ha. subst a.
    apply (lstrip_head s). rewrite H. reflexivity.
  - unfold rstrip. rewrite rev_involutive. apply lstrip_head.
Qed.

(** The value the emitter writes for a cell is empty exactly when the cell
    is missing, or blank, or its text as it stands is [nan], [none] or
    [null] in any letter case; any other value is the stripped text of the
    cell, and has no white space at either end. *)
Theorem clean_value_outcome (v : cell) :
  (clean_value v = [] <->
   pd.isna v = true
   \/ In (lower (pd.str_of_cell v)) (map txt ["nan"; "none"; "null"])
   \/ strip (pd.str_of_cell v) = [])
  /\ (clean_value v <> [] -> clean_value v = strip (pd.str_of_cell v))
  /\ (forall c, hd_error (clean_value v) = Some c -> isspace c = false)
  /\ (forall c, hd_error (rev (clean_value v)) = Some c -> isspace c = false).
Proof.
  unfold clean_value.
  destruct (pd.isna v) eqn:Hna; cbn [orb].
  - split; [split; auto|]. split; [congruence|]. split; discriminate.
  - destruct (mem (lower (pd.str_of_cell v)) (map txt ["nan"; "none"; "null"])) eqn:Hm.
    + split; [split; [intros _|reflexivity]|].
      * right. left. now apply mem_In.
      * split; [congruence|]. split; discriminate.
    + split; [split|].
      * auto.
      * intros [H|[H|H]]; [discriminate| |assumption].
        apply mem_In in H. congruence.
      * split; [reflexivity|]. split; intros c; apply strip_ends.
Qed.

(** *** Rows with one cell for each label *)

Lemma set_nth_length {A : Type} (i : nat) (x : A) (l : list A) :
  length (pd.set_nth i x l) = length l.
Proof.
  revert i. induction l as [|a l IH]; intros [|i]; simpl; try reflexivity.
  now rewrite IH.
Qed.

Lemma drop_row_length (k : str) (cols : list str) (row : list cell) :
  length row = length cols ->
  length (map snd (filter (fun p : str * cell => negb (str_eqb (fst p) k))
                          (combine cols row)))
  = length (filter (fun c => negb (str_eqb c k)) cols).
Proof.
  revert row. induction cols as [|c cols IH]; intros [|v row] H; simpl in *;
    try reflexivity; try lia.
  destruct (negb (str_eqb c k)); simpl; rewrite IH by lia; reflexivity.
Qed.

Lemma merge_split_column_try_rectangular (df merged : pd.DataFrame) :
  rectangular df -> merge_split_column_try df = Returned merged -> rectangular merged.
Proof.
  unfold merge_split_column_try. intros Hdf.
  destruct (0 <? pd.index [] (pd.columns df))%nat;
    [|intros H; inversion H; subst; assumption].
  destruct (pd.getitem_filled_stripped df (nth _ _ _)) as [left|e]; simpl; [|discriminate].
  destruct (pd.getitem_filled_stripped df []) as [right|e]; simpl; [|discriminate].
  intros H. inversion H. subst merged. clear H.
  unfold rectangular, pd.drop, pd.setitem in *. cbn [pd.rows pd.columns].
  apply Forall_forall. intros row Hrow.
  apply in_map_iff in Hrow. destruct Hrow as [r [<- Hr]].
  apply in_map_iff in Hr. destruct Hr as [[r0 x] [<- Hr0]]. cbn [fst snd].
  apply in_combine_l in Hr0.
  rewrite Forall_forall in Hdf. specialize (Hdf r0 Hr0).
  apply drop_row_length. now rewrite set_nth_length.
Qed.

Lemma merge_split_column_rectangular (df : pd.DataFrame) :
  rectangular df -> rectangular (merge_split_column df).
Proof.
  intros H. unfold merge_split_column.
  destruct (mem [] (pd.columns df)); [|assumption].
  destruct (merge_split_column_try df) eqn:Ht; [|assumption].
  now apply (merge_split_column_try_rectangular df).
Qed.

Lemma resolve_headers_rectangular (master_headers : list str) (df : pd.DataFrame) :
  rectangular df -> rectangular (resolve_headers master_headers df).
Proof.
  intros H. unfold resolve_headers.
  destruct (all_isdigit _); [|assumption].
  destruct (first_row_looks_like_headers df).
  - unfold rectangular, pd.set_columns, pd.iloc_from_1 in *. cbn [pd.rows pd.columns].
    destruct (pd.rows df) as [|first_row rest_rows]; [constructor|].
    inversion H as [|x l Hfirst Hrest]; subst. cbn [hd tl].
    rewrite length_map, Hfirst. exact Hrest.
  - destruct (_ =? _)%nat eqn:Hc.
    + apply Nat.eqb_eq in Hc. unfold rectangular, pd.set_columns in *.
      cbn [pd.rows pd.columns]. now rewrite <- Hc.
    + unfold rectangular, pd.set_columns in *. cbn [pd.rows pd.columns].
      now rewrite generic_headers_length.
Qed.

Lemma all_processed_rectangular (master_headers : list str) (records : list record)
  (rest : list table) :
  Forall rectangular (all_processed master_headers records rest).
Proof.
  unfold all_processed. constructor.
  - apply fillna_rectangular, from_records_rectangular.
  - unfold process_subsequent. apply Forall_forall. intros d Hd.
    apply in_flat_map in Hd. destruct Hd as [t [_ Hd]].
    unfold process_table in Hd.
    destruct (data t) as [[|r records']|]; try contradiction.
    destruct (pd.empty _); [contradiction|].
    destruct Hd as [<-|[]].
    apply merge_split_column_rectangular, resolve_headers_rectangular.
    apply fillna_rectangular, from_records_rectangular.
Qed.

Lemma ledger_rows_In (dfs : list pd.DataFrame) (row' : list cell) :
  In row' (pd.rows (ledger dfs)) ->
  exists d row, In d dfs /\ In row (pd.rows d)
                /\ row' = ledger_row (stacked dfs) (pd.columns d) (ledger_labels dfs) row.
Proof.
  unfold ledger. cbn [pd.rows]. intros H.
  apply in_flat_map in H. destruct H as [d [Hd H]].
  apply in_map_iff in H. destruct H as [row [<- Hrow]]. now exists d, row.
Qed.

Lemma ledger_rectangular (dfs : list pd.DataFrame) :
  Forall rectangular dfs -> rectangular (ledger dfs).
Proof.
  intros Hdfs. unfold rectangular. apply Forall_forall. intros row' Hrow'.
  destruct (ledger_rows_In _ _ Hrow') as [d [row [Hd [Hrow ->]]]].
  unfold ledger, ledger_row. cbn [pd.columns].
  destruct (stacked dfs) eqn:Hs.
  - rewrite length_map, <- (stacked_labels dfs d Hs) by now apply (has_row_kept dfs d row).
    rewrite Forall_forall in Hdfs. specialize (Hdfs d Hd).
    unfold rectangular in Hdfs. rewrite Forall_forall in Hdfs. now apply Hdfs.
  - unfold pd.reindex_row. now rewrite !length_map.
Qed.

Lemma ledger_all_text (dfs : list pd.DataFrame) : all_text (ledger dfs).
Proof.
  unfold all_text. apply Forall_forall. intros row' Hrow'.
  destruct (ledger_rows_In _ _ Hrow') as [d [row [_ [_ ->]]]].
  unfold ledger_row. apply Forall_forall. intros v Hv.
  apply in_map_iff in Hv. destruct Hv as [x [<- _]]. apply fill_text.
Qed.

(** Every processed table, and the ledger of a run that returns, has in
    each row one cell for each label, and no cell is missing. *)
Theorem ledger_is_rectangular
  (tables_json rest : list table) (first_table : table)
  (master_headers : list str) (records : list record) (r : result) :
  unicode_corrected tables_json = Returned (first_table :: rest) ->
  find_master_headers first_table = Some master_headers ->
  data first_table = Some records ->
  process_tables_sequentially tables_json = Returned r ->
  Forall (fun d => rectangular d /\ all_text d)
         (all_processed master_headers records rest)
  /\ rectangular (final_df r)
  /\ all_text (final_df r).
Proof.
  intros Hjson Hmaster Hdata Hrun.
  rewrite (run_returned _ _ _ _ _ _ Hjson Hmaster Hdata Hrun).
  unfold result_of. cbn [final_df].
  pose proof (all_processed_rectangular master_headers records rest) as Hrect.
  pose proof (all_processed_all_text master_headers records rest) as Htext.
  split; [|split].
  - rewrite Forall_forall in *. intros d Hd. split; [now apply Hrect|now apply Htext].
  - now apply ledger_rectangular.
  - apply ledger_all_text.
Qed.

(** *** From the run to the document *)

Lemma convert_returns (df : pd.DataFrame) (infos : option (list info)) :
  pd.empty df = false -> NoDup (pd.columns df) ->
  convert_to_structured_format df infos
  = Returned
      {| transactions :=
           map (fun row => combine (pd.columns df)
                                   (map (fun v => Text (clean_value v)) row))
               (pd.rows df);
         account_info := Some (txt "Table Extraction Method", pd.len df);
         doc_metadata :=
           {| total_transactions := pd.len df;
              processing_method := txt "table_extraction";
              detected_headers := Some (pd.columns df);
              metadata_table_info :=
                Some (match infos with Some l => l | None => [] end) |} |}.
Proof.
  intros He Hnd. unfold convert_to_structured_format.
  rewrite He, (proj2 (has_duplicates_NoDup _) Hnd).
  assert (Ht : map (fun row => dict_of_pairs
                                 (combine (pd.columns df)
                                          (map (fun v => Text (clean_value v)) row)))
                   (pd.rows df)
               = map (fun row => combine (pd.columns df)
                                         (map (fun v => Text (clean_value v)) row))
                     (pd.rows df)).
  { apply map_ext. intros row. apply dict_of_pairs_NoDup.
    now apply NoDup_map_fst_combine. }
  rewrite Ht. unfold pd.len. now rewrite length_map.
Qed.

Lemma ledger_labels_NoDup_first (first : pd.DataFrame) (later : list pd.DataFrame) :
  pd.rows first <> [] \/ pd.columns first <> [] ->
  NoDup (pd.columns first) ->
  NoDup (ledger_labels (first :: later)).
Proof.
  intros Hshape Hnd. unfold ledger_labels, stacked.
  rewrite (objs_head _ _ Hshape).
  destruct (same_labels _); [exact Hnd|].
  apply all_labels_NoDup. constructor.
Qed.

(** When the first table has a row with a key, the emitter makes a document
    of the ledger of every run that returns: it has one transaction for each
    row of each processed table, the totals it reports and the row counts of
    the merged tables and of the table info all add up to that number, and
    every transaction has the detected headers as its keys, in their order. *)
Theorem run_then_emit
  (tables_json rest : list table) (first_table : table)
  (master_headers : list str) (records : list record) (row : record) (r : result) :
  unicode_corrected tables_json = Returned (first_table :: rest) ->
  find_master_headers first_table = Some master_headers ->
  data first_table = Some records ->
  In row records -> row <> [] ->
  process_tables_sequentially tables_json = Returned r ->
  exists document,
    convert_to_structured_format (final_df r) (Some (table_info r)) = Returned document
    /\ length (transactions document)
       = list_sum (map pd.len (all_processed master_headers records rest))
    /\ total_transactions (doc_metadata document) = length (transactions document)
    /\ list_sum (map row_count (individual_tables r)) = length (transactions document)
    /\ list_sum (map info_row_count (table_info r)) = length (transactions document)
    /\ metadata_table_info (doc_metadata document) = Some (table_info r)
    /\ detected_headers (doc_metadata document) = Some (pd.columns (final_df r))
    /\ (forall transaction, In transaction (transactions document) ->
          map fst transaction = pd.columns (final_df r)).
Proof.
  intros Hjson Hmaster Hdata Hrow Hkey Hrun.
  rewrite (run_returned _ _ _ _ _ _ Hjson Hmaster Hdata Hrun).
  unfold result_of. cbn [final_df table_info individual_tables].
  set (dfs := all_processed master_headers records rest).
  set (first_df := pd.fillna [] (pd.from_records records)).
  assert (Hrows : pd.rows first_df <> []).
  { unfold first_df, pd.fillna, pd.from_records. cbn [pd.rows].
    destruct records; [contradiction|discriminate]. }
  assert (Hnd : NoDup (pd.columns (ledger dfs))).
  { apply ledger_labels_NoDup_first; [now left|apply first_frame_NoDup]. }
  assert (Hlen : pd.len (ledger dfs) = list_sum (map pd.len dfs)) by apply ledger_len.
  assert (Hempty : pd.empty (ledger dfs) = false).
  { unfold pd.empty. apply orb_false_iff. split; apply Nat.eqb_neq.
    - destruct row as [|[k v] row]; [contradiction|].
      assert (Hk : In k (pd.columns (ledger dfs))).
      { apply ledger_labels_In. exists first_df. split; [now left|].
        apply from_records_columns_In. exists ((k, v) :: row). split; [assumption|now left]. }
      destruct (pd.columns (ledger dfs)); [contradiction|discriminate].
    - change (pd.len (ledger dfs) <> 0). rewrite Hlen. unfold dfs, all_processed.
      cbn [map list_sum]. fold first_df.
      unfold pd.len at 1. destruct (pd.rows first_df); [contradiction|simpl; lia]. }
  rewrite (convert_returns _ _ Hempty Hnd). eexists. split; [reflexivity|].
  cbn [transactions doc_metadata total_transactions metadata_table_info detected_headers].
  rewrite length_map. fold (pd.len (ledger dfs)).
  split; [exact Hlen|]. split; [reflexivity|].
  split; [rewrite Hlen; apply row_counts_sum|].
  split; [rewrite map_map, Hlen; apply row_counts_sum|].
  split; [reflexivity|]. split; [reflexivity|].
  intros transaction Ht. apply in_map_iff in Ht. destruct Ht as [row' [<- Hrow']].
  apply map_fst_combine_le. rewrite length_map.
  pose proof (ledger_rectangular dfs (all_processed_rectangular _ _ _)) as Hrect.
  unfold rectangular in Hrect. rewrite Forall_forall in Hrect.
  rewrite (Hrect row' Hrow'). lia.
Qed.

(** *** Records and frames *)

Lemma from_records_of_rows (cols : list str) (rows : list (list cell)) :
  NoDup cols -> rows <> [] ->
  Forall (fun row => length row = length cols) rows ->
  pd.from_records (map (fun row => combine cols row) rows)
  = {| pd.columns := cols; pd.rows := rows |}.
Proof.
  intros Hnd Hne Hrect.
  assert (Hkeys : forall row, In row rows -> map fst (combine cols row) = cols).
  { intros row Hrow. rewrite Forall_forall in Hrect.
    apply map_fst_combine_le. rewrite (Hrect row Hrow). lia. }
  assert (Hcols : fold_left (fun acc r => pd.union_labels acc (map fst r))
                            (map (fun row => combine cols row) rows) [] = cols).
  { destruct rows as [|row rows]; [contradiction|]. cbn [map fold_left].
    rewrite (Hkeys row) by now left. rewrite (union_labels_fresh _ Hnd).
    assert (G : forall l, (forall x, In x l -> In x rows) ->
                          fold_left (fun acc r => pd.union_labels acc (map fst r))
                                    (map (fun row => combine cols row) l) cols = cols).
    { induction l as [|x l IH]; intros Hl; [reflexivity|]. cbn [map fold_left].
      rewrite (Hkeys x) by (right; apply Hl; now left).
      rewrite union_labels_known by auto. apply IH. intros y Hy. apply Hl. now right. }
    now apply G. }
  unfold pd.from_records. rewrite Hcols. f_equal.
  rewrite map_map. rewrite <- (map_id rows) at 2. apply map_ext_in.
  intros row Hrow. rewrite Forall_forall in Hrect.
  apply (reindex_row_own cols row Hnd (Hrect row Hrow)).
Qed.

(** A frame with a row, whose labels do not repeat, comes back from its
    records as it was: [pd.DataFrame(df.to_dict('records'))] is [df].  A
    frame without rows has no records, and comes back without its labels. *)
Theorem records_round_trip (df : pd.DataFrame) :
  (NoDup (pd.columns df) -> rectangular df -> pd.rows df <> [] ->
   pd.from_records (pd.to_dict_records df) = df)
  /\ (pd.rows df = [] ->
      pd.to_dict_records df = []
      /\ pd.from_records (pd.to_dict_records df) = pd.DataFrame_empty).
Proof.
  split.
  - intros Hnd Hrect Hne.
    assert (Hrec : pd.to_dict_records df
                   = map (fun row => combine (pd.columns df) row) (pd.rows df)).
    { unfold pd.to_dict_records. apply map_ext. intros row.
      apply dict_of_pairs_NoDup. now apply NoDup_map_fst_combine. }
    rewrite Hrec, (from_records_of_rows _ _ Hnd Hne Hrect). now destruct df.
  - intros Hrows. unfold pd.to_dict_records. rewrite Hrows. split; reflexivity.
Qed.

(* ===================================================================== *)
(** ** The unicode correction of plain and of escaped text *)
(* ===================================================================== *)

Lemma holds_from_spec (P : N -> bool) (fuel : nat) (start x : N) :
  holds_from P fuel start = true ->
  (start <= x < start + N.of_nat fuel)%N -> P x = true.
Proof.
  revert start. induction fuel as [|fuel IH]; intros start H Hx.
  - simpl in Hx. lia.
  - cbn [holds_from] in H. apply andb_prop in H. destruct H as [H0 H].
    destruct (N.eq_dec x start) as [->|Hne]; [assumption|].
    apply (IH (N.succ start)); [assumption|lia].
Qed.

(** The four digits [json.dumps] writes are read back as the number. *)
Lemma decode_hex4 (n : N) :
  (n < 65536)%N ->
  exists h1 h2 h3 h4,
    hex4 n = [h1; h2; h3; h4] /\ decode_uXXXX h1 h2 h3 h4 = Some n.
Proof.
  intros Hn. unfold hex4. eexists _, _, _, _. split; [reflexivity|].
  pose (P := fun n => match decode_uXXXX (hexdigit ((n / 4096) mod 16))
                                         (hexdigit ((n / 256) mod 16))
                                         (hexdigit ((n / 16) mod 16))
                                         (hexdigit (n mod 16)) with
                       | Some m => (m =? n)%N
                       | None => false
                       end).
  assert (H : P n = true).
  { apply (holds_from_spec P (N.to_nat 65536) 0).
    - vm_compute. reflexivity.
    - rewrite N2Nat.id. lia. }
  unfold P in H. destruct (decode_uXXXX _ _ _ _) as [m|]; [|discriminate].
  apply N.eqb_eq in H. now subst.
Qed.

Lemma land_low (a b : N) : (b < 1024)%N -> N.land (a * 1024) b = 0%N.
Proof.
  intros Hb. apply N.bits_inj_0. intros n. rewrite N.land_spec.
  change 1024%N with (2 ^ 10)%N in *. rewrite <- N.shiftl_mul_pow2.
  destruct (N.lt_ge_cases n 10) as [Hn|Hn].
  - now rewrite N.shiftl_spec_low.
  - replace (N.testbit b n) with false; [apply andb_false_r|].
    symmetry. destruct (N.eq_dec b 0) as [->|Hb0]; [apply N.bits_0|].
    apply N.bits_above_log2. apply N.lt_le_trans with 10%N; [|assumption].
    apply N.log2_lt_pow2; [lia|exact Hb].
Qed.

Lemma lor_low (a b : N) : (b < 1024)%N -> N.lor (a * 1024) b = (a * 1024 + b)%N.
Proof.
  intros Hb. pose proof (land_low a b Hb) as H.
  now rewrite (N.add_nocarry_lxor _ _ H), (N.lxor_lor _ _ H).
Qed.

(** The two halves are surrogates, and are joined to the code point again. *)
Lemma halves_of (c : char) :
  (65536 <= c < 1114112)%N ->
  (high_half c < 65536)%N /\ (low_half c < 65536)%N
  /\ is_high_surrogate (high_half c) = true
  /\ is_low_surrogate (low_half c) = true
  /\ join_surrogates (high_half c) (low_half c) = c.
Proof.
  intros Hc. unfold high_half, low_half, join_surrogates.
  set (v := (c - 65536)%N).
  assert (Hv : (v < 1048576)%N) by (unfold v; lia).
  change 1023%N with (N.ones 10). rewrite !N.land_ones, N.shiftr_div_pow2.
  change (2 ^ 10)%N with 1024%N.
  pose proof (N.div_mod v 1024) as Hdm.
  assert (Hr : (v mod 1024 < 1024)%N) by (apply N.mod_lt; discriminate).
  assert (Hq : (v / 1024 < 1024)%N) by (apply N.Div0.div_lt_upper_bound; exact Hv).
  rewrite (N.mod_small (v / 1024) 1024 Hq).
  change 55296%N with (54 * 1024)%N at 1 2 3. change 56320%N with (55 * 1024)%N at 1 2 3.
  rewrite !lor_low by assumption.
  set (q := (v / 1024)%N) in *. set (r := (v mod 1024)%N) in *.
  assert (Hhi : (54 * 1024 + q - 55296 = q)%N) by lia.
  assert (Hlo : (55 * 1024 + r - 56320 = r)%N) by lia.
  unfold is_high_surrogate, is_low_surrogate.
  repeat split; try lia.
  - apply andb_true_intro. split; apply N.leb_le; lia.
  - apply andb_true_intro. split; apply N.leb_le; lia.
  - rewrite Hhi, Hlo, N.shiftl_mul_pow2. change (2 ^ 10)%N with 1024%N.
    rewrite lor_low by assumption. unfold v in *. lia.
Qed.

Lemma scanstring_literal (c : char) (t : str) :
  (32 <= c)%N -> c <> 34%N -> c <> 92%N ->
  scanstring (c :: t) = option_map (cons c) (scanstring t).
Proof.
  intros H32 H34 H92. cbn [scanstring].
  apply N.eqb_neq in H34, H92. rewrite H34, H92.
  apply N.ltb_ge in H32. now rewrite H32.
Qed.

Lemma scanstring_escape (h1 h2 h3 h4 : char) (u : N) (t : str) :
  decode_uXXXX h1 h2 h3 h4 = Some u ->
  is_high_surrogate u = false ->
  scanstring (92 :: 117 :: h1 :: h2 :: h3 :: h4 :: t)%N
  = option_map (cons u) (scanstring t).
Proof.
  intros Hdec Hhigh. cbn [scanstring].
  change (92 =? 34)%N with false. change (92 <? 32)%N with false.
  change (92 =? 92)%N with true. change (117 =? 117)%N with true. cbv iota.
  rewrite Hdec, Hhigh.
  destruct t as [|b [|v [|g1 [|g2 [|g3 [|g4 rest]]]]]]; reflexivity.
Qed.

Lemma scanstring_pair (h1 h2 h3 h4 g1 g2 g3 g4 : char) (u u2 : N) (t : str) :
  decode_uXXXX h1 h2 h3 h4 = Some u ->
  is_high_surrogate u = true ->
  decode_uXXXX g1 g2 g3 g4 = Some u2 ->
  is_low_surrogate u2 = true ->
  scanstring (92 :: 117 :: h1 :: h2 :: h3 :: h4 :: 92 :: 117 :: g1 :: g2 :: g3 :: g4 :: t)%N
  = option_map (cons (join_surrogates u u2)) (scanstring t).
Proof.
  intros Hdec Hhigh Hdec2 Hlow. cbn [scanstring].
  change (92 =? 34)%N with false. change (92 <? 32)%N with false.
  change (92 =? 92)%N with true. change (117 =? 117)%N with true. cbv iota.
  rewrite Hdec, Hhigh. cbn [andb]. now rewrite Hdec2, Hlow.
Qed.

(** What [json.dumps] writes for a character is read back as the character. *)
Lemma scanstring_encode_char (c : char) (t : str) :
  scalar_value c = true ->
  scanstring (encode_char c ++ t) = option_map (cons c) (scanstring t).
Proof.
  unfold scalar_value. intros Hc. apply andb_prop in Hc. destruct Hc as [Hmax Hsur].
  apply N.ltb_lt in Hmax. unfold encode_char.
  destruct (N.eqb_spec c 34) as [->|H34]; [reflexivity|].
  destruct (N.eqb_spec c 92) as [->|H92]; [reflexivity|].
  destruct (N.eqb_spec c 10) as [->|H10]; [reflexivity|].
  destruct (N.eqb_spec c 13) as [->|H13]; [reflexivity|].
  destruct (N.eqb_spec c 9) as [->|H9]; [reflexivity|].
  destruct (N.eqb_spec c 12) as [->|H12]; [reflexivity|].
  destruct (N.eqb_spec c 8) as [->|H8]; [reflexivity|].
  destruct (N.leb_spec 32 c) as [H32|H32]; cbn [andb].
  - destruct (N.leb_spec c 126) as [H126|H126].
    + now apply scanstring_literal.
    + destruct (N.ltb_spec c 65536) as [Hbmp|Hbmp].
      * destruct (decode_hex4 c Hbmp) as [h1 [h2 [h3 [h4 [-> Hdec]]]]].
        apply (scanstring_escape _ _ _ _ _ _ Hdec).
        unfold is_high_surrogate.
        destruct (N.leb_spec 55296 c); [|reflexivity].
        destruct (N.leb_spec c 56319); [|reflexivity].
        exfalso. destruct (N.leb_spec 55296 c); [|lia].
        destruct (N.leb_spec c 57343); [discriminate Hsur|lia].
      * destruct (halves_of c (conj Hbmp Hmax)) as [Hhi [Hlo [Hhigh [Hlow Hjoin]]]].
        fold (high_half c). fold (low_half c).
        destruct (decode_hex4 _ Hhi) as [h1 [h2 [h3 [h4 [-> Hdec]]]]].
        destruct (decode_hex4 _ Hlo) as [g1 [g2 [g3 [g4 [-> Hdec2]]]]].
        rewrite <- Hjoin at 1.
        apply (scanstring_pair _ _ _ _ _ _ _ _ _ _ _ Hdec Hhigh Hdec2 Hlow).
  - assert (Hbmp : (c < 65536)%N) by lia.
    destruct (N.ltb_spec c 65536); [|lia].
    destruct (decode_hex4 c Hbmp) as [h1 [h2 [h3 [h4 [-> Hdec]]]]].
    apply (scanstring_escape _ _ _ _ _ _ Hdec).
    unfold is_high_surrogate. destruct (N.leb_spec 55296 c); [lia|reflexivity].
Qed.

(** [json.loads(json.dumps(s))] is [s] for a text without surrogates. *)
Lemma scanstring_encoded (s : str) :
  forallb scalar_value s = true ->
  scanstring (encode_basestring_ascii s) = Some s.
Proof.
  unfold encode_basestring_ascii.
  induction s as [|c s IH]; intros H; [reflexivity|].
  cbn [forallb] in H. apply andb_prop in H. destruct H as [Hc Hs].
  cbn [flat_map]. rewrite (scanstring_encode_char _ _ Hc), IH by assumption.
  reflexivity.
Qed.

Lemma corrected_literal_plain (s : str) :
  contains (txt "/uni") s = false ->
  corrected_literal s = encode_basestring_ascii s.
Proof.
  induction s as [|c s IH]; intros H; [reflexivity|].
  cbn [contains] in H. apply orb_false_iff in H. destruct H as [Hhere Hrest].
  destruct (N.eq_dec c 47) as [->|Hne].
  - rewrite corrected_literal_slash.
    + rewrite IH by assumption. reflexivity.
    + exact Hhere.
  - rewrite (corrected_literal_other _ _ Hne), IH by assumption. reflexivity.
Qed.

Lemma unicode_correction_plain (s : str) : plain s -> unicode_correction s = Some s.
Proof.
  intros [Hs Hu]. unfold unicode_correction.
  change (replace (txt "/uni") (txt "\u") (encode_basestring_ascii s))
    with (corrected_literal s).
  rewrite (corrected_literal_plain _ Hu). now apply scanstring_encoded.
Qed.

Lemma mapM_same {A : Type} (f : A -> outcome A) (l : list A) :
  (forall x, In x l -> f x = Returned x) -> mapM f l = Returned l.
Proof.
  intros H. rewrite (mapM_map f (fun x => x)) by assumption. now rewrite map_id.
Qed.

Lemma correct_record_plain (r : record) :
  plain_record r -> correct_record r = Returned r.
Proof.
  intros [Hnd Hr]. unfold correct_record.
  rewrite mapM_same.
  - unfold bind. now rewrite dict_of_pairs_NoDup.
  - intros [k v] Hkv. rewrite Forall_forall in Hr.
    destruct (Hr _ Hkv) as [Hk Hv]. cbn [fst snd] in *.
    unfold correct_text. rewrite (unicode_correction_plain _ Hk). cbn [decoded bind].
    destruct v as [s| |]; cbn [correct_cell]; try reflexivity.
    unfold correct_text. now rewrite (unicode_correction_plain _ Hv).
Qed.

Lemma correct_table_plain (t : table) :
  plain_table t -> correct_table t = Returned t.
Proof.
  intros [Hcols Hdata]. unfold correct_table, correct_field.
  destruct t as [[cols|] [records|]]; cbn [columns data] in *.
  - rewrite mapM_same.
    + cbn [bind]. rewrite mapM_same; [reflexivity|].
      intros r Hr. rewrite Forall_forall in Hdata. now apply correct_record_plain, Hdata.
    + intros s Hs. rewrite Forall_forall in Hcols. unfold correct_text.
      now rewrite (unicode_correction_plain _ (Hcols s Hs)).
  - rewrite mapM_same; [reflexivity|].
    intros s Hs. rewrite Forall_forall in Hcols. unfold correct_text.
    now rewrite (unicode_correction_plain _ (Hcols s Hs)).
  - cbn [bind]. rewrite mapM_same; [reflexivity|].
    intros r Hr. rewrite Forall_forall in Hdata. now apply correct_record_plain, Hdata.
  - reflexivity.
Qed.

(** The round trip through JSON of step 1 changes nothing in an input
    without ['/uni']: a text without surrogates is read back as it was
    written, and so is every table whose labels, keys and cells are such
    texts. *)
Theorem unicode_correction_leaves_plain_input (tables_json : list table) :
  (forall s, forallb scalar_value s = true ->
             scanstring (encode_basestring_ascii s) = Some s)
  /\ (forall s, plain s -> unicode_correction s = Some s)
  /\ (Forall plain_table tables_json ->
      unicode_corrected tables_json = Returned tables_json).
Proof.
  split; [apply scanstring_encoded|]. split; [apply unicode_correction_plain|].
  intros H. unfold unicode_corrected. apply mapM_same.
  intros t Ht. rewrite Forall_forall in H. now apply correct_table_plain, H.
Qed.

Lemma startswith_uni_app (p r : str) :
  startswith (txt "uni") p = false ->
  startswith (txt "uni") (p ++ 47%N :: r) = false.
Proof.
  change (txt "uni") with [117; 110; 105]%N.
  destruct p as [|a [|b [|c p]]]; cbn [app startswith]; intros H;
    repeat match goal with
           | |- context [(?x =? ?y)%N] => destruct (N.eqb_spec x y)
           end;
    cbn [andb] in *; try reflexivity; try lia; subst;
    cbn [startswith] in H;
    repeat match type of H with
           | context [(?x =? ?x)%N] => rewrite N.eqb_refl in H
           end;
    cbn [andb] in H; try discriminate H.
Qed.

Lemma scanstring_encoded_app (p t : str) :
  forallb scalar_value p = true ->
  scanstring (encode_basestring_ascii p ++ t) = option_map (app p) (scanstring t).
Proof.
  unfold encode_basestring_ascii.
  induction p as [|c p IH]; intros H.
  - cbn [flat_map app]. now destruct (scanstring t).
  - cbn [forallb] in H. apply andb_prop in H. destruct H as [Hc Hp].
    cbn [flat_map]. rewrite <- app_assoc, (scanstring_encode_char _ _ Hc), IH by assumption.
    now destruct (scanstring t).
Qed.

Lemma decode_is_hex (h1 h2 h3 h4 : char) (u : N) :
  decode_uXXXX h1 h2 h3 h4 = Some u ->
  is_hex h1 = true /\ is_hex h2 = true /\ is_hex h3 = true /\ is_hex h4 = true.
Proof.
  unfold decode_uXXXX, is_hex.
  destruct (unhex h1), (unhex h2), (unhex h3), (unhex h4); try discriminate.
  auto.
Qed.

(** The serialisation, after the replacement, of a text with one escape. *)
Lemma corrected_literal_escape (p q : str) (h1 h2 h3 h4 : char) (u : N) :
  contains (txt "/uni") p = false ->
  contains (txt "/uni") q = false ->
  decode_uXXXX h1 h2 h3 h4 = Some u ->
  corrected_literal (p ++ txt "/uni" ++ h1 :: h2 :: h3 :: h4 :: q)
  = encode_basestring_ascii p
    ++ (92 :: 117 :: h1 :: h2 :: h3 :: h4 :: encode_basestring_ascii q)%N.
Proof.
  intros Hp Hq Hdec.
  destruct (decode_is_hex _ _ _ _ _ Hdec) as [H1 [H2 [H3 H4]]].
  destruct (is_hex_plain _ H1) as [N1 P1]. destruct (is_hex_plain _ H2) as [N2 P2].
  destruct (is_hex_plain _ H3) as [N3 P3]. destruct (is_hex_plain _ H4) as [N4 P4].
  induction p as [|c p IH].
  - cbn [app]. rewrite corrected_literal_uni.
    rewrite (corrected_literal_other _ _ N1), P1.
    rewrite (corrected_literal_other _ _ N2), P2.
    rewrite (corrected_literal_other _ _ N3), P3.
    rewrite (corrected_literal_other _ _ N4), P4.
    now rewrite (corrected_literal_plain _ Hq).
  - cbn [contains] in Hp. apply orb_false_iff in Hp. destruct Hp as [Hhere Hrest].
    cbn [app]. unfold encode_basestring_ascii at 1. cbn [flat_map].
    fold (encode_basestring_ascii p). rewrite <- app_assoc, <- (IH Hrest).
    destruct (N.eq_dec c 47) as [->|Hne].
    + apply corrected_literal_slash.
      change (txt "/uni" ++ h1 :: h2 :: h3 :: h4 :: q)
        with (47%N :: txt "uni" ++ h1 :: h2 :: h3 :: h4 :: q).
      apply startswith_uni_app. exact Hhere.
    + apply (corrected_literal_other _ _ Hne).
Qed.

(** A well-formed escape in an otherwise plain text is replaced by the
    character it names: ['/uni'] and four hexadecimal digits (of either
    case) that are not those of a high surrogate become the code point with
    that number, and nothing else changes. *)
Theorem escape_is_decoded (p q : str) (h1 h2 h3 h4 : char) (u : N) :
  plain p -> plain q ->
  decode_uXXXX h1 h2 h3 h4 = Some u ->
  is_high_surrogate u = false ->
  unicode_correction (p ++ txt "/uni" ++ h1 :: h2 :: h3 :: h4 :: q)
  = Some (p ++ u :: q).
Proof.
  intros [Hp Hpu] [Hq Hqu] Hdec Hhigh. unfold unicode_correction.
  change (replace (txt "/uni") (txt "\u")
                  (encode_basestring_ascii (p ++ txt "/uni" ++ h1 :: h2 :: h3 :: h4 :: q)))
    with (corrected_literal (p ++ txt "/uni" ++ h1 :: h2 :: h3 :: h4 :: q)).
  rewrite (corrected_literal_escape _ _ _ _ _ _ _ Hpu Hqu Hdec).
  rewrite (scanstring_encoded_app _ _ Hp).
  rewrite (scanstring_escape _ _ _ _ _ _ Hdec Hhigh).
  now rewrite (scanstring_encoded _ Hq).
Qed.

(** *** C9: the first table *)

(** C9 (amended).  In a run that returns a ledger, the first table is in
    the ledger as step 1 read it back, missing cells apart.  What step 1
    read back is the correction of the first table of the input, and that
    table itself when it is plain.  The first labels of the ledger are the
    keys of its rows (not its reported columns), in order of first
    appearance, and the first rows of the ledger are all its rows, in order,
    each cell in place with [""] for a missing one and one more [""] for
    every label that later tables add.  So no row of it is taken as a
    header, no label of it is replaced, and an unnamed column stays. *)
Theorem C9_first_table_enters_as_ingested
  (tables_json rest : list table) (first_table : table)
  (master_headers : list str) (records : list record) (r : result) :
  unicode_corrected tables_json = Returned (first_table :: rest) ->
  find_master_headers first_table = Some master_headers ->
  data first_table = Some records ->
  process_tables_sequentially tables_json = Returned r ->
  let first_df := pd.fillna [] (pd.from_records records) in
  (exists raw_first raw_rest,
     tables_json = raw_first :: raw_rest
     /\ correct_table raw_first = Returned first_table
     /\ (plain_table raw_first -> first_table = raw_first))
  /\ hd_error (all_processed master_headers records rest) = Some first_df
  /\ (forall k, In k (pd.columns first_df) <->
                exists row, In row records /\ In k (map fst row))
  /\ pd.len first_df = length records
  /\ (exists extra later_rows,
        pd.columns (final_df r) = pd.columns first_df ++ extra
        /\ pd.rows (final_df r) =
           map (fun row => row ++ repeat (Text []) (length extra)) (pd.rows first_df)
           ++ later_rows)
  /\ (In [] (pd.columns first_df) -> In [] (pd.columns (final_df r))).
Proof.
  intros Hjson Hmaster Hdata Hrun first_df.
  split.
  { unfold unicode_corrected in Hjson.
    destruct tables_json as [|raw_first raw_rest]; [discriminate|].
    exists raw_first, raw_rest. split; [reflexivity|].
    cbn [mapM] in Hjson. unfold bind in Hjson.
    destruct (correct_table raw_first) as [corrected|e] eqn:Hfirst; [|discriminate].
    destruct (mapM correct_table raw_rest) as [others|e]; [|discriminate].
    inversion Hjson. subst. split; [reflexivity|].
    intros Hplain. apply correct_table_plain in Hplain. congruence. }
  rewrite (run_returned _ _ _ _ _ _ Hjson Hmaster Hdata Hrun).
  unfold result_of. cbn [final_df]. unfold all_processed. fold first_df.
  assert (Hfirst : exists extra later_rows,
             pd.columns (ledger (first_df :: process_subsequent master_headers rest))
             = pd.columns first_df ++ extra
             /\ pd.rows (ledger (first_df :: process_subsequent master_headers rest)) =
                map (fun row => row ++ repeat (Text []) (length extra)) (pd.rows first_df)
                ++ later_rows).
  { apply ledger_first_rows.
    - apply first_frame_NoDup.
    - apply fillna_all_text.
    - apply fillna_rectangular, from_records_rectangular. }
  split; [reflexivity|]. split; [apply from_records_columns_In|].
  split; [unfold first_df; now rewrite fillna_len, from_records_len|].
  split; [exact Hfirst|].
  destruct Hfirst as [extra [later_rows [Hcols _]]].
  rewrite Hcols. intros H. apply in_or_app. now left.
Qed.

(* ===================================================================== *)
(** ** The sample transactions *)
(* ===================================================================== *)

Context {R : SeriesText}.

Lemma startswith_app (p t : str) : startswith p (p ++ t) = true.
Proof.
  induction p as [|a p IH]; [now destruct t|].
  cbn [app startswith]. now rewrite N.eqb_refl, IH.
Qed.

Lemma startswith_inv (p s : str) :
  startswith p s = true -> exists t, s = p ++ t.
Proof.
  revert s. induction p as [|a p IH]; intros s H.
  - now exists s.
  - destruct s as [|b s]; [discriminate|]. cbn [startswith] in H.
    apply andb_prop in H. destruct H as [Hab Hp]. apply N.eqb_eq in Hab. subst b.
    destruct (IH s Hp) as [t ->]. now exists t.
Qed.

(** [needle in hay] says that [hay] is [needle] between two texts. *)
Lemma contains_iff (needle hay : str) :
  contains needle hay = true <-> exists pre post, hay = pre ++ needle ++ post.
Proof.
  split.
  - induction hay as [|c hay IH]; cbn [contains]; intros H.
    + rewrite orb_false_r in H. destruct (startswith_inv _ _ H) as [t Ht].
      now exists [], t.
    + apply orb_prop in H. destruct H as [H|H].
      * destruct (startswith_inv _ _ H) as [t Ht]. now exists [], t.
      * destruct (IH H) as [pre [post ->]]. now exists (c :: pre), post.
  - intros [pre [post ->]]. induction pre as [|c pre IH].
    + cbn [app]. destruct (needle ++ post) eqn:E; cbn [contains];
        rewrite <- E, startswith_app; reflexivity.
    + cbn [app contains]. rewrite IH. apply orb_true_r.
Qed.

Lemma contains_trans (a b c : str) :
  contains a b = true -> contains b c = true -> contains a c = true.
Proof.
  rewrite !contains_iff. intros [pre [post ->]] [pre' [post' ->]].
  exists (pre' ++ pre), (post ++ post'). now rewrite <- !app_assoc.
Qed.

Lemma lower_nil : lower [] = [].
Proof. reflexivity. Qed.

Lemma find_column_some (df : pd.DataFrame) (names : list str) (col : str) :
  _find_column df names = Some col ->
  In col (pd.columns df)
  /\ exists name, In name names /\ contains (lower name) (lower col) = true.
Proof.
  induction names as [|name names IH]; cbn [_find_column]; [discriminate|].
  destruct (find _ (pd.columns df)) as [c|] eqn:Hf.
  - intros H. inversion H. subst c. apply find_some in Hf. destruct Hf as [Hin Hc].
    split; [assumption|]. exists name. split; [now left|assumption].
  - intros H. destruct (IH H) as [Hin [n [Hn Hc]]].
    split; [assumption|]. exists n. split; [now right|assumption].
Qed.

Lemma find_column_none (df : pd.DataFrame) (names : list str) :
  _find_column df names = None <->
  forall name col, In name names -> In col (pd.columns df) ->
                   contains (lower name) (lower col) = false.
Proof.
  induction names as [|name names IH]; cbn [_find_column].
  - split; [intros _ name col []|reflexivity].
  - destruct (find _ (pd.columns df)) as [c|] eqn:Hf.
    + split; [discriminate|]. intros H. apply find_some in Hf.
      destruct Hf as [Hin Hc]. rewrite (H name c) in Hc; [discriminate|now left|assumption].
    + rewrite IH. split.
      * intros H n col [<-|Hn] Hcol; [|now apply H].
        apply (find_none _ _ Hf col Hcol).
      * intros H n col Hn Hcol. apply H; [now right|assumption].
Qed.

Lemma find_nowhere {A : Type} (p : A -> bool) (l : list A) :
  (forall y, In y l -> p y = false) -> find p l = None.
Proof.
  induction l as [|y l IH]; intros H; cbn [find]; [reflexivity|].
  rewrite (H y) by now left. apply IH. intros z Hz. apply H. now right.
Qed.

Lemma find_first {A : Type} (p : A -> bool) (before after : list A) (x : A) :
  (forall y, In y before -> p y = false) -> p x = true ->
  find p (before ++ x :: after) = Some x.
Proof.
  intros Hb Hx. induction before as [|y before IH]; cbn [app find].
  - now rewrite Hx.
  - rewrite (Hb y) by now left. apply IH. intros z Hz. apply Hb. now right.
Qed.

(** [_find_column] answers with a label of the frame, or with nothing when
    no label contains any of the names (lower-cased on both sides).  The
    names are tried in their order and, for a name, the labels in theirs: a
    name that an earlier name is part of is never the one that decides, so
    that of the names of the date column only ['date'] counts. *)
Theorem find_column_outcome (df : pd.DataFrame) (names : list str) :
  (forall col, _find_column df names = Some col ->
     In col (pd.columns df)
     /\ exists name, In name names /\ contains (lower name) (lower col) = true)
  /\ (_find_column df names = None <->
      forall name col, In name names -> In col (pd.columns df) ->
                       contains (lower name) (lower col) = false)
  /\ (forall before name after labels_before col labels_after,
        names = before ++ name :: after ->
        pd.columns df = labels_before ++ col :: labels_after ->
        (forall n c, In n before -> In c (pd.columns df) ->
                     contains (lower n) (lower c) = false) ->
        (forall c, In c labels_before -> contains (lower name) (lower c) = false) ->
        contains (lower name) (lower col) = true ->
        _find_column df names = Some col)
  /\ (forall name others,
        names = name :: others ->
        (forall n, In n others -> contains (lower name) (lower n) = true) ->
        _find_column df names = _find_column df [name])
  /\ _find_column df (map txt ["date"; "transaction_date"; "trans_date"])
     = _find_column df [txt "date"].
Proof.
  assert (Hdead : forall name others,
             (forall n, In n others -> contains (lower name) (lower n) = true) ->
             _find_column df (name :: others) = _find_column df [name]).
  { intros name others Hpart. cbn [_find_column].
    destruct (find _ (pd.columns df)) as [c|] eqn:Hf; [reflexivity|].
    apply find_column_none. intros n col Hn Hcol.
    destruct (contains (lower n) (lower col)) eqn:Hc; [|reflexivity].
    rewrite <- (find_none _ _ Hf col Hcol).
    symmetry. apply (contains_trans _ (lower n)); [now apply Hpart|assumption]. }
  split; [intros col; apply find_column_some|].
  split; [apply find_column_none|]. split; [|split].
  - intros before name after labels_before col labels_after -> Hcols Hbefore Hlabels Hcol.
    induction before as [|n before IH]; cbn [app _find_column].
    + rewrite Hcols. now rewrite (find_first _ _ _ _ Hlabels Hcol).
    + replace (find (fun c => contains (lower n) (lower c)) (pd.columns df)) with (@None str).
      * apply IH. intros m c Hm. apply Hbefore. now right.
      * symmetry. apply find_nowhere. intros c Hc. apply Hbefore; [now left|assumption].
  - intros name others ->. apply Hdead.
  - apply Hdead. intros n [<-|[<-|[]]]; reflexivity.
Qed.

Lemma find_column_found (df : pd.DataFrame) (names : list str) (col : str) :
  Forall (fun name => lower name <> []) names ->
  _find_column df names = Some col -> found (Some col) = Some col.
Proof.
  intros Hnames H. destruct (find_column_some _ _ _ H) as [_ [name [Hname Hc]]].
  destruct col as [|c col]; [|reflexivity].
  rewrite Forall_forall in Hnames. specialize (Hnames name Hname).
  rewrite lower_nil in Hc. destruct (lower name); [contradiction|discriminate].
Qed.

Lemma found_of_names (df : pd.DataFrame) (names : list string) :
  Forall (fun name => lower (txt name) <> []) names ->
  found (_find_column df (map txt names)) = _find_column df (map txt names).
Proof.
  intros Hnames. destruct (_find_column df (map txt names)) as [col|] eqn:H;
    [|reflexivity].
  apply (find_column_found df (map txt names)); [|assumption].
  apply Forall_forall. intros n Hn. apply in_map_iff in Hn. destruct Hn as [x [<- Hx]].
  rewrite Forall_forall in Hnames. now apply Hnames.
Qed.

Lemma find_column_no_columns (df : pd.DataFrame) (names : list str) :
  pd.columns df = [] -> _find_column df names = None.
Proof.
  intros Hc. induction names as [|name names IH]; cbn [_find_column]; [reflexivity|].
  rewrite Hc. cbn [find]. exact IH.
Qed.

Lemma filter_all {A : Type} (p : A -> bool) (l : list A) :
  (forall x, In x l -> p x = true) -> filter p l = l.
Proof.
  induction l as [|x l IH]; intros H; cbn [filter]; [reflexivity|].
  rewrite (H x) by now left. f_equal. apply IH. intros y Hy. apply H. now right.
Qed.

Lemma filter_length_le {A : Type} (p : A -> bool) (l : list A) :
  length (filter p l) <= length l.
Proof.
  induction l as [|x l IH]; cbn [filter]; [lia|].
  destruct (p x); simpl; lia.
Qed.

Lemma description_length (d : str) :
  length (firstn 50 d ++ (if (50 <? length d)%nat then txt "..." else [])) <= 53.
Proof.
  rewrite length_app, length_firstn.
  destruct (50 <? length d)%nat;
    [change (length (txt "...")) with 3|change (length (@nil N)) with 0]; lia.
Qed.

(** The samples are taken from the first [max_samples] rows, one for each
    of them when the frame has a date, a description or an amount column
    and none at all when it has none of the three; a sample has the keys of
    the columns that were found, in the order date, description, amount, and
    its description has at most 50 characters and three dots. *)
Theorem sample_transactions_outcome (df : pd.DataFrame) (max_samples : nat) :
  let date_col := _find_column df (map txt ["date"; "transaction_date"; "trans_date"]) in
  let desc_col :=
    _find_column df (map txt ["description"; "particulars"; "narration"; "details"]) in
  let amount_col := _find_column df (map txt ["amount"; "credit"; "debit"; "balance"]) in
  let samples := _extract_sample_transactions df max_samples in
  let keys :=
    match date_col with Some _ => [txt "date"] | None => [] end
    ++ match desc_col with Some _ => [txt "description"] | None => [] end
    ++ match amount_col with Some _ => [txt "amount"] | None => [] end in
  length samples <= Nat.min max_samples (pd.len df)
  /\ (keys = [] -> samples = [])
  /\ (keys <> [] -> length samples = Nat.min max_samples (pd.len df))
  /\ (forall sample, In sample samples -> map fst sample = keys)
  /\ (forall sample description,
        In sample samples ->
        dict_get sample (txt "description") = Some description ->
        length description <= 53).
Proof.
  intros date_col desc_col amount_col samples keys.
  assert (Hdate : found date_col = date_col)
    by (apply found_of_names; repeat constructor; intros H; vm_compute in H; discriminate H).
  assert (Hdesc : found desc_col = desc_col)
    by (apply found_of_names; repeat constructor; intros H; vm_compute in H; discriminate H).
  assert (Hamount : found amount_col = amount_col)
    by (apply found_of_names; repeat constructor; intros H; vm_compute in H; discriminate H).
  assert (Hkeys : forall i row,
             map fst (sample_of df date_col desc_col amount_col i row) = keys).
  { intros i row. unfold sample_of, keys. rewrite Hdate, Hdesc, Hamount.
    destruct date_col, desc_col, amount_col; reflexivity. }
  assert (Hlen : length (map (fun ir => sample_of df date_col desc_col amount_col
                                                  (fst ir) (snd ir))
                             (enumerate (firstn max_samples (pd.rows df))))
                 = Nat.min max_samples (pd.len df)).
  { rewrite length_map, enumerate_length, length_firstn. reflexivity. }
  unfold samples, _extract_sample_transactions.
  fold date_col. fold desc_col. fold amount_col.
  destruct (pd.empty df) eqn:He.
  - split; [simpl; lia|]. split; [reflexivity|].
    split; [|split; [intros sample []|intros sample description []]].
    intros Hk. unfold pd.empty in He. apply orb_prop in He.
    destruct He as [He|He]; apply Nat.eqb_eq in He.
    + exfalso. apply Hk. unfold keys, date_col, desc_col, amount_col.
      apply length_zero_iff_nil in He. now rewrite !(find_column_no_columns _ _ He).
    + unfold pd.len. rewrite He. now rewrite Nat.min_0_r.
  - split; [rewrite <- Hlen; apply filter_length_le|].
    split; [|split; [|split]].
    + intros Hk. clear Hlen.
      induction (enumerate (firstn max_samples (pd.rows df))) as [|ir l IH];
        [reflexivity|].
      cbn [map filter].
      destruct (sample_of df date_col desc_col amount_col (fst ir) (snd ir)) eqn:Hs;
        [exact IH|].
      pose proof (Hkeys (fst ir) (snd ir)) as Hm. rewrite Hs, Hk in Hm. discriminate.
    + intros Hk. rewrite filter_all; [exact Hlen|].
      intros sample Hin. apply in_map_iff in Hin. destruct Hin as [ir [<- _]].
      pose proof (Hkeys (fst ir) (snd ir)) as Hm.
      destruct (sample_of df date_col desc_col amount_col (fst ir) (snd ir));
        [|reflexivity].
      simpl in Hm. now rewrite <- Hm in Hk.
    + intros sample Hin. apply filter_In in Hin. destruct Hin as [Hin _].
      apply in_map_iff in Hin. destruct Hin as [ir [<- _]]. apply Hkeys.
    + intros sample description Hin. apply filter_In in Hin. destruct Hin as [Hin _].
      apply in_map_iff in Hin. destruct Hin as [ir [<- _]].
      unfold sample_of.
      destruct (found date_col), (found desc_col), (found amount_col);
        cbn [app dict_get];
        repeat match goal with
               | |- context [str_eqb (txt ?a) (txt ?b)] =>
                   evaluate (str_eqb (txt a) (txt b))
               end;
        intros H; inversion H; apply description_length.
Qed.

(* ===================================================================== *)
(** ** The requested formats and the conversions *)
(* ===================================================================== *)

Import Converter TableConvert.
Context {C : Clock} {W : Writers} {E : Services}.

Lemma split_no_sep (sep : char) (p : str) :
  ~ In sep p -> split sep p = [p].
Proof.
  induction p as [|c p IH]; intros H; cbn [split]; [reflexivity|].
  destruct (N.eqb_spec c sep) as [->|Hc]; [exfalso; apply H; now left|].
  rewrite IH; [reflexivity|]. intros Hin. apply H. now right.
Qed.

Lemma split_app (sep : char) (p t : str) :
  ~ In sep p -> split sep (p ++ sep :: t) = p :: split sep t.
Proof.
  induction p as [|c p IH]; intros H; cbn [app split].
  - now rewrite N.eqb_refl.
  - destruct (N.eqb_spec c sep) as [->|Hc]; [exfalso; apply H; now left|].
    rewrite IH; [reflexivity|]. intros Hin. apply H. now right.
Qed.

(** [','.join(parts).split(',')] gives the parts again. *)
Lemma split_join (parts : list str) :
  parts <> [] -> Forall (fun part => ~ In 44%N part) parts ->
  split 44 (join (txt ",") parts) = parts.
Proof.
  intros Hne Hparts. induction Hparts as [|p parts Hp Hparts IH]; [contradiction|].
  destruct parts as [|q parts].
  - cbn [join]. now apply split_no_sep.
  - change (join (txt ",") (p :: q :: parts))
      with (p ++ 44%N :: join (txt ",") (q :: parts)).
    rewrite (split_app _ _ _ Hp), IH; [reflexivity|discriminate].
Qed.

Lemma valid_format_cases (fmt : str) :
  In fmt valid_formats <-> fmt = txt "csv" \/ fmt = txt "excel" \/ fmt = txt "json".
Proof.
  unfold valid_formats. cbn [map In]. split.
  - intros [<-|[<-|[<-|[]]]]; auto.
  - intros [->|[->| ->]]; auto.
Qed.

Lemma valid_format_kept (fmt : str) :
  In fmt valid_formats ->
  lower (strip fmt) = fmt /\ mem fmt valid_formats = true /\ ~ In 44%N fmt.
Proof.
  intros H. apply valid_format_cases in H.
  destruct H as [->|[->| ->]]; (split; [reflexivity|]); (split; [reflexivity|]);
    cbn; intros H; repeat (destruct H as [H|H]; [discriminate H|]); exact H.
Qed.

Lemma requested_formats_valid (output_formats : str) :
  requested_formats output_formats <> []
  /\ Forall (fun fmt => In fmt valid_formats) (requested_formats output_formats).
Proof.
  unfold requested_formats. destruct (filter _ _) as [|fmt fmts] eqn:Hf.
  - split; [discriminate|]. constructor; [|constructor].
    apply valid_format_cases. auto.
  - split; [discriminate|]. rewrite <- Hf. apply Forall_forall. intros x Hx.
    apply filter_In in Hx. destruct Hx as [_ Hx]. now apply mem_In.
Qed.

(** The formats the route asks the converter for are never none and are
    all among [csv], [excel] and [json]: each part of the form field between
    commas counts when, stripped and lower-cased, it is one of the three,
    in the order and as often as it comes, and [csv] stands in when no part
    counts.  A list of valid formats joined by commas is read back as it
    is. *)
Theorem requested_formats_outcome (output_formats : str) :
  requested_formats output_formats <> []
  /\ Forall (fun fmt => In fmt valid_formats) (requested_formats output_formats)
  /\ (let counted := filter (fun fmt => mem fmt valid_formats)
                            (map (fun part => lower (strip part))
                                 (split 44 output_formats)) in
      (counted = [] -> requested_formats output_formats = [txt "csv"])
      /\ (counted <> [] -> requested_formats output_formats = counted))
  /\ (forall formats,
        formats <> [] -> Forall (fun fmt => In fmt valid_formats) formats ->
        requested_formats (join (txt ",") formats) = formats).
Proof.
  destruct (requested_formats_valid output_formats) as [Hne Hvalid].
  split; [exact Hne|]. split; [exact Hvalid|]. split.
  - cbv zeta. unfold requested_formats. destruct (filter _ _); split; congruence.
  - intros formats Hformats Hall. unfold requested_formats.
    rewrite split_join; [|assumption|].
    + assert (Hmap : map (fun fmt => lower (strip fmt)) formats = formats).
      { rewrite <- (map_id formats) at 2. apply map_ext_in. intros fmt Hfmt.
        rewrite Forall_forall in Hall. apply (valid_format_kept fmt (Hall fmt Hfmt)). }
      rewrite Hmap, filter_all.
      * destruct formats; [contradiction|reflexivity].
      * intros fmt Hfmt. rewrite Forall_forall in Hall.
        apply (valid_format_kept fmt (Hall fmt Hfmt)).
    + apply Forall_forall. intros fmt Hfmt. rewrite Forall_forall in Hall.
      apply (valid_format_kept fmt (Hall fmt Hfmt)).
Qed.

(** *** The texts of an Excel sheet *)





(** *** The conversions *)

Lemma dict_get_set_same {V : Type} (k : str) (v : V) (d : dict V) :
  dict_get (dict_set k v d) k = Some v.
Proof.
  induction d as [|[k0 v0] d IH]; cbn [dict_set dict_get].
  - now rewrite str_eqb_refl.
  - destruct (str_eqb k k0) eqn:He; cbn [dict_get].
    + now rewrite str_eqb_refl.
    + now rewrite He.
Qed.

Lemma dict_get_set_other {V : Type} (k k' : str) (v : V) (d : dict V) :
  k' <> k -> dict_get (dict_set k v d) k' = dict_get d k'.
Proof.
  intros Hne. apply str_eqb_neq in Hne.
  induction d as [|[k0 v0] d IH]; cbn [dict_set dict_get].
  - now rewrite Hne.
  - destruct (str_eqb k k0) eqn:He; cbn [dict_get].
    + apply str_eqb_eq in He. subst k0. now rewrite Hne.
    + now rewrite IH.
Qed.

Lemma dict_get_keys {V : Type} (d : dict V) (k : str) :
  dict_get d k <> None <-> In k (map fst d).
Proof.
  induction d as [|[k0 v0] d IH]; cbn [dict_get map In fst].
  - split; [intros H; now apply H|intros []].
  - destruct (str_eqb k k0) eqn:He.
    + apply str_eqb_eq in He. subst. split; [now left|discriminate].
    + rewrite IH. apply str_eqb_neq in He. split; [now right|].
      intros [H|H]; [now subst|assumption].
Qed.

Lemma str_eq_dec' (a b : str) : a = b \/ a <> b.
Proof.
  destruct (str_eqb a b) eqn:H; [left; now apply str_eqb_eq|right; now apply str_eqb_neq].
Qed.

(** One turn of the loop that wrote [v] under [name]. *)
Lemma dict_set_turn (name : string) (v : payload) (results : dict payload) :
  of_kind (txt name) v = true ->
  (forall k w, dict_get results k = Some w -> of_kind k w = true) ->
  forall k w, dict_get (dict_set (txt name) v results) k = Some w -> of_kind k w = true.
Proof.
  intros Hv Hall k w. destruct (str_eq_dec' k (txt name)) as [->|Hne].
  - rewrite dict_get_set_same. intros H. inversion H. now subst.
  - rewrite dict_get_set_other by assumption. apply Hall.
Qed.

Lemma convert_from_results (parsed_data : parsed) (formats : list str) :
  forall (turn : nat) (results results' : dict payload),
    convert_from turn parsed_data formats results = Returned results' ->
    ((forall k w, dict_get results k = Some w -> of_kind k w = true) ->
     forall k w, dict_get results' k = Some w -> of_kind k w = true)
    /\ (forall k, dict_get results' k <> None <->
                  dict_get results k <> None
                  \/ (In k valid_formats /\ exists fmt, In fmt formats /\ lower fmt = k)).
Proof.
  induction formats as [|fmt formats IH]; intros turn results results' Hrun.
  - cbn [convert_from] in Hrun. inversion Hrun. subst. split; [auto|].
    intros k. split; [auto|]. intros [H|[_ [fmt [[] _]]]]. exact H.
  - assert (Hstep : forall name v,
               str_eqb (lower fmt) (txt name) = true ->
               In (txt name) valid_formats ->
               of_kind (txt name) v = true ->
               convert_from (S turn) parsed_data formats (dict_set (txt name) v results)
               = Returned results' ->
               ((forall k w, dict_get results k = Some w -> of_kind k w = true) ->
                forall k w, dict_get results' k = Some w -> of_kind k w = true)
               /\ (forall k, dict_get results' k <> None <->
                             dict_get results k <> None
                             \/ (In k valid_formats
                                 /\ exists x, In x (fmt :: formats) /\ lower x = k))).
    { intros name v Hname Hvalid Hkind Hrest. apply str_eqb_eq in Hname.
      destruct (IH _ _ _ Hrest) as [Hkinds Hkeys]. split.
      - intros Hall. apply Hkinds. now apply dict_set_turn.
      - intros k. rewrite Hkeys. split.
        + intros [Hget|[Hv [x [Hx Hl]]]].
          * destruct (str_eq_dec' k (txt name)) as [->|Hne].
            -- right. split; [assumption|]. exists fmt. split; [now left|assumption].
            -- rewrite dict_get_set_other in Hget by assumption. now left.
          * right. split; [assumption|]. exists x. split; [now right|assumption].
        + intros [Hget|[Hv [x [[<-|Hx] Hl]]]].
          * left. destruct (str_eq_dec' k (txt name)) as [->|Hne].
            -- rewrite dict_get_set_same. discriminate.
            -- now rewrite dict_get_set_other.
          * left. rewrite <- Hl, Hname, dict_get_set_same. discriminate.
          * right. split; [assumption|]. now exists x. }
    cbn [convert_from] in Hrun.
    destruct (str_eqb (lower fmt) (txt "csv")) eqn:H1.
    { destruct (to_csv turn parsed_data) as [text|e]; [|discriminate].
      apply (Hstep "csv"%string (Csv text) H1);
        [apply valid_format_cases; auto|reflexivity|exact Hrun]. }
    destruct (str_eqb (lower fmt) (txt "excel")) eqn:H2.
    { destruct (to_excel turn parsed_data) as [b|e]; [|discriminate].
      apply (Hstep "excel"%string (Excel b) H2);
        [apply valid_format_cases; auto|reflexivity|exact Hrun]. }
    destruct (str_eqb (lower fmt) (txt "json")) eqn:H3.
    { destruct (to_json turn parsed_data) as [text|e]; [|discriminate].
      apply (Hstep "json"%string (Json text) H3);
        [apply valid_format_cases; auto|reflexivity|exact Hrun]. }
    destruct (IH _ _ _ Hrun) as [Hkinds Hkeys]. split; [exact Hkinds|].
    intros k. rewrite Hkeys. split.
    + intros [H|[Hv [x [Hx Hl]]]]; [now left|].
      right. split; [assumption|]. exists x. split; [now right|assumption].
    + intros [H|[Hv [x [[<-|Hx] Hl]]]]; [now left| |].
      * exfalso. apply valid_format_cases in Hv. rewrite <- Hl in Hv.
        destruct Hv as [Hv|[Hv|Hv]]; rewrite Hv in *;
          rewrite str_eqb_refl in *; discriminate.
      * right. split; [assumption|]. now exists x.
Qed.

(** Without transactions the loop raises at the first turn for a CSV or an
    Excel file, if not before. *)
Lemma convert_from_empty (parsed_data : parsed) (formats : list str) :
  transactions (emitted parsed_data) = [] ->
  forall (turn : nat) (results : dict payload),
    (exists fmt, In fmt formats
                 /\ (lower fmt = txt "csv" \/ lower fmt = txt "excel")) ->
    exists e, convert_from turn parsed_data formats results = Raised e.
Proof.
  intros Hnone.
  induction formats as [|fmt formats IH]; intros turn results [x [Hx Hfmt]];
    [contradiction|].
  cbn [convert_from].
  destruct (str_eqb (lower fmt) (txt "csv")) eqn:H1.
  { unfold to_csv. rewrite Hnone. now exists ValueError. }
  destruct (str_eqb (lower fmt) (txt "excel")) eqn:H2.
  { unfold to_excel. rewrite Hnone. now exists ValueError. }
  assert (Hrest : exists y, In y formats
                            /\ (lower y = txt "csv" \/ lower y = txt "excel")).
  { destruct Hx as [<-|Hx]; [|now exists x].
    exfalso. destruct Hfmt as [Hf|Hf]; rewrite Hf in *.
    - rewrite str_eqb_refl in H1. discriminate.
    - rewrite str_eqb_refl in H2. discriminate. }
  destruct (str_eqb (lower fmt) (txt "json")) eqn:H3; [|now apply IH].
  destruct (to_json turn parsed_data) as [text|e] eqn:Hj; cbn [bind].
  - now apply IH.
  - now exists e.
Qed.

(** Asked for JSON alone the loop returns when the writer does at each of
    its turns, and then with the text of the last turn. *)
Lemma convert_from_json (parsed_data : parsed) (formats : list str) :
  Forall (fun fmt => fmt = txt "json") formats ->
  forall (turn : nat) (results : dict payload),
    (forall i, i < length formats ->
               exists text, json_writer (turn + i) parsed_data = Returned text) ->
    exists results', convert_from turn parsed_data formats results = Returned results'.
Proof.
  intros Hall. induction Hall as [|fmt formats -> _ IH]; intros turn results Hj.
  - now exists results.
  - cbn [convert_from].
    evaluate (str_eqb (lower (txt "json")) (txt "csv")).
    evaluate (str_eqb (lower (txt "json")) (txt "excel")).
    evaluate (str_eqb (lower (txt "json")) (txt "json")).
    unfold to_json. destruct (Hj 0) as [text Ht]; [cbn [length]; lia|].
    rewrite Nat.add_0_r in Ht. rewrite Ht. cbn [bind].
    apply IH. intros i Hi. destruct (Hj (S i)) as [t H]; [cbn [length]; lia|].
    exists t. now rewrite Nat.add_succ_comm.
Qed.

(** The conversions of a document.  Without transactions there is no CSV
    and no Excel file: both conversions raise [ValueError] before anything
    is handed to a library.  The Excel conversion raises nothing but
    [ValueError], returns nothing but bytes that begin with [PK], and
    writes a sheet of the transactions with their labels, one row for each,
    in which every cell is an ASCII text.  [convert_to_formats] has results
    for exactly the names among the three that were asked for, in any
    letter case, each of the kind of its name. *)
Theorem conversions_outcome (turn : nat) (parsed_data : parsed) (formats : list str) :
  let records := transactions (emitted parsed_data) in
  (records = [] ->
   to_csv turn parsed_data = Raised ValueError
   /\ to_excel turn parsed_data = Raised ValueError)
  /\ (forall e, to_excel turn parsed_data = Raised e -> e = ValueError)
  /\ (forall excel_bytes, to_excel turn parsed_data = Returned excel_bytes ->
        startswith (txt "PK") excel_bytes = true
        /\ records <> []
        /\ excel_writer turn (excel_sheet records) (account_info (emitted parsed_data))
                        (length records)
                        (option_map metadata_pages_processed (added parsed_data))
           = Returned excel_bytes)
  /\ (pd.columns (excel_sheet records) = pd.columns (pd.from_records records)
      /\ pd.len (excel_sheet records) = length records
      /\ Forall (Forall (fun v => exists s, v = Text s /\ Forall (fun c => (c < 128)%N) s))
                (pd.rows (excel_sheet records)))
  /\ (forall results,
        convert_to_formats parsed_data formats = Returned results ->
        (forall k, In k (map fst results) <->
                   In k valid_formats /\ exists fmt, In fmt formats /\ lower fmt = k)
        /\ (forall k v, dict_get results k = Some v -> of_kind k v = true)).
Proof.
  intros records. split; [|split; [|split; [|split]]].
  - intros Hnone. unfold to_csv, to_excel. fold records. rewrite Hnone. auto.
  - intros e. unfold to_excel. fold records.
    destruct records; [intros H; now inversion H|].
    destruct (excel_writer _ _ _ _ _) as [b|e']; [|intros H; now inversion H].
    destruct (length b =? 0)%nat; [intros H; now inversion H|].
    destruct (negb (startswith (txt "PK") b)); [intros H; now inversion H|discriminate].
  - intros b. unfold to_excel. fold records.
    destruct records as [|record others] eqn:Hrecords; [discriminate|].
    destruct (excel_writer _ _ _ _ _) as [b'|e'] eqn:Hw; [|discriminate].
    destruct (length b' =? 0)%nat; [discriminate|].
    destruct (startswith (txt "PK") b') eqn:Hpk; cbn [negb]; [|discriminate].
    intros H. inversion H. subst. repeat split; [assumption|discriminate].
  - unfold excel_sheet, pd.len. cbn [pd.columns pd.rows].
    split; [reflexivity|]. split.
    + unfold pd.fillna, pd.from_records. cbn [pd.rows]. now rewrite !length_map.
    + apply Forall_forall. intros row Hrow. apply in_map_iff in Hrow.
      destruct Hrow as [row0 [<- _]]. apply Forall_forall. intros v Hv.
      apply in_map_iff in Hv. destruct Hv as [v0 [<- _]].
      eexists. split; [reflexivity|]. apply Forall_forall. intros c Hc.
      unfold excel_text in Hc. apply filter_In in Hc. now apply N.ltb_lt.
  - intros results Hrun. unfold convert_to_formats in Hrun.
    destruct (convert_from_results _ _ _ _ _ Hrun) as [Hkinds Hkeys]. split.
    + intros k. rewrite <- dict_get_keys, Hkeys. cbn [dict_get]. split.
      * intros [H|H]; [contradiction|exact H].
      * now right.
    + apply Hkinds. intros k w H. discriminate.
Qed.

(** *** The upload *)

Ltac refold x :=
  repeat match goal with
         | H : _ |- _ => progress (fold x in H)
         end.

Lemma accepted_dec (file : UploadFile) :
  accepted file <->
  negb (match content_type file with
        | Some t => str_eqb t (txt "application/pdf")
        | None => false
        end) = false
  /\ (10 * 1024 * 1024 <? N.of_nat (length (file_content file)))%N = false.
Proof.
  unfold accepted. rewrite N.ltb_ge, negb_false_iff.
  destruct (content_type file) as [t|].
  - split; intros [H1 H2]; (split; [|exact H2]).
    + inversion H1. apply str_eqb_refl.
    + apply str_eqb_eq in H1. now rewrite H1.
  - split; intros [H1 H2]; discriminate.
Qed.

(** A call of the data base is made whatever comes of it, and raises what
    the data base raises. *)
Lemma await_cases (call : db_call) (before : list db_call) :
  (exists message, db before call = raises message
                   /\ await call before = (threw (Exception message), before ++ [call]))
  \/ (exists came, (forall message, db before call <> raises message)
                   /\ (came = true <-> db before call = row)
                   /\ await call before = (done came, before ++ [call])).
Proof.
  unfold await. destruct (db before call) as [| |message] eqn:Hdb.
  - right. exists true. repeat split; congruence.
  - right. exists false. repeat split; congruence.
  - left. now exists message.
Qed.

Lemma lift_returned {A B : Type} (a : A) (k : A -> action B) (before : list db_call) :
  and_then (lift (Returned a)) k before = k a before.
Proof. reflexivity. Qed.

Lemma lift_raised {A B : Type} (e : exn) (k : A -> action B) (before : list db_call) :
  and_then (lift (Raised e)) k before = (threw (Of e), before).
Proof. reflexivity. Qed.

(** The three calls after the conversions: made in their order up to the
    first that raises. *)
Lemma settle_cases (file : UploadFile) (current_user : UserResponse) (pages : nat)
  (r : result) (document : document) (before : list db_call) :
  let c1 := charge current_user pages in
  let c2 := credit_transaction file current_user pages in
  let c3 := completion r document pages in
  let out := settle file current_user uuid4 pages (parsed_data_of r document pages) before in
  (exists message, db before c1 = raises message
                   /\ out = (threw (Exception message), before ++ [c1]))
  \/ (answered before c1
      /\ exists message, db (before ++ [c1]) c2 = raises message
                         /\ out = (threw (Exception message), before ++ [c1; c2]))
  \/ (answered before c1 /\ answered (before ++ [c1]) c2
      /\ exists message, db (before ++ [c1; c2]) c3 = raises message
                         /\ out = (threw (Exception message), before ++ [c1; c2; c3]))
  \/ (answered before c1 /\ answered (before ++ [c1]) c2
      /\ answered (before ++ [c1; c2]) c3
      /\ exists came, out = (done came, before ++ [c1; c2; c3])).
Proof.
  intros c1 c2 c3 out.
  subst out c1 c2 c3.
  unfold settle, and_then, charge, credit_transaction, completion, answered. cbv zeta.
  match goal with
  | |- context [await ?c ?b] =>
      destruct (await_cases c b) as [[m [H1 ->]]|[came1 [H1 [_ ->]]]]
  end; [left; now exists m|].
  match goal with
  | |- context [await ?c ?b] =>
      destruct (await_cases c b) as [[m [H2 ->]]|[came2 [H2 [_ ->]]]]
  end; rewrite <- !app_assoc; cbn [app].
  { right. left. split; [assumption|]. now exists m. }
  match goal with
  | |- context [await ?c ?b] =>
      destruct (await_cases c b) as [[m [H3 ->]]|[came3 [H3 [_ ->]]]]
  end; rewrite <- !app_assoc in *; cbn [app] in *.
  { right. right. left. repeat (split; [assumption|]). now exists m. }
  right. right. right. repeat (split; [assumption|]). now exists came3.
Qed.

(** The [try] block: where it ends, and with which calls. *)
Lemma steps_cases (file : UploadFile) (output_formats config : str)
  (current_user : UserResponse) (before : list db_call) :
  let raw_tables_data := extract_tables_from_pdf (file_content file) config in
  let pages := pages_processed raw_tables_data in
  let out := convert_steps file config current_user (requested_formats output_formats)
                           uuid4 before in
  (exists message, error raw_tables_data = Some message
                   /\ out = (threw (Exception message), before))
  \/ (error raw_tables_data = None /\ (credits current_user < Z.of_nat pages)%Z
      /\ exists cause,
           out = (threw cause, before ++ [shortage current_user pages])
           /\ ((answered before (shortage current_user pages)
                /\ cause = payment_required current_user pages)
               \/ exists message,
                    db before (shortage current_user pages) = raises message
                    /\ cause = Exception message))
  \/ (error raw_tables_data = None /\ (Z.of_nat pages <= credits current_user)%Z
      /\ exists e, unconverted file output_formats config e
                   /\ out = (threw (Of e), before))
  \/ (error raw_tables_data = None /\ (Z.of_nat pages <= credits current_user)%Z
      /\ exists r document converted_data,
           converted file output_formats config r document converted_data
           /\ out = and_then (settle file current_user uuid4 pages
                                     (parsed_data_of r document pages))
                             (fun _ => respond (requested_formats output_formats) uuid4
                                               pages document converted_data)
                             before).
Proof.
  intros raw_tables_data pages out. subst out. unfold convert_steps.
  fold raw_tables_data. cbv zeta. fold pages.
  destruct (error raw_tables_data) as [message|] eqn:Herror;
    [left; now exists message|].
  destruct (credits current_user <? Z.of_nat pages)%Z eqn:Hcredits.
  { right. left. apply Z.ltb_lt in Hcredits. repeat (split; [trivial|]).
    unfold and_then. fold (shortage current_user pages).
    destruct (await_cases (shortage current_user pages) before)
      as [[m [H1 ->]]|[came [H1 [_ ->]]]].
    - exists (Exception m). split; [reflexivity|]. right. now exists m.
    - exists (payment_required current_user pages). split; [reflexivity|]. now left. }
  apply Z.ltb_ge in Hcredits. right. right.
  destruct (process_tables_sequentially (tables raw_tables_data)) as [r|e] eqn:Hrun.
  2:{ left. repeat (split; [trivial|]). exists e. split; [|reflexivity].
      unfold unconverted. fold raw_tables_data. now left. }
  rewrite lift_returned.
  destruct (convert_to_structured_format (final_df r) (Some (table_info r)))
    as [document|e] eqn:Hdoc.
  2:{ left. repeat (split; [trivial|]). exists e. split; [|reflexivity].
      unfold unconverted. fold raw_tables_data. right. exists r. split; [assumption|].
      now left. }
  rewrite lift_returned. fold (parsed_data_of r document pages).
  destruct (convert_to_formats (parsed_data_of r document pages)
                               (requested_formats output_formats))
    as [converted_data|e] eqn:Hconv.
  2:{ left. repeat (split; [trivial|]). exists e. split; [|reflexivity].
      unfold unconverted. fold raw_tables_data. right. exists r. split; [assumption|].
      right. exists document. split; assumption. }
  rewrite lift_returned.
  right. repeat (split; [trivial|]). exists r, document, converted_data.
  split; [|reflexivity]. unfold converted. fold raw_tables_data. auto.
Qed.

Lemma respond_cases (requested : list str) (pages : nat) (document : document)
  (converted_data : dict payload) (before : list db_call) :
  (respond requested uuid4 pages document converted_data before
   = (threw (Of JSONDecodeError), before)
   /\ exists text, json_text requested converted_data = Some text
                   /\ json_loads text = None)
  \/ (respond requested uuid4 pages document converted_data before
      = (done (result_data requested uuid4 pages document converted_data
                           (json_read requested converted_data)),
         before)
      /\ forall text, json_text requested converted_data = Some text ->
                      json_loads text <> None).
Proof.
  unfold respond, and_then, json_data_of, json_read, json_text.
  destruct (mem (txt "json") requested); [|right; split; [reflexivity|discriminate]].
  destruct (dict_get converted_data (txt "json")) as [[text|b|text]|];
    try (right; split; [reflexivity|discriminate]).
  destruct (json_loads text) as [object|] eqn:Hj.
  - right. split; [reflexivity|]. intros t Ht. inversion Ht. subst. congruence.
  - left. split; [reflexivity|]. now exists text.
Qed.

(** The request of an accepted file. *)
Lemma request_unfold (file : UploadFile) (output_formats config : str)
  (current_user : UserResponse) :
  accepted file ->
  _convert_with_config file output_formats config current_user []
  = match db [] (creation file output_formats current_user) with
    | row =>
        match convert_steps file config current_user (requested_formats output_formats)
                            uuid4 [creation file output_formats current_user] with
        | (done result, made) => (done result, made)
        | (threw e, made) =>
            match db made (failure e) with
            | raises message => (threw (Exception message), made ++ [failure e])
            | _ => (threw (conversion_failed e), made ++ [failure e])
            end
        end
    | no_row => (threw (HTTPException 500 (txt "Failed to create conversion record")),
                 [creation file output_formats current_user])
    | raises message => (threw (Exception message),
                         [creation file output_formats current_user])
    end.
Proof.
  intros Hfile. apply accepted_dec in Hfile. destruct Hfile as [H1 H2].
  unfold _convert_with_config. rewrite H1, H2. cbv zeta.
  fold (creation file output_formats current_user).
  unfold and_then at 1, await at 1. cbn [app].
  destruct (db [] (creation file output_formats current_user)); cbn [negb];
    [|reflexivity|reflexivity].
  unfold try_except.
  destruct (convert_steps _ _ _ _ _ _) as [[result|e] made]; [reflexivity|].
  unfold and_then, await. fold (failure e).
  destruct (db made (failure e)); reflexivity.
Qed.

(** An attempt that raised, handled after the calls [made]. *)
Lemma handler_cases (file : UploadFile) (output_formats config : str)
  (current_user : UserResponse) (cause : thrown) (made : list db_call) :
  accepted file ->
  db [] (creation file output_formats current_user) = row ->
  convert_steps file config current_user (requested_formats output_formats)
                uuid4 [creation file output_formats current_user]
  = (threw cause, made) ->
  let request := _convert_with_config file output_formats config current_user in
  calls request = made ++ [failure cause]
  /\ handled request made cause.
Proof.
  intros Hfile Hrow Hsteps request. unfold handled, response, calls, request, answered.
  rewrite (request_unfold _ _ _ _ Hfile), Hrow, Hsteps.
  destruct (db made (failure cause)) as [| |message] eqn:Hdb; cbn [fst snd];
    (split; [reflexivity|]).
  - left. split; [congruence|reflexivity].
  - left. split; [congruence|reflexivity].
  - right. now exists message.
Qed.

(** Where the request for an accepted file ends once its record is created,
    and with which calls: before the credits are written, after they are
    written, or with a result. *)
Lemma request_endings (file : UploadFile) (output_formats config : str)
  (current_user : UserResponse) :
  let raw_tables_data := extract_tables_from_pdf (file_content file) config in
  let pages := pages_processed raw_tables_data in
  let request := _convert_with_config file output_formats config current_user in
  let c0 := creation file output_formats current_user in
  let c1 := charge current_user pages in
  let c2 := credit_transaction file current_user pages in
  accepted file -> db [] c0 = row ->
  (exists made cause,
     calls request = c0 :: made ++ [failure cause]
     /\ handled request (c0 :: made) cause
     /\ ((made = [] /\ exists message,
            error raw_tables_data = Some message /\ cause = Exception message)
         \/ (made = [shortage current_user pages]
             /\ error raw_tables_data = None
             /\ (credits current_user < Z.of_nat pages)%Z
             /\ ((answered [c0] (shortage current_user pages)
                  /\ cause = payment_required current_user pages)
                 \/ exists message,
                      db [c0] (shortage current_user pages) = raises message
                      /\ cause = Exception message))
         \/ (made = [] /\ error raw_tables_data = None
             /\ (Z.of_nat pages <= credits current_user)%Z
             /\ exists e, unconverted file output_formats config e /\ cause = Of e)))
  \/ (error raw_tables_data = None /\ (Z.of_nat pages <= credits current_user)%Z
      /\ exists r document converted_data,
           converted file output_formats config r document converted_data
           /\ let c3 := completion r document pages in
              (exists made cause,
                 calls request = c0 :: c1 :: made ++ [failure cause]
                 /\ handled request (c0 :: c1 :: made) cause
                 /\ ((made = [] /\ exists message,
                        db [c0] c1 = raises message /\ cause = Exception message)
                     \/ (made = [c2] /\ answered [c0] c1
                         /\ exists message,
                              db [c0; c1] c2 = raises message /\ cause = Exception message)
                     \/ (made = [c2; c3] /\ answered [c0] c1 /\ answered [c0; c1] c2
                         /\ exists message,
                              db [c0; c1; c2] c3 = raises message
                              /\ cause = Exception message)
                     \/ (made = [c2; c3] /\ answered [c0] c1 /\ answered [c0; c1] c2
                         /\ answered [c0; c1; c2] c3
                         /\ cause = Of JSONDecodeError
                         /\ exists text,
                              json_text (requested_formats output_formats) converted_data
                              = Some text
                              /\ json_loads text = None)))
              \/ (calls request = [c0; c1; c2; c3]
                  /\ answered [c0] c1 /\ answered [c0; c1] c2 /\ answered [c0; c1; c2] c3
                  /\ response request
                     = done (result_data (requested_formats output_formats) uuid4 pages
                                         document converted_data
                                         (json_read (requested_formats output_formats)
                                                    converted_data))
                  /\ forall text,
                       json_text (requested_formats output_formats) converted_data
                       = Some text ->
                       json_loads text <> None)).
Proof.
  intros raw_tables_data pages request c0 c1 c2 Hfile Hrow.
  pose proof (handler_cases file output_formats config current_user) as Hhandler.
  fold request c0 in Hhandler.
  destruct (steps_cases file output_formats config current_user [c0])
    as [[message [Herror Hsteps]]
       |[[Herror [Hcredits [cause [Hsteps Hcause]]]]
        |[[Herror [Hcredits [e [He Hsteps]]]]
         |[Herror [Hcredits [r [document [converted_data [Hconv Hsteps]]]]]]]]];
    fold raw_tables_data in Herror; fold raw_tables_data pages in Hsteps;
    try fold raw_tables_data pages in Hcredits.
  - left. exists [], (Exception message).
    destruct (Hhandler _ _ Hfile Hrow Hsteps) as [Hcalls Hhandled].
    split; [exact Hcalls|]. split; [exact Hhandled|]. left. split; [reflexivity|].
    now exists message.
  - left. exists [shortage current_user pages], cause.
    destruct (Hhandler _ _ Hfile Hrow Hsteps) as [Hcalls Hhandled].
    split; [exact Hcalls|]. split; [exact Hhandled|]. right. left.
    repeat (split; [trivial|]). exact Hcause.
  - left. exists [], (Of e).
    destruct (Hhandler _ _ Hfile Hrow Hsteps) as [Hcalls Hhandled].
    split; [exact Hcalls|]. split; [exact Hhandled|]. right. right.
    repeat (split; [trivial|]). now exists e.
  - right. repeat (split; [trivial|]). exists r, document, converted_data.
    split; [exact Hconv|]. intros c3.
    unfold and_then in Hsteps.
    destruct (settle_cases file current_user pages r document [c0])
      as [[message [Hdb Hsettle]]
         |[[H1 [message [Hdb Hsettle]]]
          |[[H1 [H2 [message [Hdb Hsettle]]]]
           |[H1 [H2 [H3 [came Hsettle]]]]]]];
      fold c1 c2 c3 in Hsettle; cbn [app] in *; rewrite Hsettle in Hsteps.
    + left. exists [], (Exception message).
      destruct (Hhandler _ _ Hfile Hrow Hsteps) as [Hcalls Hhandled].
      split; [exact Hcalls|]. split; [exact Hhandled|]. left. split; [reflexivity|].
      now exists message.
    + left. exists [c2], (Exception message).
      destruct (Hhandler _ _ Hfile Hrow Hsteps) as [Hcalls Hhandled].
      split; [exact Hcalls|]. split; [exact Hhandled|]. right. left.
      repeat (split; [trivial|]). now exists message.
    + left. exists [c2; c3], (Exception message).
      destruct (Hhandler _ _ Hfile Hrow Hsteps) as [Hcalls Hhandled].
      split; [exact Hcalls|]. split; [exact Hhandled|]. right. right. left.
      repeat (split; [trivial|]). now exists message.
    + destruct (respond_cases (requested_formats output_formats) pages document
                              converted_data [c0; c1; c2; c3])
        as [[Hrespond Hjson]|[Hrespond Hjson]]; rewrite Hrespond in Hsteps.
      * left. exists [c2; c3], (Of JSONDecodeError).
        destruct (Hhandler _ _ Hfile Hrow Hsteps) as [Hcalls Hhandled].
        split; [exact Hcalls|]. split; [exact Hhandled|]. right. right. right.
        repeat (split; [trivial|]). exact Hjson.
      * right. unfold calls, response, request.
        rewrite (request_unfold _ _ _ _ Hfile). fold c0. rewrite Hrow, Hsteps.
        cbn [fst snd]. repeat (split; [trivial|]). exact Hjson.
Qed.


Lemma request_refused (file : UploadFile) (output_formats config : str)
  (current_user : UserResponse) :
  ~ accepted file ->
  exists detail,
    _convert_with_config file output_formats config current_user []
    = (threw (HTTPException 400 detail), [])
    /\ (content_type file <> Some (txt "application/pdf") ->
        detail = txt "Only PDF files are supported")
    /\ (content_type file = Some (txt "application/pdf") ->
        detail = txt "File size must be less than 10MB").
Proof.
  intros Hfile. unfold _convert_with_config.
  destruct (negb _) eqn:H1.
  - exists (txt "Only PDF files are supported"). split; [reflexivity|].
    split; [reflexivity|]. intros Hpdf. rewrite Hpdf in H1.
    rewrite str_eqb_refl in H1. discriminate.
  - destruct (_ <? _)%N eqn:H2.
    + exists (txt "File size must be less than 10MB"). split; [reflexivity|].
      split; [|reflexivity]. intros Hpdf. exfalso. apply Hpdf.
      apply negb_false_iff in H1. destruct (content_type file); [|discriminate].
      apply str_eqb_eq in H1. now rewrite H1.
    + exfalso. apply Hfile. apply accepted_dec. now split.
Qed.

Lemma accepted_or_not (file : UploadFile) : accepted file \/ ~ accepted file.
Proof.
  destruct (negb match content_type file with
                 | Some t => str_eqb t (txt "application/pdf")
                 | None => false
                 end) eqn:H1.
  - right. intros H. apply accepted_dec in H. destruct H. congruence.
  - destruct (10 * 1024 * 1024 <? N.of_nat (length (file_content file)))%N eqn:H2.
    + right. intros H. apply accepted_dec in H. destruct H. congruence.
    + left. apply accepted_dec. now split.
Qed.

(** The request of an accepted file whose record is not created. *)
Lemma request_not_created (file : UploadFile) (output_formats config : str)
  (current_user : UserResponse) :
  let request := _convert_with_config file output_formats config current_user in
  let c0 := creation file output_formats current_user in
  accepted file -> db [] c0 <> row ->
  calls request = [c0]
  /\ (response request
      = threw (HTTPException 500 (txt "Failed to create conversion record"))
      \/ exists message, db [] c0 = raises message
                         /\ response request = threw (Exception message)).
Proof.
  intros request c0 Hfile Hrow. unfold calls, response, request.
  rewrite (request_unfold _ _ _ _ Hfile). fold c0.
  destruct (db [] c0) as [| |message]; [contradiction| |]; cbn [fst snd].
  - split; [reflexivity|]. now left.
  - split; [reflexivity|]. right. now exists message.
Qed.

Lemma reply_row_or_not (r : reply) : r = row \/ r <> row.
Proof. destruct r; [now left|right; discriminate|right; discriminate]. Qed.

(** What the upload is answered with.  A file that is no PDF, or is larger
    than 10 MB, is refused with a 400 before any call of the data base; for
    any other file the first call creates the record of the conversion, and
    when no record comes back nothing else is called.  The route raises no
    [HTTPException] but with 400 or 500, the 402 of a user without the
    credits included; no exception of the extractor or the converter leaves
    it; and another exception leaves it only when it is what the last call
    of the data base raised. *)
Theorem upload_answers (file : UploadFile) (output_formats config : str)
  (current_user : UserResponse) :
  let request := _convert_with_config file output_formats config current_user in
  let c0 := creation file output_formats current_user in
  (~ accepted file ->
   calls request = []
   /\ exists detail, response request = threw (HTTPException 400 detail))
  /\ (accepted file -> exists made, calls request = c0 :: made)
  /\ (accepted file -> db [] c0 <> row ->
      calls request = [c0] /\ forall result, response request <> done result)
  /\ (forall status_code detail,
        response request = threw (HTTPException status_code detail) ->
        status_code = 400 \/ status_code = 500)
  /\ (forall e, response request <> threw (Of e))
  /\ (forall message,
        response request = threw (Exception message) ->
        exists before call,
          calls request = before ++ [call] /\ db before call = raises message).
Proof.
  intros request c0.
  assert (Hrefused : ~ accepted file ->
            calls request = []
            /\ exists detail, response request = threw (HTTPException 400 detail)).
  { intros Hfile.
    destruct (request_refused file output_formats config current_user Hfile)
      as [detail [Hrun _]].
    unfold calls, response, request. rewrite Hrun. split; [reflexivity|].
    now exists detail. }
  assert (Hhandled : forall before cause,
            handled request before cause ->
            (exists detail, response request = threw (HTTPException 500 detail))
            \/ exists message, db before (failure cause) = raises message
                               /\ response request = threw (Exception message)).
  { intros before cause [[_ H]|[message H]].
    - left. unfold conversion_failed in H. eauto.
    - right. now exists message. }
  assert (Hcases :
            (calls request = []
             /\ exists detail, response request = threw (HTTPException 400 detail))
            \/ (accepted file /\ exists made,
                  calls request = c0 :: made
                  /\ ((exists result, response request = done result)
                      \/ (exists detail,
                            response request = threw (HTTPException 500 detail))
                      \/ exists before call message,
                           calls request = before ++ [call]
                           /\ db before call = raises message
                           /\ response request = threw (Exception message)))).
  { destruct (accepted_or_not file) as [Hfile|Hfile]; [right|left; now apply Hrefused].
    split; [assumption|].
    destruct (reply_row_or_not (db [] c0)) as [Hrow|Hrow].
    - destruct (request_endings file output_formats config current_user Hfile Hrow)
        as [[made [cause [Hcalls [Hh _]]]]
           |[_ [_ [r [document [converted_data [_ [[made [cause [Hcalls [Hh _]]]]
                                                  |[Hcalls [_ [_ [_ [Hr _]]]]]]]]]]]]];
        fold request c0 in Hcalls; fold request in Hh || fold request in Hr.
      + exists (made ++ [failure cause]). split; [exact Hcalls|].
        destruct (Hhandled _ _ Hh) as [H|[message [Hdb H]]]; [now right; left|].
        right. right. exists (c0 :: made), (failure cause), message. auto.
      + eexists. split; [exact Hcalls|].
        destruct (Hhandled _ _ Hh) as [H|[message [Hdb H]]]; [now right; left|].
        right. right.
        exists (c0 :: charge current_user
                        (pages_processed
                           (extract_tables_from_pdf (file_content file) config)) :: made),
          (failure cause), message. auto.
      + eexists. split; [exact Hcalls|]. left. eauto.
    - destruct (request_not_created file output_formats config current_user Hfile Hrow)
        as [Hcalls [H|[message [Hdb H]]]]; fold request c0 in Hcalls, H.
      + exists []. split; [exact Hcalls|]. right. left. eauto.
      + exists []. split; [exact Hcalls|]. right. right.
        exists [], c0, message. fold c0 in Hdb. auto. }
  split; [exact Hrefused|]. split; [|split; [|split; [|split]]].
  - intros Hfile. destruct Hcases as [[Hcalls _]|[_ [made [Hcalls _]]]]; [|now exists made].
    exfalso.
    destruct (reply_row_or_not (db [] c0)) as [Hrow|Hrow].
    + destruct (request_endings file output_formats config current_user Hfile Hrow)
        as [[made [cause [H _]]]
           |[_ [_ [r [document [converted_data [_ [[made [cause [H _]]]|[H _]]]]]]]]];
        fold request in H; rewrite Hcalls in H; discriminate.
    + destruct (request_not_created file output_formats config current_user Hfile Hrow)
        as [H _]. fold request in H. rewrite Hcalls in H. discriminate.
  - intros Hfile Hrow.
    destruct (request_not_created file output_formats config current_user Hfile Hrow)
      as [Hcalls [H|[message [_ H]]]]; fold request in Hcalls, H;
      (split; [exact Hcalls|]); intros result Hr; rewrite Hr in H; discriminate.
  - intros status_code detail Hr.
    destruct Hcases as [[_ [d H]]|[_ [made [_ [[result H]|[[d H]|[b [c [m [_ [_ H]]]]]]]]]]];
      rewrite Hr in H; inversion H; auto.
  - intros e Hr.
    destruct Hcases as [[_ [d H]]|[_ [made [_ [[result H]|[[d H]|[b [c [m [_ [_ H]]]]]]]]]]];
      rewrite Hr in H; inversion H.
  - intros message Hr.
    destruct Hcases as [[_ [d H]]|[_ [made [_ [[result H]|[[d H]|[b [c [m [Hc [Hdb H]]]]]]]]]]];
      rewrite Hr in H; inversion H. subst. now exists b, c.
Qed.


Lemma converted_unique (file : UploadFile) (output_formats config : str)
  (r r' : result) (document document' : document)
  (converted_data converted_data' : dict payload) :
  converted file output_formats config r document converted_data ->
  converted file output_formats config r' document' converted_data' ->
  r' = r /\ document' = document /\ converted_data' = converted_data.
Proof.
  unfold converted. intros [H1 [H2 H3]] [H1' [H2' H3']].
  rewrite H1 in H1'. inversion H1'. subst r'.
  rewrite H2 in H2'. inversion H2'. subst document'.
  rewrite H3 in H3'. inversion H3'. auto.
Qed.

Lemma converted_not_unconverted (file : UploadFile) (output_formats config : str)
  (r : result) (document : document) (converted_data : dict payload) (e : exn) :
  converted file output_formats config r document converted_data ->
  unconverted file output_formats config e -> False.
Proof.
  unfold converted, unconverted.
  intros [H1 [H2 H3]] [H|[r' [H1' [H|[document' [H2' H]]]]]].
  - congruence.
  - rewrite H1 in H1'. inversion H1'. subst r'. congruence.
  - rewrite H1 in H1'. inversion H1'. subst r'.
    rewrite H2 in H2'. inversion H2'. subst document'. congruence.
Qed.

(** The request whose conversions returned: the credits are written, and
    the request ends with the first call that raises, with [json.loads], or
    with the result. *)
Lemma request_converted (file : UploadFile) (output_formats config : str)
  (current_user : UserResponse) (r : result) (document : document)
  (converted_data : dict payload) :
  let raw_tables_data := extract_tables_from_pdf (file_content file) config in
  let pages := pages_processed raw_tables_data in
  let request := _convert_with_config file output_formats config current_user in
  let c0 := creation file output_formats current_user in
  let c1 := charge current_user pages in
  let c2 := credit_transaction file current_user pages in
  let c3 := completion r document pages in
  accepted file -> db [] c0 = row ->
  error raw_tables_data = None -> (Z.of_nat pages <= credits current_user)%Z ->
  converted file output_formats config r document converted_data ->
  (exists made cause,
     calls request = c0 :: c1 :: made ++ [failure cause]
     /\ handled request (c0 :: c1 :: made) cause
     /\ ((made = [] /\ exists message,
            db [c0] c1 = raises message /\ cause = Exception message)
         \/ (made = [c2] /\ answered [c0] c1
             /\ exists message,
                  db [c0; c1] c2 = raises message /\ cause = Exception message)
         \/ (made = [c2; c3] /\ answered [c0] c1 /\ answered [c0; c1] c2
             /\ exists message,
                  db [c0; c1; c2] c3 = raises message
                  /\ cause = Exception message)
         \/ (made = [c2; c3] /\ answered [c0] c1 /\ answered [c0; c1] c2
             /\ answered [c0; c1; c2] c3
             /\ cause = Of JSONDecodeError
             /\ exists text,
                  json_text (requested_formats output_formats) converted_data = Some text
                  /\ json_loads text = None)))
  \/ (calls request = [c0; c1; c2; c3]
      /\ answered [c0] c1 /\ answered [c0; c1] c2 /\ answered [c0; c1; c2] c3
      /\ response request
         = done (result_data (requested_formats output_formats) uuid4 pages
                             document converted_data
                             (json_read (requested_formats output_formats)
                                        converted_data))
      /\ forall text,
           json_text (requested_formats output_formats) converted_data = Some text ->
           json_loads text <> None).
Proof.
  intros raw_tables_data pages request c0 c1 c2 c3 Hfile Hrow Herror Hcredits Hconv.
  destruct (request_endings file output_formats config current_user Hfile Hrow)
    as [[made [cause [_ [_ [[_ [m [H _]]]|[[_ [_ [H _]]]|[_ [_ [_ [e [H _]]]]]]]]]]]
       |[_ [_ [r' [document' [converted_data' [Hconv' H]]]]]]].
  - fold raw_tables_data in H. congruence.
  - fold raw_tables_data pages in H. lia.
  - exfalso. eapply converted_not_unconverted; eassumption.
  - destruct (converted_unique _ _ _ _ _ _ _ _ _ Hconv Hconv') as [-> [-> ->]].
    exact H.
Qed.

(** A user without the credits for the pages.  The conversion is marked as
    failed twice, by the check and then by the handler, which catches the
    402 the check raises: the request is answered with the 500 made of it,
    no credits are written and nothing is converted. *)
Theorem insufficient_credits_answered_with_500 (file : UploadFile)
  (output_formats config : str) (current_user : UserResponse) :
  let raw_tables_data := extract_tables_from_pdf (file_content file) config in
  let pages := pages_processed raw_tables_data in
  let request := _convert_with_config file output_formats config current_user in
  let c0 := creation file output_formats current_user in
  accepted file -> db [] c0 = row ->
  error raw_tables_data = None -> (credits current_user < Z.of_nat pages)%Z ->
  exists cause,
    calls request = [c0; shortage current_user pages; failure cause]
    /\ handled request [c0; shortage current_user pages] cause
    /\ (answered [c0] (shortage current_user pages) ->
        cause = payment_required current_user pages
        /\ (answered [c0; shortage current_user pages] (failure cause) ->
            response request
            = threw (HTTPException 500
                       (txt "Conversion failed: "
                        ++ describe (payment_required current_user pages)))))
    /\ (forall result, response request <> done result).
Proof.
  intros raw_tables_data pages request c0 Hfile Hrow Herror Hcredits.
  destruct (request_endings file output_formats config current_user Hfile Hrow)
    as [[made [cause [Hcalls [Hh [[_ [m [H _]]]
                                 |[[-> [_ [_ Hcause]]]
                                  |[_ [_ [H _]]]]]]]]]
       |[_ [H _]]];
    refold raw_tables_data; refold pages; try congruence; try lia.
  fold request c0 in Hcalls, Hh. fold c0 in Hcause.
  exists cause. split; [exact Hcalls|]. split; [exact Hh|]. split.
  - intros Hanswered.
    assert (Hc : cause = payment_required current_user pages).
    { destruct Hcause as [[_ Hc]|[m [Hdb _]]]; [exact Hc|].
      exfalso. now apply (Hanswered m). }
    split; [exact Hc|]. intros Hfailure.
    destruct Hh as [[_ Hr]|[m [Hdb _]]]; [|exfalso; now apply (Hfailure m)].
    rewrite Hr, Hc. reflexivity.
  - intros result Hr. destruct Hh as [[_ H]|[m [_ H]]]; rewrite Hr in H; discriminate.
Qed.

(** The credits are written exactly when the file is accepted, its record
    created, the extraction without error, the credits enough for the
    pages, and the method, the emitter and every requested conversion
    return; then once, as the first call after the creation, with the
    credits less the pages, which are not negative.  No other call writes
    credits, whatever comes after, and no result is returned without. *)
Theorem credits_written_when_converted (file : UploadFile)
  (output_formats config : str) (current_user : UserResponse) :
  let raw_tables_data := extract_tables_from_pdf (file_content file) config in
  let pages := pages_processed raw_tables_data in
  let request := _convert_with_config file output_formats config current_user in
  let c0 := creation file output_formats current_user in
  let c1 := charge current_user pages in
  (existsb writes_credits (calls request) = true <->
   accepted file /\ db [] c0 = row /\ error raw_tables_data = None
   /\ (0 <= credits current_user - Z.of_nat pages)%Z
   /\ exists r document converted_data,
        converted file output_formats config r document converted_data)
  /\ (existsb writes_credits (calls request) = true ->
      filter writes_credits (calls request) = [c1]
      /\ exists made, calls request = c0 :: c1 :: made)
  /\ (forall result, response request = done result ->
                     existsb writes_credits (calls request) = true).
Proof.
  intros raw_tables_data pages request c0 c1.
  assert (Hearly : forall made cause,
            made = [] \/ made = [shortage current_user pages] ->
            existsb writes_credits (c0 :: made ++ [failure cause]) = false).
  { intros made cause [->| ->]; reflexivity. }
  assert (Hlate : forall r document made cause,
            made = [] \/ made = [credit_transaction file current_user pages]
            \/ made = [credit_transaction file current_user pages;
                       completion r document pages] ->
            filter writes_credits (c0 :: c1 :: made ++ [failure cause]) = [c1]).
  { intros r document made cause [->|[->| ->]]; reflexivity. }
  assert (Hwritten : forall l, filter writes_credits l = [c1] ->
                               existsb writes_credits l = true).
  { intros l H. apply existsb_exists. exists c1. split; [|reflexivity].
    assert (Hin : In c1 (filter writes_credits l)) by (rewrite H; now left).
    now apply filter_In in Hin. }
  assert (Hconverted :
            accepted file -> db [] c0 = row -> error raw_tables_data = None ->
            (0 <= credits current_user - Z.of_nat pages)%Z ->
            forall r document converted_data,
              converted file output_formats config r document converted_data ->
              filter writes_credits (calls request) = [c1]
              /\ exists made, calls request = c0 :: c1 :: made).
  { intros Hfile Hrow Herror Hcredits r document converted_data Hconv.
    destruct (request_converted file output_formats config current_user r document
                converted_data Hfile Hrow Herror ltac:(fold raw_tables_data pages; lia) Hconv)
      as [[made [cause [Hcalls [_ Hmade]]]]|[Hcalls _]];
      fold request raw_tables_data pages c0 c1 in Hcalls; rewrite Hcalls.
    - split; [|eexists; reflexivity]. apply (Hlate r document).
      destruct Hmade as [[-> _]|[[-> _]|[[-> _]|[-> _]]]]; auto.
    - split; [reflexivity|eexists; reflexivity]. }
  assert (Hcases :
            existsb writes_credits (calls request) = false
            /\ (forall result, response request <> done result)
            \/ (accepted file /\ db [] c0 = row /\ error raw_tables_data = None
                /\ (0 <= credits current_user - Z.of_nat pages)%Z
                /\ exists r document converted_data,
                     converted file output_formats config r document converted_data)).
  { destruct (accepted_or_not file) as [Hfile|Hfile].
    2:{ left. destruct (request_refused file output_formats config current_user Hfile)
          as [detail [Hrun _]].
        unfold calls, response, request. rewrite Hrun. split; [reflexivity|discriminate]. }
    destruct (reply_row_or_not (db [] c0)) as [Hrow|Hrow].
    2:{ left.
        destruct (request_not_created file output_formats config current_user Hfile Hrow)
          as [Hcalls Hr]. fold request c0 in Hcalls, Hr. rewrite Hcalls.
        split; [reflexivity|].
        intros result H. destruct Hr as [Hr|[m [_ Hr]]]; rewrite H in Hr; discriminate. }
    destruct (request_endings file output_formats config current_user Hfile Hrow)
      as [[made [cause [Hcalls [Hh Hmade]]]]
         |[Herror [Hcredits [r [document [converted_data [Hconv _]]]]]]].
    - left. fold request c0 in Hcalls. fold request in Hh. rewrite Hcalls. split.
      + apply Hearly.
        destruct Hmade as [[-> _]|[[-> _]|[-> _]]]; auto.
      + intros result H. destruct Hh as [[_ Hr]|[m [_ Hr]]]; rewrite H in Hr; discriminate.
    - right. fold raw_tables_data in Herror. fold raw_tables_data pages in Hcredits.
      repeat (split; [trivial|]); [lia|]. now exists r, document, converted_data. }
  split; [|split].
  - split.
    + intros H. destruct Hcases as [[Hnone _]|Hyes]; [congruence|exact Hyes].
    + intros [Hfile [Hrow [Herror [Hcredits [r [document [converted_data Hconv]]]]]]].
      apply Hwritten.
      apply (Hconverted Hfile Hrow Herror Hcredits r document converted_data Hconv).
  - intros H. destruct Hcases as [[Hnone _]|Hyes]; [congruence|].
    destruct Hyes as [Hfile [Hrow [Herror [Hcredits [r [document [converted_data Hconv]]]]]]].
    apply (Hconverted Hfile Hrow Herror Hcredits r document converted_data Hconv).
  - intros result Hr. destruct Hcases as [[_ Hnone]|Hyes]; [now apply Hnone in Hr|].
    destruct Hyes as [Hfile [Hrow [Herror [Hcredits [r [document [converted_data Hconv]]]]]]].
    apply Hwritten.
    apply (Hconverted Hfile Hrow Herror Hcredits r document converted_data Hconv).
Qed.

(** What the response holds of the converted data: a field for each format
    that was asked for, and for no other. *)
Lemma format_data (parsed_data : parsed) (requested : list str)
  (converted_data : dict payload) :
  convert_to_formats parsed_data requested = Returned converted_data ->
  (csv_data_of requested converted_data <> None <-> In (txt "csv") requested)
  /\ (excel_data_of requested converted_data <> None <-> In (txt "excel") requested)
  /\ (json_text requested converted_data <> None <-> In (txt "json") requested).
Proof.
  intros Hrun. unfold convert_to_formats in Hrun.
  destruct (convert_from_results _ _ _ _ _ Hrun) as [Hkinds Hkeys].
  assert (Hkind : forall k w, dict_get converted_data k = Some w -> of_kind k w = true).
  { apply Hkinds. intros k w H. discriminate. }
  assert (Hkey : forall name,
             In (txt name) valid_formats -> lower (txt name) = txt name ->
             In (txt name) requested ->
             exists w, dict_get converted_data (txt name) = Some w
                       /\ of_kind (txt name) w = true).
  { intros name Hvalid Hlower Hin.
    destruct (dict_get converted_data (txt name)) as [w|] eqn:Hget.
    - exists w. split; [reflexivity|]. now apply Hkind.
    - exfalso. assert (H : dict_get converted_data (txt name) <> None).
      { apply Hkeys. right. split; [assumption|]. now exists (txt name). }
      now apply H. }
  split; [|split].
  - unfold csv_data_of. destruct (mem (txt "csv") requested) eqn:Hm.
    + apply mem_In in Hm. split; [auto|]. intros _.
      destruct (Hkey "csv"%string) as [w [Hget Hk]];
        [apply valid_format_cases; auto|reflexivity|assumption|].
      rewrite Hget. destruct w; [discriminate|discriminate Hk|discriminate Hk].
    + apply mem_not_In in Hm. split; [intros H; now contradiction H|contradiction].
  - unfold excel_data_of. destruct (mem (txt "excel") requested) eqn:Hm.
    + apply mem_In in Hm. split; [auto|]. intros _.
      destruct (Hkey "excel"%string) as [w [Hget Hk]];
        [apply valid_format_cases; auto|reflexivity|assumption|].
      rewrite Hget. destruct w; [discriminate Hk|discriminate|discriminate Hk].
    + apply mem_not_In in Hm. split; [intros H; now contradiction H|contradiction].
  - unfold json_text. destruct (mem (txt "json") requested) eqn:Hm.
    + apply mem_In in Hm. split; [auto|]. intros _.
      destruct (Hkey "json"%string) as [w [Hget Hk]];
        [apply valid_format_cases; auto|reflexivity|assumption|].
      rewrite Hget. destruct w; [discriminate Hk|discriminate Hk|discriminate].
    + apply mem_not_In in Hm. split; [intros H; now contradiction H|contradiction].
Qed.

(** A request that is answered with a result.  The method, the emitter and
    the conversions returned, and the four calls of the data base were
    made, none raising: the record created, the credits written, the credit
    transaction created, and the record completed with the document.  The
    result has the identifier that was drawn, the pages as the credits
    used, the transactions of the document, and the data of exactly the
    formats that were asked for. *)
Theorem upload_completed (file : UploadFile) (output_formats config : str)
  (current_user : UserResponse) (result : ConversionResult) :
  let raw_tables_data := extract_tables_from_pdf (file_content file) config in
  let pages := pages_processed raw_tables_data in
  let request := _convert_with_config file output_formats config current_user in
  let c0 := creation file output_formats current_user in
  let c1 := charge current_user pages in
  let c2 := credit_transaction file current_user pages in
  response request = done result ->
  exists r document converted_data,
    converted file output_formats config r document converted_data
    /\ accepted file /\ error raw_tables_data = None
    /\ calls request = [c0; c1; c2; completion r document pages]
    /\ db [] c0 = row /\ answered [c0] c1 /\ answered [c0; c1] c2
    /\ answered [c0; c1; c2] (completion r document pages)
    /\ conversion_id result = uuid4
    /\ status result = txt "completed"
    /\ result_pages_processed result = pages
    /\ result_credits_used result = pages
    /\ result_transactions result = transactions document
    /\ (csv_data result <> None <-> In (txt "csv") (requested_formats output_formats))
    /\ (excel_data result <> None <-> In (txt "excel") (requested_formats output_formats))
    /\ (json_data result <> None <-> In (txt "json") (requested_formats output_formats)).
Proof.
  intros raw_tables_data pages request c0 c1 c2 Hdone.
  assert (Hnot : forall before cause, handled request before cause -> False).
  { intros before cause [[_ H]|[m [_ H]]]; rewrite Hdone in H; discriminate. }
  destruct (accepted_or_not file) as [Hfile|Hfile].
  2:{ exfalso.
      destruct (request_refused file output_formats config current_user Hfile)
        as [detail [Hrun _]].
      unfold response, request in Hdone. rewrite Hrun in Hdone. discriminate. }
  destruct (reply_row_or_not (db [] c0)) as [Hrow|Hrow].
  2:{ exfalso.
      destruct (request_not_created file output_formats config current_user Hfile Hrow)
        as [_ [H|[m [_ H]]]]; fold request in H; rewrite Hdone in H; discriminate. }
  destruct (request_endings file output_formats config current_user Hfile Hrow)
    as [[made [cause [_ [Hh _]]]]
       |[Herror [Hcredits [r [document [converted_data [Hconv H]]]]]]];
    [exfalso; now apply (Hnot _ _ Hh)|].
  destruct H as [[made [cause [_ [Hh _]]]]|[Hcalls [H1 [H2 [H3 [Hr Hjson]]]]]];
    [exfalso; now apply (Hnot _ _ Hh)|].
  fold request in Hr. rewrite Hdone in Hr. inversion Hr as [Hresult].
  exists r, document, converted_data.
  destruct Hconv as [Hrun [Hdoc Hconv]].
  destruct (format_data _ _ _ Hconv) as [Hcsv [Hexcel Htext]].
  split; [repeat split; assumption|]. split; [assumption|]. split; [assumption|].
  split; [exact Hcalls|]. repeat (split; [assumption|]).
  cbn [result_data conversion_id status result_pages_processed result_credits_used
       result_transactions csv_data excel_data json_data].
  repeat (split; [reflexivity|]). split; [exact Hcsv|]. split; [exact Hexcel|].
  rewrite <- Htext. unfold json_read.
  destruct (json_text (requested_formats output_formats) converted_data) as [text|];
    [|tauto].
  split; [discriminate|]. intros _. now apply Hjson.
Qed.

(** Once the conversions have returned the credits are written, whatever
    follows.  The request is answered with a result exactly when none of
    the three calls after the conversions raises and [json.loads] reads the
    JSON text back; otherwise the last call marks the conversion as failed,
    and the credits, written once, stay written. *)
Theorem charged_though_failed (file : UploadFile) (output_formats config : str)
  (current_user : UserResponse) (r : result) (document : document)
  (converted_data : dict payload) :
  let raw_tables_data := extract_tables_from_pdf (file_content file) config in
  let pages := pages_processed raw_tables_data in
  let request := _convert_with_config file output_formats config current_user in
  let c0 := creation file output_formats current_user in
  let c1 := charge current_user pages in
  let c2 := credit_transaction file current_user pages in
  let c3 := completion r document pages in
  accepted file -> db [] c0 = row ->
  error raw_tables_data = None -> (Z.of_nat pages <= credits current_user)%Z ->
  converted file output_formats config r document converted_data ->
  ((exists result, response request = done result) <->
   answered [c0] c1 /\ answered [c0; c1] c2 /\ answered [c0; c1; c2] c3
   /\ forall text,
        json_text (requested_formats output_formats) converted_data = Some text ->
        json_loads text <> None)
  /\ ((forall result, response request <> done result) ->
      exists made cause,
        calls request = c0 :: c1 :: made ++ [failure cause]
        /\ handled request (c0 :: c1 :: made) cause
        /\ filter writes_credits (calls request) = [c1])
  /\ (forall message,
        answered [c0] c1 -> db [c0; c1] c2 = raises message ->
        calls request = [c0; c1; c2; failure (Exception message)]
        /\ handled request [c0; c1; c2] (Exception message)).
Proof.
  intros raw_tables_data pages request c0 c1 c2 c3 Hfile Hrow Herror Hcredits Hconv.
  pose proof (request_converted file output_formats config current_user r document
                converted_data Hfile Hrow Herror Hcredits Hconv) as Hcases.
  fold raw_tables_data pages request c0 c1 c2 c3 in Hcases.
  assert (Hnot : forall result before cause,
            response request = done result -> handled request before cause -> False).
  { intros result before cause Hdone [[_ H]|[m [_ H]]]; rewrite Hdone in H; discriminate. }
  split; [|split].
  - split.
    + intros [result Hdone].
      destruct Hcases as [[made [cause [_ [Hh _]]]]|[_ [H1 [H2 [H3 [_ Hjson]]]]]];
        [exfalso; now apply (Hnot _ _ _ Hdone Hh)|auto].
    + intros [H1 [H2 [H3 Hjson]]].
      destruct Hcases as [[made [cause [_ [_ Hmade]]]]|[_ [_ [_ [_ [Hr _]]]]]];
        [exfalso|eauto].
      destruct Hmade as [[_ [m [Hdb _]]]
                        |[[_ [_ [m [Hdb _]]]]
                         |[[_ [_ [_ [m [Hdb _]]]]]
                          |[_ [_ [_ [_ [_ [text [Ht Hloads]]]]]]]]]].
      * now apply (H1 m).
      * now apply (H2 m).
      * now apply (H3 m).
      * now apply (Hjson text).
  - intros Hfailed.
    destruct Hcases as [[made [cause [Hcalls [Hh Hmade]]]]|[_ [_ [_ [_ [Hr _]]]]]];
      [|exfalso; now apply (Hfailed _ Hr)].
    exists made, cause. split; [exact Hcalls|]. split; [exact Hh|]. rewrite Hcalls.
    destruct Hmade as [[-> _]|[[-> _]|[[-> _]|[-> _]]]]; reflexivity.
  - intros message H1 Hdb.
    destruct Hcases as [[made [cause [Hcalls [Hh Hmade]]]]|[_ [_ [H2 _]]]];
      [|exfalso; now apply (H2 message)].
    destruct Hmade as [[_ [m [Hdb' _]]]
                      |[[-> [_ [m [Hdb' ->]]]]
                       |[[_ [_ [H2 _]]]
                        |[_ [_ [H2 _]]]]]].
    + exfalso. now apply (H1 m).
    + rewrite Hdb in Hdb'. inversion Hdb'. subst m. split; [exact Hcalls|exact Hh].
    + exfalso. now apply (H2 message).
    + exfalso. now apply (H2 message).
Qed.

(** When the first table has no usable headers there is nothing to convert,
    and what comes of the request depends on the formats.  Asked for a CSV
    or an Excel file, as it is when the form field names no valid format,
    the request fails with the conversion and no credits are written.
    Asked for JSON alone, and the writer returning, the credits for the
    pages are written, and a result has no transactions. *)
Theorem unusable_first_table_upload (file : UploadFile) (output_formats config : str)
  (current_user : UserResponse) (first_table : table) (rest : list table) :
  let raw_tables_data := extract_tables_from_pdf (file_content file) config in
  let pages := pages_processed raw_tables_data in
  let request := _convert_with_config file output_formats config current_user in
  let c0 := creation file output_formats current_user in
  let c1 := charge current_user pages in
  accepted file -> db [] c0 = row ->
  error raw_tables_data = None -> (Z.of_nat pages <= credits current_user)%Z ->
  unicode_corrected (tables raw_tables_data) = Returned (first_table :: rest) ->
  (forall cols, columns first_table = Some cols -> all_isdigit cols = true) ->
  ((exists fmt, In fmt (requested_formats output_formats) /\ fmt <> txt "json") ->
   existsb writes_credits (calls request) = false
   /\ exists e, calls request = [c0; failure (Of e)] /\ handled request [c0] (Of e))
  /\ (Forall (fun part => ~ In (lower (strip part)) valid_formats)
             (split 44 output_formats) ->
      exists fmt, In fmt (requested_formats output_formats) /\ fmt <> txt "json")
  /\ (Forall (fun fmt => fmt = txt "json") (requested_formats output_formats) ->
      (forall turn, turn < length (requested_formats output_formats) ->
                    exists text,
                      json_writer turn (parsed_data_of nothing empty_document pages)
                      = Returned text) ->
      (exists made, calls request = c0 :: c1 :: made)
      /\ forall result, response request = done result ->
                        result_transactions result = []
                        /\ csv_data result = None /\ excel_data result = None).
Proof.
  intros raw_tables_data pages request c0 c1 Hfile Hrow Herror Hcredits Hjson Hcols.
  assert (Hrun : process_tables_sequentially (tables raw_tables_data) = Returned nothing).
  { unfold process_tables_sequentially. rewrite Hjson. unfold bind.
    now rewrite (find_master_headers_none _ Hcols). }
  assert (Hdoc : convert_to_structured_format (final_df nothing) (Some (table_info nothing))
                 = Returned empty_document) by reflexivity.
  split; [|split].
  - intros [fmt [Hfmt Hne]].
    assert (Hraise : exists e, convert_to_formats
                                 (parsed_data_of nothing empty_document pages)
                                 (requested_formats output_formats) = Raised e).
    { apply convert_from_empty; [reflexivity|]. exists fmt. split; [assumption|].
      pose proof (proj2 (requested_formats_valid output_formats)) as Hvalid.
      rewrite Forall_forall in Hvalid. specialize (Hvalid fmt Hfmt).
      apply valid_format_cases in Hvalid.
      destruct Hvalid as [->|[->| ->]]; [now left|now right|contradiction]. }
    destruct Hraise as [e He].
    assert (Hun : unconverted file output_formats config e).
    { unfold unconverted. fold raw_tables_data pages. right. exists nothing.
      split; [exact Hrun|]. right. exists empty_document. now split. }
    destruct (request_endings file output_formats config current_user Hfile Hrow)
      as [[made [cause [Hcalls [Hh [[_ [m [H _]]]
                                   |[[_ [_ [H _]]]
                                    |[-> [_ [_ [e' [_ ->]]]]]]]]]]]
         |[_ [_ [r [document [converted_data [Hconv _]]]]]]];
      refold raw_tables_data; refold pages; try congruence; try lia.
    + fold request c0 in Hcalls, Hh. cbn [app] in Hcalls. rewrite Hcalls.
      split; [reflexivity|]. now exists e'.
    + exfalso. eapply converted_not_unconverted; eassumption.
  - intros Hnone. exists (txt "csv"). split; [|discriminate].
    unfold requested_formats.
    replace (filter _ _) with (@nil str); [now left|].
    symmetry. induction Hnone as [|part parts Hpart _ IH]; [reflexivity|].
    cbn [map filter].
    destruct (mem (lower (strip part)) valid_formats) eqn:Hm; [|exact IH].
    apply mem_In in Hm. contradiction.
  - intros Hall Hwriter.
    destruct (convert_from_json (parsed_data_of nothing empty_document pages)
                                (requested_formats output_formats) Hall 0 [] Hwriter)
      as [converted_data Hconverted].
    assert (Hconv : converted file output_formats config nothing empty_document
                              converted_data).
    { unfold converted. fold raw_tables_data pages. auto. }
    destruct (request_converted file output_formats config current_user nothing
                empty_document converted_data Hfile Hrow Herror Hcredits Hconv)
      as [[made [cause [Hcalls [Hh _]]]]|[Hcalls [_ [_ [_ [Hr _]]]]]];
      fold request raw_tables_data pages c0 c1 in Hcalls.
    + split; [eexists; exact Hcalls|]. intros result Hdone. exfalso.
      fold request in Hh.
      destruct Hh as [[_ H]|[m [_ H]]]; rewrite Hdone in H; discriminate.
    + split; [eexists; exact Hcalls|]. intros result Hdone.
      fold request raw_tables_data pages in Hr. rewrite Hdone in Hr.
      inversion Hr as [Hresult].
      cbn [result_data result_transactions csv_data excel_data].
      split; [reflexivity|].
      assert (Hno : forall name, txt name <> txt "json" ->
                                 mem (txt name) (requested_formats output_formats) = false).
      { intros name Hne. apply mem_not_In. intros Hin.
        rewrite Forall_forall in Hall. now apply Hall in Hin. }
      unfold csv_data_of, excel_data_of.
      rewrite (Hno "csv"%string), (Hno "excel"%string) by discriminate. auto.
Qed.

(** *** The download *)

(** What a download is answered with.  The route raises no
    [HTTPException] but with 404, 400 or 500.  For a completed conversion
    with its data a format that is none of the three is answered with a
    500, the 400 raised for it being caught by the handler, and so is the
    CSV or the Excel file of a document without transactions; a response
    has the content of the kind that was asked for, in any letter case. *)
Theorem download_answers (conversion_id format : str) (current_user : UserResponse) :
  let answer := download_converted_file_method2 conversion_id format current_user in
  (forall status_code detail,
     answer = threw (HTTPException status_code detail) ->
     status_code = 404 \/ status_code = 400 \/ status_code = 500)
  /\ (forall e, answer <> threw (Of e))
  /\ (forall conversions conversion parsed_data,
        get_user_conversions (user_id current_user) 100 = records conversions ->
        find (fun c => str_eqb (stored_id c) conversion_id) conversions = Some conversion ->
        stored_status conversion = txt "completed" ->
        processed_data conversion = Some parsed_data ->
        (~ In (lower format) valid_formats ->
         answer = threw (HTTPException 500
                           (txt "Failed to generate download: "
                            ++ describe (HTTPException 400
                                           (txt "Invalid format. Supported: csv, excel, json")))))
        /\ (transactions (emitted parsed_data) = [] ->
            lower format = txt "csv" \/ lower format = txt "excel" ->
            answer = threw (HTTPException 500 (txt "Failed to generate download: "
                                               ++ describe (Of ValueError))))
        /\ (forall response,
              answer = done response ->
              In (lower format) valid_formats
              /\ of_kind (lower format) (content response) = true
              /\ (lower format <> txt "json" -> transactions (emitted parsed_data) <> [])))
  /\ (forall response,
        answer = done response ->
        exists conversions conversion,
          get_user_conversions (user_id current_user) 100 = records conversions
          /\ In conversion conversions
          /\ stored_id conversion = conversion_id
          /\ stored_status conversion = txt "completed"
          /\ processed_data conversion <> None).
Proof.
  intros answer. subst answer. unfold download_converted_file_method2.
  assert (Hfile : forall conversion parsed_data,
            (forall status_code detail,
               converted_file conversion parsed_data format
               = threw (HTTPException status_code detail) ->
               ~ In (lower format) valid_formats
               /\ status_code = 400
               /\ detail = txt "Invalid format. Supported: csv, excel, json")
            /\ (~ In (lower format) valid_formats ->
                converted_file conversion parsed_data format
                = threw (HTTPException 400
                           (txt "Invalid format. Supported: csv, excel, json")))
            /\ (transactions (emitted parsed_data) = [] ->
                lower format = txt "csv" \/ lower format = txt "excel" ->
                converted_file conversion parsed_data format = threw (Of ValueError))
            /\ (forall response,
                  converted_file conversion parsed_data format = done response ->
                  In (lower format) valid_formats
                  /\ of_kind (lower format) (content response) = true
                  /\ (lower format <> txt "json" ->
                      transactions (emitted parsed_data) <> []))).
  { intros conversion parsed_data. unfold converted_file.
    destruct (str_eqb (lower format) (txt "csv")) eqn:H1.
    { apply str_eqb_eq in H1. rewrite H1. unfold to_csv.
      destruct (transactions (emitted parsed_data)) as [|record others] eqn:Hrecords.
      - split; [discriminate|]. split.
        + intros H. exfalso. apply H. apply valid_format_cases. auto.
        + split; [reflexivity|discriminate].
      - destruct (csv_writer _ _ _) as [data|e].
        + split; [discriminate|]. split.
          * intros H. exfalso. apply H. apply valid_format_cases. auto.
          * split; [discriminate|]. intros response H. inversion H. cbn [content].
            split; [apply valid_format_cases; auto|]. split; [reflexivity|discriminate].
        + split; [discriminate|]. split.
          * intros H. exfalso. apply H. apply valid_format_cases. auto.
          * split; [discriminate|discriminate]. }
    destruct (str_eqb (lower format) (txt "excel")) eqn:H2.
    { apply str_eqb_eq in H2. rewrite H2.
      destruct (to_excel 0 parsed_data) as [data|e] eqn:Hexcel.
      - split; [discriminate|]. split.
        + intros H. exfalso. apply H. apply valid_format_cases. auto.
        + split.
          * intros Hnone _. unfold to_excel in Hexcel. rewrite Hnone in Hexcel.
            discriminate.
          * intros response H. inversion H. cbn [content].
            split; [apply valid_format_cases; auto|]. split; [reflexivity|].
            intros _ Hnone. unfold to_excel in Hexcel. rewrite Hnone in Hexcel.
            discriminate.
      - split; [discriminate|]. split.
        + intros H. exfalso. apply H. apply valid_format_cases. auto.
        + split; [|discriminate]. intros Hnone _.
          unfold to_excel in Hexcel. rewrite Hnone in Hexcel. now inversion Hexcel. }
    destruct (str_eqb (lower format) (txt "json")) eqn:H3.
    { apply str_eqb_eq in H3. rewrite H3.
      destruct (to_json 0 parsed_data) as [data|e].
      - split; [discriminate|]. split.
        + intros H. exfalso. apply H. apply valid_format_cases. auto.
        + split; [intros _ [H|H]; discriminate H|].
          intros response H. inversion H. cbn [content].
          split; [apply valid_format_cases; auto|]. split; [reflexivity|].
          intros Hne. now contradiction Hne.
      - split; [discriminate|]. split.
        + intros H. exfalso. apply H. apply valid_format_cases. auto.
        + split; [intros _ [H|H]; discriminate H|discriminate]. }
    assert (Hinvalid : ~ In (lower format) valid_formats).
    { intros H. apply valid_format_cases in H.
      destruct H as [H|[H|H]]; rewrite H in *; rewrite str_eqb_refl in *; discriminate. }
    split.
    - intros status_code detail H. inversion H. auto.
    - split; [reflexivity|]. split; [|discriminate].
      intros _ [H|H]; rewrite H in *; rewrite str_eqb_refl in *; discriminate. }
  destruct (get_user_conversions (user_id current_user) 100)
    as [conversions|message] eqn:Hget.
  2:{ repeat split; discriminate. }
  destruct (find (fun c => str_eqb (stored_id c) conversion_id) conversions)
    as [conversion|] eqn:Hfind.
  2:{ split; [intros status_code detail H; inversion H; auto|].
      split; [discriminate|]. split; [|discriminate].
      intros conversions' conversion parsed_data H1 H2. inversion H1. subst.
      congruence. }
  assert (Hin : In conversion conversions /\ stored_id conversion = conversion_id).
  { apply find_some in Hfind. destruct Hfind as [Hin Hid].
    apply str_eqb_eq in Hid. auto. }
  destruct (negb (str_eqb (stored_status conversion) (txt "completed"))) eqn:Hstatus.
  { split; [intros status_code detail H; inversion H; auto|].
    split; [discriminate|]. split; [|discriminate].
    intros conversions' conversion' parsed_data H1 H2 H3. inversion H1. subst.
    rewrite Hfind in H2. inversion H2. subst. rewrite H3, str_eqb_refl in Hstatus.
    discriminate. }
  apply negb_false_iff, str_eqb_eq in Hstatus.
  destruct (processed_data conversion) as [parsed_data|] eqn:Hdata.
  2:{ split; [intros status_code detail H; inversion H; auto|].
      split; [discriminate|]. split; [|discriminate].
      intros conversions' conversion' parsed_data H1 H2 H3 H4. inversion H1. subst.
      rewrite Hfind in H2. inversion H2. subst. congruence. }
  destruct (Hfile conversion parsed_data) as [Hhttp [Hinvalid [Hnone Hdone]]].
  split; [|split; [|split]].
  - intros status_code detail.
    destruct (converted_file conversion parsed_data format); intros H; inversion H. auto.
  - intros e. destruct (converted_file conversion parsed_data format); discriminate.
  - intros conversions' conversion' parsed_data' H1 H2 H3 H4. inversion H1. subst.
    rewrite Hfind in H2. inversion H2. subst. rewrite Hdata in H4. inversion H4. subst.
    split; [|split].
    + intros H. now rewrite (Hinvalid H).
    + intros H Hf. now rewrite (Hnone H Hf).
    + intros response. destruct (converted_file conversion' parsed_data' format);
        [|discriminate]. intros H. inversion H. subst. now apply Hdone.
  - intros response H. exists conversions, conversion.
    destruct Hin as [Hin Hid]. repeat (split; [trivial|]). rewrite Hdata. discriminate.
Qed.

(* ===================================================================== *)
(** ** The recognition of a header row *)
(* ===================================================================== *)

Lemma contains_app_l (needle a b : str) :
  contains needle a = true -> contains needle (a ++ b) = true.
Proof.
  rewrite !contains_iff. intros [pre [post ->]].
  exists pre, (post ++ b). now rewrite <- !app_assoc.
Qed.

Lemma contains_app_r (needle a b : str) :
  contains needle b = true -> contains needle (a ++ b) = true.
Proof.
  rewrite !contains_iff. intros [pre [post ->]].
  exists (a ++ pre), post. now rewrite <- !app_assoc.
Qed.

(** A text without the separator that is part of two texts joined by the
    separator is part of one of the two. *)
Lemma contains_across (sep : char) (needle a b : str) :
  needle <> [] -> ~ In sep needle ->
  contains needle (a ++ sep :: b) = true ->
  contains needle a = true \/ contains needle b = true.
Proof.
  intros Hne Hsep H. apply contains_iff in H. destruct H as [pre [post H]].
  apply app_eq_app in H. destruct H as [l [[Ha Hl]|[Hpre Hl]]].
  - symmetry in Hl. apply app_eq_app in Hl. destruct Hl as [m [[Hn Hm]|[Hn Hm]]].
    + left. apply contains_iff. exists pre, m. now rewrite Ha, Hn.
    + destruct m as [|x m].
      * left. apply contains_iff. exists pre, []. rewrite app_nil_r in *.
        now rewrite Ha, Hn.
      * exfalso. apply Hsep. inversion Hm. subst x. rewrite Hn.
        apply in_or_app. right. now left.
  - destruct l as [|x l].
    + exfalso. cbn [app] in Hl. destruct needle as [|y needle]; [contradiction|].
      inversion Hl. subst y. apply Hsep. now left.
    + right. inversion Hl. apply contains_iff. now exists l, post.
Qed.

Lemma contains_join (needle : str) (parts : list str) :
  needle <> [] -> ~ In 32%N needle ->
  (contains needle (join (txt " ") parts) = true <->
   exists part, In part parts /\ contains needle part = true).
Proof.
  intros Hne Hsep. induction parts as [|p parts IH].
  - cbn [join]. split; [|intros [part [[] _]]].
    intros H. apply contains_iff in H. destruct H as [pre [post H]].
    destruct pre, needle; try discriminate. contradiction.
  - destruct parts as [|q parts].
    + cbn [join]. split; [intros H; exists p; split; [now left|assumption]|].
      intros [part [[<-|[]] H]]. exact H.
    + change (join (txt " ") (p :: q :: parts))
        with (p ++ 32%N :: join (txt " ") (q :: parts)).
      split.
      * intros H. destruct (contains_across _ _ _ _ Hne Hsep H) as [Hp|Hrest].
        -- exists p. split; [now left|assumption].
        -- apply IH in Hrest. destruct Hrest as [part [Hin Hc]].
           exists part. split; [now right|assumption].
      * intros [part [[<-|Hin] Hc]].
        -- now apply contains_app_l.
        -- apply (contains_app_r _ p (32%N :: join (txt " ") (q :: parts))).
           apply (contains_app_r _ [32%N]). apply IH. now exists part.
Qed.

Lemma header_keyword_plain (keyword : str) :
  In keyword header_keywords -> keyword <> [] /\ ~ In 32%N keyword.
Proof.
  unfold header_keywords. cbn [map In]. intros Hk.
  repeat (destruct Hk as [<-|Hk];
          [split;
           [intros H; vm_compute in H; discriminate H
           |cbn; intros H; repeat (destruct H as [H|H]; [discriminate H|]); exact H]|]).
  contradiction.
Qed.

(** The first row of a table is taken for a header row exactly when one of
    its cells, lower-cased, contains one of the keywords: as a part of the
    text of the cell, wherever it stands in it, and not across two cells. *)
Theorem header_row_recognised (df : pd.DataFrame) :
  first_row_looks_like_headers df = true <->
  exists first_row rest_rows,
    pd.rows df = first_row :: rest_rows
    /\ exists val keyword,
         In val first_row /\ pd.notna val = true
         /\ In keyword header_keywords
         /\ contains keyword (lower (pd.str_of_cell val)) = true.
Proof.
  unfold first_row_looks_like_headers.
  destruct (pd.rows df) as [|first_row rest_rows].
  - split; [discriminate|]. intros [? [? [H _]]]. discriminate.
  - rewrite existsb_exists. split.
    + intros [keyword [Hk Hc]]. exists first_row, rest_rows. split; [reflexivity|].
      destruct (header_keyword_plain _ Hk) as [Hne Hsep].
      apply (contains_join _ _ Hne Hsep) in Hc.
      destruct Hc as [part [Hpart Hc]]. apply in_map_iff in Hpart.
      destruct Hpart as [val [<- Hval]]. apply filter_In in Hval.
      destruct Hval as [Hin Hna]. now exists val, keyword.
    + intros [row [rest [Hrows [val [keyword [Hin [Hna [Hk Hc]]]]]]]].
      inversion Hrows. subst row rest. exists keyword. split; [assumption|].
      destruct (header_keyword_plain _ Hk) as [Hne Hsep].
      apply (contains_join _ _ Hne Hsep).
      exists (lower (pd.str_of_cell val)). split; [|assumption].
      apply in_map_iff. exists val. split; [reflexivity|].
      apply filter_In. now split.
Qed.


(* ===================================================================== *)
(** ** The rows of the ledger *)
(* ===================================================================== *)

Lemma resolve_headers_len (master_headers : list str) (df : pd.DataFrame) :
  pd.len (resolve_headers master_headers df)
  = if all_isdigit (pd.columns df) && first_row_looks_like_headers df
    then pd.len df - 1
    else pd.len df.
Proof.
  unfold resolve_headers.
  destruct (all_isdigit (pd.columns df)); [|reflexivity]. cbn [andb].
  destruct (first_row_looks_like_headers df).
  - unfold pd.len, pd.set_columns, pd.iloc_from_1. cbn [pd.rows].
    destruct (pd.rows df); cbn [tl length]; lia.
  - destruct (_ =? _)%nat; reflexivity.
Qed.

Lemma process_table_len (master_headers : list str) (t : table) :
  match process_table master_headers t with
  | Some df => pd.len df
  | None => 0
  end = kept_rows t.
Proof.
  unfold process_table, kept_rows. destruct (data t) as [records|]; [|reflexivity].
  destruct records as [|record records]; [reflexivity|].
  set (all := record :: records).
  destruct (pd.empty (pd.from_records all)); [reflexivity|].
  rewrite merge_split_column_len, resolve_headers_len, fillna_len, from_records_len.
  reflexivity.
Qed.

Lemma process_subsequent_len (master_headers : list str) (rest : list table) :
  list_sum (map pd.len (process_subsequent master_headers rest))
  = list_sum (map kept_rows rest).
Proof.
  unfold process_subsequent. induction rest as [|t rest IH]; [reflexivity|].
  change (list_sum (map kept_rows (t :: rest)))
    with (kept_rows t + list_sum (map kept_rows rest)).
  cbn [flat_map]. rewrite map_app, list_sum_app, IH.
  rewrite <- (process_table_len master_headers t). f_equal.
  destruct (process_table master_headers t) as [df|]; [|reflexivity].
  change (list_sum (map pd.len [df])) with (pd.len df + 0). lia.
Qed.

(** No data row is lost or doubled.  The ledger of a run that returns has
    the rows of the first table and, of each table after it, all rows but
    a first row taken for a header row (a table without any key, which is
    skipped, has no data); and so have the merged tables together. *)
Theorem rows_are_conserved
  (tables_json rest : list table) (first_table : table)
  (master_headers : list str) (records : list record) (r : result) :
  unicode_corrected tables_json = Returned (first_table :: rest) ->
  find_master_headers first_table = Some master_headers ->
  data first_table = Some records ->
  process_tables_sequentially tables_json = Returned r ->
  pd.len (final_df r) = length records + list_sum (map kept_rows rest)
  /\ list_sum (map row_count (individual_tables r)) = pd.len (final_df r)
  /\ list_sum (map info_row_count (table_info r)) = pd.len (final_df r)
  /\ (forall t, In t rest -> kept_rows t <= match data t with
                                            | Some rows => length rows
                                            | None => 0
                                            end).
Proof.
  intros Hjson Hheaders Hdata Hrun.
  rewrite (run_returned _ _ _ _ _ _ Hjson Hheaders Hdata Hrun).
  unfold result_of. cbn [final_df individual_tables table_info].
  assert (Hlen : pd.len (ledger (all_processed master_headers records rest))
                 = length records + list_sum (map kept_rows rest)).
  { rewrite ledger_len. unfold all_processed.
    change (list_sum (map pd.len (?a :: ?l))) with (pd.len a + list_sum (map pd.len l)).
    now rewrite fillna_len, from_records_len, process_subsequent_len. }
  split; [exact Hlen|]. split; [|split].
  - fold (merged_tables (all_processed master_headers records rest)).
    now rewrite row_counts_sum, ledger_len.
  - rewrite map_map.
    fold (merged_tables (all_processed master_headers records rest)).
    change (fun x => info_row_count (info_of x)) with row_count.
    now rewrite row_counts_sum, ledger_len.
  - intros t _. unfold kept_rows. destruct (data t) as [rows|]; [|lia].
    destruct (pd.empty _); [lia|]. destruct (_ && _); lia.
Qed.

End Properties.

(* ===================================================================== *)
(** ** The properties on the scenarios *)
(* ===================================================================== *)

Module Examples.
Import Scenario.

#[local] Existing Instance no_ucd.

(** The scenario inputs are left as they are by the unicode correction. *)
Lemma scenario_inputs_unchanged :
  unicode_corrected [statement_page; headerless_page; reference_page]
  = Returned [statement_page; headerless_page; reference_page]
  /\ unicode_corrected [statement_page; numbers_page]
     = Returned [statement_page; numbers_page]
  /\ unicode_corrected [numbers_page; statement_page]
     = Returned [numbers_page; statement_page]
  /\ unicode_corrected [split_first_page; headerless_page]
     = Returned [split_first_page; headerless_page]
  /\ unicode_corrected [statement_page; reference_page]
     = Returned [statement_page; reference_page].
Proof. repeat split; vm_compute; reflexivity. Qed.

(** C1 as stated fails: the table of the scenario, alone in the input, is
    the first table, and the run ends with nothing. *)
Lemma C1_counterexample :
  process_tables_sequentially [headerless_page] = Returned nothing
  /\ pd.columns (final_df nothing) = []
  /\ pd.rows (final_df nothing) = [].
Proof. repeat split; vm_compute; reflexivity. Qed.

Lemma C1_witness :
  let records := [record_of [("0", "Date"); ("1", "Amount")];
                  record_of [("0", "2024-01-01"); ("1", "100")]] in
  data headerless_page = Some records
  /\ all_isdigit (pd.columns (pd.from_records records)) = true
  /\ first_row_looks_like_headers (pd.fillna [] (pd.from_records records)) = true
  /\ pd.len (resolve_headers (map txt ["Date"; "Amount"])
                             (pd.fillna [] (pd.from_records records))) + 1
     = length records.
Proof.
  intros records.
  assert (H1 : all_isdigit (pd.columns (pd.from_records records)) = true)
    by (vm_compute; reflexivity).
  assert (H2 : first_row_looks_like_headers (pd.fillna [] (pd.from_records records)) = true)
    by (vm_compute; reflexivity).
  split; [reflexivity|]. split; [exact H1|]. split; [exact H2|].
  exact (proj1 (proj2 (C1_header_row_adopted (map txt ["Date"; "Amount"])
                         headerless_page records eq_refl H1 H2))).
Defined.

(** C2 as stated fails: numeric columns in the first table raise nothing. *)
Lemma C2_counterexample :
  columns numbers_page = Some (map txt ["0"; "1"; "2"])
  /\ all_isdigit (map txt ["0"; "1"; "2"]) = true
  /\ process_tables_sequentially [numbers_page] = Returned nothing
  /\ ~ (exists e, process_tables_sequentially [numbers_page] = Raised e).
Proof.
  split; [reflexivity|]. split; [vm_compute; reflexivity|].
  assert (H : process_tables_sequentially [numbers_page] = Returned nothing)
    by (vm_compute; reflexivity).
  split; [exact H|]. intros [e He]. rewrite H in He. discriminate.
Qed.

Lemma C2_witness :
  process_tables_sequentially [numbers_page; statement_page] = Returned nothing
  /\ process_tables_sequentially [numbers_page; unit_price_page] = Raised JSONDecodeError.
Proof.
  assert (H1 : unicode_corrected [numbers_page; statement_page]
               = Returned [numbers_page; statement_page])
    by (vm_compute; reflexivity).
  assert (H2 : forall cols, columns numbers_page = Some cols -> all_isdigit cols = true).
  { intros cols H. inversion H. vm_compute. reflexivity. }
  assert (H3 : unicode_corrected [numbers_page; unit_price_page] = Raised JSONDecodeError)
    by (vm_compute; reflexivity).
  split.
  - exact (proj1 (proj2 (C2_unusable_first_table_ends_the_run
                           [numbers_page; statement_page]) _ _ H1 H2)).
  - exact (proj2 (proj1 (C2_unusable_first_table_ends_the_run
                           [numbers_page; unit_price_page]) _ H3)).
Defined.


(** C3 as stated fails: with a line break inside a label the signatures the
    specification words are the same, and the tables are not merged. *)
Lemma C3_counterexample :
  let broken_label := txt "Ref" ++ [10%N] ++ txt "No" in
  Spec.signature [txt "Ref No"] = Spec.signature [broken_label]
  /\ map merged_from
         (merged_tables [ {| pd.columns := [txt "Ref No"]; pd.rows := [[Text (txt "R-1")]] |};
                          {| pd.columns := [broken_label]; pd.rows := [[Text (txt "R-2")]] |} ])
     = [[1]; [2]].
Proof. split; vm_compute; reflexivity. Qed.

Lemma C3_witness :
  let dfs := [frame_of ["Value"; "Particulars"] [["2024-01-01"; "a"]];
              frame_of ["Date"; "Amount"] [["2024-01-02"; "1"]];
              frame_of ["Value Date"; "Particulars"] [["2024-01-03"; "b"]]] in
  exists t, In t (merged_tables dfs)
            /\ In (0 + 1) (merged_from t) /\ In (2 + 1) (merged_from t).
Proof.
  intros dfs.
  apply (proj1 (proj2 (C3_tables_grouped_by_normalized_labels dfs)) 0 2 _ _ eq_refl eq_refl).
  vm_compute. reflexivity.
Defined.

(** C4 as stated fails: a header row with two unnamed cells gives a table
    whose unnamed label is at index 1 and stays. *)
Lemma C4_counterexample :
  let processed := frame_of ["Date"; ""; ""] [["2024-01-01"; "a"; "b"]] in
  process_table (map txt ["Date"; "Amount"]) twice_split_page = Some processed
  /\ pd.index [] (pd.columns processed) = 1
  /\ merge_split_column processed = processed
  /\ In [] (pd.columns (merge_split_column processed)).
Proof.
  intros processed.
  assert (H : merge_split_column processed = processed) by (vm_compute; reflexivity).
  split; [vm_compute; reflexivity|]. split; [reflexivity|]. split; [exact H|].
  rewrite H. right. now left.
Qed.

Lemma C4_witness :
  let df := frame_of ["Date"; "Details"; ""; "Amount"]
                     [["2024-01-01"; "card "; " payment"; "5"]] in
  merge_split_column df
  = frame_of ["Date"; "Details"; "Amount"] [["2024-01-01"; "card payment"; "5"]].
Proof.
  intros df.
  destruct (C4_split_column_merging df) as [_ [_ [_ [_ H]]]].
  destruct (H [txt "Date"] [txt "Amount"] (txt "Details")
              [{| cells_before := [Text (txt "2024-01-01")];
                  left_cell := Text (txt "card ");
                  right_cell := Text (txt " payment");
                  cells_after := [Text (txt "5")] |}])
    as [_ [Hmerged _]].
  - intros [H1|[]]. discriminate H1.
  - discriminate.
  - intros [H1|[]]. discriminate H1.
  - intros [H1|[]]. discriminate H1.
  - intros [H1|[]]. discriminate H1.
  - repeat constructor.
  - reflexivity.
  - rewrite Hmerged. vm_compute. reflexivity.
Defined.


(** C5 as stated fails: with tables of different labels the rows of the
    ledger are not the rows of the tables. *)
Lemma C5_counterexample :
  exists r,
    process_tables_sequentially [statement_page; reference_page] = Returned r
    /\ pd.to_dict_records (final_df r)
       = [record_of [("Date", "2023-12-31"); ("Amount", "5"); ("Ref", "")];
          record_of [("Date", ""); ("Amount", ""); ("Ref", "R-1")]]
    /\ flat_map pd.to_dict_records
         (all_processed (map txt ["Date"; "Amount"])
                        [record_of [("Date", "2023-12-31"); ("Amount", "5")]]
                        [reference_page])
       = [record_of [("Date", "2023-12-31"); ("Amount", "5")];
          record_of [("Ref", "R-1")]].
Proof. eexists. repeat split; vm_compute; reflexivity. Qed.

Lemma C5_witness :
  exists r,
    process_tables_sequentially [statement_page; headerless_page; reference_page]
    = Returned r
    /\ pd.len (final_df r) = 3.
Proof.
  assert (Hrun : process_tables_sequentially [statement_page; headerless_page; reference_page]
                 = Returned (result_of (all_processed
                                          (map txt ["Date"; "Amount"])
                                          [record_of [("Date", "2023-12-31"); ("Amount", "5")]]
                                          [headerless_page; reference_page])))
    by (apply (run_returns _ [headerless_page; reference_page] statement_page _ _
                 (proj1 scenario_inputs_unchanged) eq_refl eq_refl);
        vm_compute; reflexivity).
  eexists. split; [exact Hrun|].
  rewrite (proj1 (proj2 (C5_ledger_rows_in_table_order
                           [statement_page; headerless_page; reference_page]
                           [headerless_page; reference_page] statement_page
                           (map txt ["Date"; "Amount"])
                           [record_of [("Date", "2023-12-31"); ("Amount", "5")]]
                           _ (proj1 scenario_inputs_unchanged) eq_refl eq_refl Hrun))).
  vm_compute. reflexivity.
Defined.

(** C6 as stated fails: the detected headers have a label that the first
    table lacks. *)
Lemma C6_counterexample :
  exists r document,
    process_tables_sequentially [statement_page; reference_page] = Returned r
    /\ convert_to_structured_format (final_df r) (Some (table_info r)) = Returned document
    /\ detected_headers (doc_metadata document) = Some (map txt ["Date"; "Amount"; "Ref"])
    /\ option_map pd.columns
         (hd_error (all_processed (map txt ["Date"; "Amount"])
                                  [record_of [("Date", "2023-12-31"); ("Amount", "5")]]
                                  [reference_page]))
       = Some (map txt ["Date"; "Amount"]).
Proof. eexists. eexists. repeat split; vm_compute; reflexivity. Qed.

Lemma C6_witness :
  exists r document,
    process_tables_sequentially [statement_page; reference_page] = Returned r
    /\ convert_to_structured_format (final_df r) (Some (table_info r)) = Returned document
    /\ detected_headers (doc_metadata document) = Some (pd.columns (final_df r)).
Proof.
  pose (r := result_of (all_processed
                          (map txt ["Date"; "Amount"])
                          [record_of [("Date", "2023-12-31"); ("Amount", "5")]]
                          [reference_page])).
  assert (Hin : unicode_corrected [statement_page; reference_page]
                = Returned [statement_page; reference_page])
    by (vm_compute; reflexivity).
  assert (Hrun : process_tables_sequentially [statement_page; reference_page] = Returned r)
    by (apply (run_returns _ [reference_page] statement_page _ _ Hin eq_refl eq_refl);
        vm_compute; reflexivity).
  assert (Hempty : pd.empty (final_df r) = false) by (vm_compute; reflexivity).
  assert (Hdoc : exists document,
             convert_to_structured_format (final_df r) (Some (table_info r))
             = Returned document).
  { unfold convert_to_structured_format. rewrite Hempty.
    replace (pd.has_duplicates (pd.columns (final_df r))) with false
      by (vm_compute; reflexivity).
    eexists. reflexivity. }
  destruct Hdoc as [document Hdoc]. exists r, document.
  split; [exact Hrun|]. split; [exact Hdoc|].
  rewrite (proj1 (C6_detected_headers_are_all_labels _ _ _ _ _ r document
                    Hin eq_refl eq_refl Hrun Hdoc)).
  now rewrite Hempty.
Defined.


(** C7 as stated fails.  After a first table with headers and no rows and
    a table whose header row names both columns alike, the run returns; with
    the table of three columns behind them, which meets the conditions of
    the claim, it raises and nothing is kept.  And a table of rows without
    keys is dropped. *)
Lemma C7_counterexample :
  let master_headers := map txt ["Date"; "Amount"] in
  let records := [record_of [("0", "17"); ("1", "4"); ("2", "x")];
                  record_of [("0", "18"); ("1", "5"); ("2", "y")]] in
  find_master_headers rowless_page = Some master_headers
  /\ data numbers_page = Some records
  /\ all_isdigit (pd.columns (pd.from_records records)) = true
  /\ first_row_looks_like_headers (pd.fillna [] (pd.from_records records)) = false
  /\ length (pd.columns (pd.from_records records)) <> length master_headers
  /\ (exists r,
        process_tables_sequentially [rowless_page; twice_named_page] = Returned r
        /\ pd.len (final_df r) = 1)
  /\ process_tables_sequentially [rowless_page; twice_named_page; numbers_page]
     = Raised InvalidIndexError
  /\ data keyless_page = Some [[]; []]
  /\ process_table master_headers keyless_page = None
  /\ exists r,
       process_tables_sequentially [statement_page; keyless_page] = Returned r
       /\ pd.len (final_df r) = 1.
Proof.
  intros master_headers records.
  split; [reflexivity|]. split; [reflexivity|].
  split; [vm_compute; reflexivity|]. split; [vm_compute; reflexivity|].
  split; [vm_compute; discriminate|].
  split; [vm_compute; eexists; split; reflexivity|].
  split; [vm_compute; reflexivity|]. split; [reflexivity|].
  split; [vm_compute; reflexivity|].
  vm_compute. eexists. split; reflexivity.
Qed.

Lemma C7_witness :
  let records := [record_of [("0", "17"); ("1", "4"); ("2", "x")];
                  record_of [("0", "18"); ("1", "5"); ("2", "y")]] in
  length (pd.columns (pd.from_records records)) <> length (map txt ["Date"; "Amount"])
  /\ process_table (map txt ["Date"; "Amount"]) numbers_page
     = Some (frame_of ["Column_1"; "Column_2"; "Column_3"]
                      [["17"; "4"; "x"]; ["18"; "5"; "y"]]).
Proof.
  intros records.
  assert (Hcount : length (pd.columns (pd.from_records records))
                   <> length (map txt ["Date"; "Amount"]))
    by (vm_compute; discriminate).
  split; [exact Hcount|].
  rewrite (proj1 (proj2 (proj2 (C7_count_mismatch_gets_generic_names
                           [statement_page; numbers_page] [numbers_page] statement_page
                           numbers_page (map txt ["Date"; "Amount"])
                           [record_of [("Date", "2023-12-31"); ("Amount", "5")]] records
                           (proj1 (proj2 scenario_inputs_unchanged)) eq_refl eq_refl
                           (or_introl eq_refl) eq_refl eq_refl eq_refl Hcount))
                        eq_refl)).
  vm_compute. reflexivity.
Defined.

Lemma C8_witness :
  let dfs := [frame_of ["Date"; "Amount"] [["2024-01-01"; "1"]];
              frame_of ["Ref"] [["R-1"]];
              frame_of ["date"; "amount"] [["2024-01-02"; "2"]]] in
  exists tables,
    merge_groups (group_tables dfs) = Returned tables
    /\ map table_number tables = [1; 2]
    /\ map merged_from tables = [[1; 3]; [2]].
Proof.
  intros dfs.
  destruct (C8_grouping_is_deterministic dfs dfs eq_refl) as [tables [Hrun _]].
  exists tables. split; [exact Hrun|].
  assert (Htables : Returned tables = Returned (merged_tables dfs))
    by (rewrite <- Hrun; apply merge_groups_returns).
  inversion Htables. split; vm_compute; reflexivity.
Defined.

(** C9 as stated fails.  A cell of the first table with the glyph name of a
    letter is in the ledger with the letter, not as it was ingested; and of
    a first table with numeric columns nothing is in the ledger. *)
Lemma C9_counterexample :
  data glyph_page
  = Some [record_of [("Date", "2024-01-01"); ("Payee", "/uni0041CME")]]
  /\ (exists r,
        process_tables_sequentially [glyph_page] = Returned r
        /\ final_df r = frame_of ["Date"; "Payee"] [["2024-01-01"; "ACME"]])
  /\ data numbers_page
     = Some [record_of [("0", "17"); ("1", "4"); ("2", "x")];
             record_of [("0", "18"); ("1", "5"); ("2", "y")]]
  /\ process_tables_sequentially [numbers_page] = Returned nothing
  /\ pd.rows (final_df nothing) = [].
Proof.
  split; [reflexivity|].
  split; [vm_compute; eexists; split; reflexivity|].
  split; [reflexivity|]. split; [vm_compute; reflexivity|reflexivity].
Qed.

Lemma C9_witness :
  exists r,
    process_tables_sequentially [split_first_page; headerless_page] = Returned r
    /\ final_df r = frame_of ["Date"; ""; "Amount"]
                             [["2024-01-01"; "coffee"; ""]; ["2024-01-01"; ""; "100"]]
    /\ In [] (pd.columns (final_df r)).
Proof.
  pose (records := [record_of [("Date", "2024-01-01"); ("", "coffee")]]).
  pose (r := result_of (all_processed (map txt ["Date"; "Details"]) records
                                      [headerless_page])).
  assert (Hin : unicode_corrected [split_first_page; headerless_page]
                = Returned [split_first_page; headerless_page])
    by (vm_compute; reflexivity).
  assert (Hrun : process_tables_sequentially [split_first_page; headerless_page]
                 = Returned r)
    by (apply (run_returns _ [headerless_page] split_first_page _ records
                 Hin eq_refl eq_refl);
        vm_compute; reflexivity).
  exists r. split; [exact Hrun|]. split; [vm_compute; reflexivity|].
  apply (proj2 (proj2 (proj2 (proj2 (proj2
           (C9_first_table_enters_as_ingested _ _ _ _ _ r Hin eq_refl eq_refl Hrun)))))).
  vm_compute. right. now left.
Defined.



Import Converter TableConvert.

#[local] Existing Instance no_series.
#[local] Existing Instance whole_seconds.
#[local] Existing Instance fixed_writers.

Lemma skipped_table_witness :
  process_tables_sequentially [statement_page; rowless_page; headerless_page]
  = process_tables_sequentially [statement_page; headerless_page].
Proof.
  assert (H1 : unicode_corrected [statement_page; rowless_page; headerless_page]
               = Returned (statement_page :: [] ++ rowless_page :: [headerless_page]))
    by (vm_compute; reflexivity).
  assert (H2 : unicode_corrected [statement_page; headerless_page]
               = Returned (statement_page :: [] ++ [headerless_page]))
    by (vm_compute; reflexivity).
  assert (H3 : data rowless_page = None
               \/ exists records, data rowless_page = Some records
                                  /\ forall r, In r records -> r = []).
  { right. exists []. split; [reflexivity|]. intros r Hr. destruct Hr. }
  exact (proj2 (skipped_table_leaves_no_trace _ _ _ _ _ _ H1 H2 H3)).
Defined.

Lemma master_headers_witness :
  process_table (map txt ["Date"; "Amount"]) plain_page
  = Some (frame_of ["Date"; "Amount"] [["2024-02-01"; "7"]]).
Proof.
  pose (records := [record_of [("0", "2024-02-01"); ("1", "7")]]).
  assert (Hin : unicode_corrected [statement_page; plain_page]
                = Returned [statement_page; plain_page])
    by (vm_compute; reflexivity).
  assert (H1 : pd.empty (pd.from_records records) = false) by (vm_compute; reflexivity).
  assert (H2 : all_isdigit (pd.columns (pd.from_records records)) = true)
    by (vm_compute; reflexivity).
  assert (H3 : first_row_looks_like_headers (pd.fillna [] (pd.from_records records))
               = false)
    by (vm_compute; reflexivity).
  assert (H4 : length (pd.columns (pd.from_records records))
               = length (map txt ["Date"; "Amount"])) by reflexivity.
  rewrite (proj1 (proj2 (proj2
             (master_headers_applied [statement_page; plain_page] [plain_page]
                statement_page plain_page (map txt ["Date"; "Amount"])
                [record_of [("Date", "2023-12-31"); ("Amount", "5")]] records
                Hin eq_refl eq_refl (or_introl eq_refl) eq_refl H1 H2 H3 H4)))).
  vm_compute. reflexivity.
Defined.

Lemma rectangular_witness :
  exists r,
    process_tables_sequentially [statement_page; reference_page] = Returned r
    /\ rectangular (final_df r).
Proof.
  pose (r := result_of (all_processed
                          (map txt ["Date"; "Amount"])
                          [record_of [("Date", "2023-12-31"); ("Amount", "5")]]
                          [reference_page])).
  assert (Hin : unicode_corrected [statement_page; reference_page]
                = Returned [statement_page; reference_page])
    by (vm_compute; reflexivity).
  assert (Hrun : process_tables_sequentially [statement_page; reference_page] = Returned r)
    by (apply (run_returns _ [reference_page] statement_page _ _ Hin eq_refl eq_refl);
        vm_compute; reflexivity).
  exists r. split; [exact Hrun|].
  exact (proj1 (proj2 (ledger_is_rectangular _ _ _ _ _ r Hin eq_refl eq_refl Hrun))).
Defined.

Lemma run_then_emit_witness :
  exists r document,
    process_tables_sequentially [statement_page; reference_page] = Returned r
    /\ convert_to_structured_format (final_df r) (Some (table_info r)) = Returned document
    /\ length (transactions document) = 2.
Proof.
  pose (row := record_of [("Date", "2023-12-31"); ("Amount", "5")]).
  pose (r := result_of (all_processed (map txt ["Date"; "Amount"]) [row] [reference_page])).
  assert (Hin : unicode_corrected [statement_page; reference_page]
                = Returned [statement_page; reference_page])
    by (vm_compute; reflexivity).
  assert (Hrun : process_tables_sequentially [statement_page; reference_page] = Returned r)
    by (apply (run_returns _ [reference_page] statement_page _ _ Hin eq_refl eq_refl);
        vm_compute; reflexivity).
  assert (Hrow : row <> []) by discriminate.
  destruct (run_then_emit _ _ _ _ _ row r Hin eq_refl eq_refl (or_introl eq_refl) Hrow Hrun)
    as [document [Hdoc [Hlen _]]].
  exists r, document. split; [exact Hrun|]. split; [exact Hdoc|].
  rewrite Hlen. vm_compute. reflexivity.
Defined.

Lemma escape_witness :
  unicode_correction (txt "/uni0041CME") = Some (txt "ACME")
  /\ unicode_correction (txt "Caf/uni00E9") = Some (txt "Caf" ++ [233%N]).
Proof.
  assert (Hnil : plain []) by (split; reflexivity).
  assert (Hcme : plain (txt "CME")) by (split; vm_compute; reflexivity).
  assert (Hcaf : plain (txt "Caf")) by (split; vm_compute; reflexivity).
  split.
  - exact (escape_is_decoded [] (txt "CME") 48 48 52 49 65 Hnil Hcme eq_refl eq_refl).
  - exact (escape_is_decoded (txt "Caf") [] 48 48 69 57 233 Hcaf Hnil eq_refl eq_refl).
Defined.

Lemma insufficient_credits_witness :
  let E := services_with (two_pages [statement_page]) always_row in
  let request := _convert_with_config small_pdf (txt "csv") (txt "fast") (user_with 1) in
  calls request
  = [creation small_pdf (txt "csv") (user_with 1);
     shortage (user_with 1) 2;
     failure (payment_required (user_with 1) 2)]
  /\ response request
     = threw (HTTPException 500 (txt "Conversion failed: error")).
Proof.
  intros E request.
  assert (Hfile : accepted small_pdf) by (split; [reflexivity|discriminate]).
  destruct (insufficient_credits_answered_with_500 (E := E)
              small_pdf (txt "csv") (txt "fast") (user_with 1)
              Hfile eq_refl eq_refl eq_refl)
    as [cause [Hcalls [_ [Hcause _]]]].
  destruct Hcause as [Hc Hr]; [intros m; discriminate|].
  split.
  - fold request in Hcalls. rewrite Hcalls, Hc. reflexivity.
  - fold request in Hr. rewrite Hr; [reflexivity|]. intros m. discriminate.
Defined.

Lemma upload_completed_witness :
  let E := services_with (two_pages [statement_page; reference_page]) always_row in
  let request :=
    _convert_with_config small_pdf (txt "csv,json") (txt "fast") (user_with 5) in
  exists result,
    response request = done result
    /\ In (update_user_credits (txt "u-1") 3) (calls request)
    /\ length (result_transactions result) = 2
    /\ csv_data result <> None /\ excel_data result = None.
Proof.
  intros E request.
  assert (Hdone : exists result, response request = done result)
    by (vm_compute; eexists; reflexivity).
  destruct Hdone as [result Hdone]. exists result.
  destruct (upload_completed (E := E) small_pdf (txt "csv,json") (txt "fast")
                             (user_with 5) result Hdone)
    as (r & document & converted_data & (Hrun & Hdoc & _) & _ & _ & Hcalls
        & _ & _ & _ & _ & _ & _ & _ & _ & Ht & Hcsv & Hexcel & _).
  fold request in Hcalls. split; [exact Hdone|]. split; [|split; [|split]].
  - rewrite Hcalls. right. left. reflexivity.
  - rewrite Ht. vm_compute in Hrun. injection Hrun as <-.
    vm_compute in Hdoc. injection Hdoc as <-. reflexivity.
  - apply Hcsv. vm_compute. left. reflexivity.
  - destruct (excel_data result) as [data|] eqn:He; [|reflexivity]. exfalso.
    assert (H : In (txt "excel") (requested_formats (txt "csv,json")))
      by (apply Hexcel; discriminate).
    vm_compute in H. destruct H as [H|[H|[]]]; discriminate H.
Defined.

Lemma charged_though_failed_witness :
  let E := services_with (two_pages [statement_page; reference_page])
                         down_for_transactions in
  let request := _convert_with_config small_pdf (txt "csv") (txt "fast") (user_with 5) in
  calls request
  = [creation small_pdf (txt "csv") (user_with 5);
     update_user_credits (txt "u-1") 3;
     credit_transaction small_pdf (user_with 5) 2;
     failure (Exception (txt "timed out"))]
  /\ response request
     = threw (HTTPException 500 (txt "Conversion failed: timed out")).
Proof.
  intros E request.
  pose (r := value_of nothing
               (process_tables_sequentially [statement_page; reference_page])).
  pose (document := value_of empty_document
                      (convert_to_structured_format (final_df r) (Some (table_info r)))).
  pose (converted_data := value_of [] (convert_to_formats (parsed_data_of r document 2)
                                                          [txt "csv"])).
  assert (Hfile : accepted small_pdf) by (split; [reflexivity|discriminate]).
  assert (Hconv : converted small_pdf (txt "csv") (txt "fast") r document converted_data)
    by (repeat split; vm_compute; reflexivity).
  assert (Hcredits : (Z.of_nat 2 <= 5)%Z) by discriminate.
  destruct (charged_though_failed (E := E) small_pdf (txt "csv") (txt "fast") (user_with 5)
              r document converted_data Hfile eq_refl eq_refl Hcredits Hconv)
    as [_ [_ Hdown]].
  destruct (Hdown (txt "timed out")) as [Hcalls Hh];
    [intros m; discriminate|reflexivity|].
  fold request in Hcalls, Hh. split; [exact Hcalls|].
  destruct Hh as [[_ Hr]|[m [Hdb _]]]; [exact Hr|discriminate Hdb].
Defined.

Lemma unusable_first_table_witness :
  let E := services_with (two_pages [numbers_page; statement_page]) always_row in
  (forall output_formats,
     output_formats = txt "csv, json" \/ output_formats = txt "pdf" ->
     existsb writes_credits
             (calls (_convert_with_config small_pdf output_formats (txt "fast")
                                          (user_with 5)))
     = false)
  /\ exists made,
       calls (_convert_with_config small_pdf (txt " JSON ") (txt "fast") (user_with 5))
       = creation small_pdf (txt " JSON ") (user_with 5)
         :: update_user_credits (txt "u-1") 3 :: made.
Proof.
  intros E.
  assert (Hfile : accepted small_pdf) by (split; [reflexivity|discriminate]).
  assert (Hcredits : (Z.of_nat 2 <= 5)%Z) by discriminate.
  assert (Hjson : unicode_corrected [numbers_page; statement_page]
                  = Returned [numbers_page; statement_page])
    by (vm_compute; reflexivity).
  assert (Hcols : forall cols, columns numbers_page = Some cols -> all_isdigit cols = true).
  { intros cols H. inversion H. vm_compute. reflexivity. }
  split.
  - intros output_formats Hformats.
    destruct (unusable_first_table_upload (E := E) small_pdf output_formats (txt "fast")
                (user_with 5) numbers_page [statement_page]
                Hfile eq_refl eq_refl Hcredits Hjson Hcols)
      as [Hother _].
    apply Hother. exists (txt "csv"). split; [|discriminate].
    destruct Hformats as [->| ->]; vm_compute; left; reflexivity.
  - destruct (unusable_first_table_upload (E := E) small_pdf (txt " JSON ") (txt "fast")
                (user_with 5) numbers_page [statement_page]
                Hfile eq_refl eq_refl Hcredits Hjson Hcols)
      as [_ [_ Hall]].
    destruct Hall as [Hcharged _].
    + vm_compute. repeat constructor.
    + intros turn Hturn. exists (txt "{}"). reflexivity.
    + exact Hcharged.
Defined.


Lemma rows_are_conserved_witness :
  exists r,
    process_tables_sequentially [statement_page; headerless_page; rowless_page]
    = Returned r
    /\ pd.len (final_df r) = 2.
Proof.
  pose (records := [record_of [("Date", "2023-12-31"); ("Amount", "5")]]).
  pose (rest := [headerless_page; rowless_page]).
  pose (r := result_of (all_processed (map txt ["Date"; "Amount"]) records rest)).
  assert (Hin : unicode_corrected [statement_page; headerless_page; rowless_page]
                = Returned (statement_page :: rest))
    by (vm_compute; reflexivity).
  assert (Hrun : process_tables_sequentially [statement_page; headerless_page; rowless_page]
                 = Returned r)
    by (apply (run_returns _ rest statement_page _ _ Hin eq_refl eq_refl);
        vm_compute; reflexivity).
  exists r. split; [exact Hrun|].
  rewrite (proj1 (rows_are_conserved _ _ _ _ _ r Hin eq_refl eq_refl Hrun)).
  vm_compute. reflexivity.
Defined.

End Examples.
